(** * Order lifecycle and payment reconciliation of the SEO order server

    A shallow embedding of
    - [src/database/schema.sql]: the tables, the seeded catalog,
      [generate_tracking_id], and the triggers [trigger_set_tracking_id],
      [update_orders_updated_at] and [trigger_add_status_history];
    - [src/unnamed/part_000] (imported as [config/database.js]):
      [beginTransaction], [commitTransaction], [rollbackTransaction], [query];
    - [src/services/paypal.js]: [extractPaymentInfo], [getAccessToken];
    - [src/unnamed/part_002] (the router of the orders): [POST /create],
      [POST /capture-payment], [GET /track/:trackingId],
      [POST /webhook/paypal], [POST /test-order],
      [POST /create-payment-intent];
    - [src/middleware/validation.js]: [validateStatusUpdate] and, further
      down in the same file, the administration's [PUT /orders/:id/status],
      [POST /orders/:id/deliver], [DELETE /orders/:id] and
      [DELETE /customers/:id].

    JavaScript numbers are IEEE-754 binary64 values: they are modelled by
    Rocq's primitive floats, whose operations are the same ones.  Columns
    of type DECIMAL(10,2) hold an integer number of cents.  A string holds
    the UTF-8 encoding of its text.  Rows are typed records: the length
    limits of the VARCHAR columns and the foreign keys are not modelled.
    Sending mail happens after the commit and its errors are caught and
    logged: it is left out. *)

From Stdlib Require Import ZArith PrimFloat Uint63 Ascii DecimalString.
From Stdlib Require Decimal DecimalZ FloatOps SpecFloat.
From Corelib Require FloatAxioms.
From stdpp Require Import gmap strings list fin_maps.

Local Open Scope Z_scope.

(** ** Column types *)

(** [CREATE TYPE order_status AS ENUM (...)] *)
Inductive order_status := pending | confirmed | in_progress | completed | cancelled.

(** [CREATE TYPE payment_status AS ENUM (...)]; its [pending] is [unpaid] here,
    the name being taken by [order_status]. *)
Inductive payment_status := unpaid | paid | failed | refunded.

(** [CREATE TYPE payment_method AS ENUM (...)] *)
Inductive payment_method := paypal | stripe | bank_transfer.

#[global] Instance order_status_eq_dec : EqDecision order_status.
Proof. solve_decision. Defined.
#[global] Instance payment_status_eq_dec : EqDecision payment_status.
Proof. solve_decision. Defined.
#[global] Instance payment_method_eq_dec : EqDecision payment_method.
Proof. solve_decision. Defined.

(** A TIMESTAMP, as far as the code looks into it: the calendar date that
    [TO_CHAR(NOW(), 'YYYYMMDD')] prints, and the time of day. *)
Record timestamp := Timestamp {
  ts_year : Z;
  ts_month : Z;
  ts_day : Z;
  ts_time : Z
}.

(** ** Rows *)

Record service := Service {
  s_name : string;
  s_is_active : bool
}.

(** [price] is DECIMAL(10,2): cents. *)
Record service_tier := ServiceTier {
  st_service_id : string;
  st_name : string;
  st_price : Z;
  st_delivery_days : Z;
  st_is_active : bool
}.

Record customer := Customer {
  c_name : string;
  c_email : string;
  c_website : string;
  c_phone : option string;
  c_updated_at : timestamp
}.

Record order := Order {
  tracking_id : string;
  customer_id : Z;
  service_tier_id : string;
  service_name : string;
  service_tier_name : string;
  service_price : Z;
  delivery_days : Z;
  keywords : string;
  quantity : Z;
  total_amount : Z;
  status : order_status;
  payment_status_of : payment_status;
  notes : option string;
  created_at : timestamp;
  updated_at : timestamp
}.

(** ** What the PayPal gateway sends (services/paypal.js reads these fields) *)

Record money := Money {
  value : string;
  currency_code : string
}.

(** [capture_paypal_fee] is [seller_receivable_breakdown.paypal_fee.value]. *)
Record capture := Capture {
  capture_id : option string;
  capture_amount : option money;
  capture_status : option string;
  capture_paypal_fee : option string
}.

Record purchase_unit := PurchaseUnit {
  reference_id : option string;
  pu_amount : option money;
  pu_captures : option (list capture)
}.

Record payer := Payer {
  payer_id_of : option string;
  email_address : option string
}.

(** The body of the capture call's answer ([response.data]). *)
Record paypal_response := PaypalResponse {
  pr_id : string;
  pr_status : string;
  pr_payer : option payer;
  purchase_units : list purchase_unit
}.

(** [webhookEvent.resource]: its [id] and the rest of the object. *)
Record webhook_resource := WebhookResource {
  resource_id : string;
  resource_rest : string
}.

(** The JSONB column [gateway_response]: [JSON.stringify] of the object the
    route was handed, kept as that object. *)
Inductive gateway_json :=
| CaptureJson (r : paypal_response)
| ResourceJson (r : webhook_resource).

Record payment := Payment {
  p_order_id : Z;
  p_method : payment_method;
  p_payment_id : option string;
  p_payer_id : option string;
  p_amount : Z;
  p_currency : string;
  p_status : payment_status;
  p_gateway_response : option gateway_json;
  p_created_at : timestamp;
  p_updated_at : timestamp
}.

Record history_row := HistoryRow {
  h_order_id : Z;
  h_status : order_status;
  h_notes : option string;
  h_changed_by : option Z;
  h_created_at : timestamp
}.

(** ** The database

    Tables with a primary key are finite maps from the key; [payments] and
    [order_status_history] are only ever appended to or updated in place, and
    are lists in insertion order (their SERIAL id is the position). *)
Record tables := Tables {
  services : gmap string service;
  service_tiers : gmap string service_tier;
  customers : gmap Z customer;
  orders : gmap Z order;
  payments : list payment;
  order_status_history : list history_row
}.

(** Sequences are not transactional: a rollback does not give a value back. *)
Record sequences := Sequences {
  customers_id_seq : Z;
  orders_id_seq : Z
}.

(** The pooled client a handler holds: [InTransaction w] after BEGIN, with
    [w] the rows as the transaction sees them; [Released] once given back. *)
Inductive client :=
| InTransaction (work : tables)
| Released.

(** The state a request runs against: the committed rows, the sequences, the
    clock ([CURRENT_TIMESTAMP] and [NOW()] are the transaction's start time),
    and the client of this request. *)
Record world := World {
  db : tables;
  seqs : sequences;
  now : timestamp;
  conn : client
}.

(** Field updates ([t with orders := o] and the like). *)
Definition set_customers (c : gmap Z customer) (t : tables) : tables :=
  Tables (services t) (service_tiers t) c (orders t) (payments t) (order_status_history t).
Definition set_orders (o : gmap Z order) (t : tables) : tables :=
  Tables (services t) (service_tiers t) (customers t) o (payments t) (order_status_history t).
Definition set_payments (p : list payment) (t : tables) : tables :=
  Tables (services t) (service_tiers t) (customers t) (orders t) p (order_status_history t).
Definition set_history (h : list history_row) (t : tables) : tables :=
  Tables (services t) (service_tiers t) (customers t) (orders t) (payments t) h.

Definition set_db (t : tables) (w : world) : world := World t (seqs w) (now w) (conn w).
Definition set_seqs (s : sequences) (w : world) : world := World (db w) s (now w) (conn w).
Definition set_conn (c : client) (w : world) : world := World (db w) (seqs w) (now w) c.

(** ** Handlers as state-and-exception computations

    An [async] handler body either produces a value or throws; either way it
    may have changed the world. *)
Inductive result (A : Type) :=
| Ok (a : A)
| Throw (e : string).
Arguments Ok {A} a.
Arguments Throw {A} e.

Definition M (A : Type) : Type := world -> result A * world.

Definition ret {A} (a : A) : M A := fun w => (Ok a, w).
Definition throw {A} (e : string) : M A := fun w => (Throw e, w).
Definition bind {A B} (m : M A) (k : A -> M B) : M B :=
  fun w => match m w with
           | (Ok a, w') => k a w'
           | (Throw e, w') => (Throw e, w')
           end.
(** [try { body } catch (error) { handler }] *)
Definition try_catch {A} (body : M A) (handler : string -> M A) : M A :=
  fun w => match body w with
           | (Ok a, w') => (Ok a, w')
           | (Throw e, w') => handler e w'
           end.
(** The value of a computation that did not throw. *)
Definition result_value {A} (r : result A) : option A :=
  match r with Ok a => Some a | Throw _ => None end.
(** A call that throws when its answer is missing. *)
Definition or_throw {A} (e : string) (o : option A) : M A :=
  match o with Some a => ret a | None => throw e end.

Declare Scope handler_scope.
Delimit Scope handler_scope with handler.
Notation "x <- c ;; k" := (bind c (fun x => k))
  (at level 100, c at next level, right associativity) : handler_scope.
Notation "c ;; k" := (bind c (fun _ => k))
  (at level 100, right associativity) : handler_scope.
Local Open Scope handler_scope.

(** ** [config/database.js] (src/unnamed/part_000, lines 91-112) *)

Definition already_released : string :=
  "Release called on client which has already been released to the pool.".

(** [pool.connect()] then [BEGIN]. *)
Definition beginTransaction : M unit :=
  fun w => (Ok tt, set_conn (InTransaction (db w)) w).

(** [COMMIT], and [client.release()] in the [finally]: releasing a client a
    second time throws. *)
Definition commitTransaction : M unit :=
  fun w => match conn w with
           | InTransaction t => (Ok tt, set_conn Released (set_db t w))
           | Released => (Throw already_released, w)
           end.

(** [ROLLBACK], and [client.release()] in the [finally]. *)
Definition rollbackTransaction : M unit :=
  fun w => match conn w with
           | InTransaction _ => (Ok tt, set_conn Released w)
           | Released => (Throw already_released, w)
           end.

(** The rows [client.query] works on: the open transaction's. *)
Definition visible (w : world) : tables :=
  match conn w with InTransaction t => t | Released => db w end.
Definition set_visible (t : tables) (w : world) : world :=
  match conn w with
  | InTransaction _ => set_conn (InTransaction t) w
  | Released => set_db t w
  end.

(** [client.query] of a SELECT, and of an INSERT or UPDATE. *)
Definition client_select {A} (q : tables -> A) : M A :=
  fun w => (Ok (q (visible w)), w).
Definition client_exec (q : timestamp -> tables -> tables) : M unit :=
  fun w => (Ok tt, set_visible (q (now w) (visible w)) w).

(** [query] (that is [pool.query]): one statement, committed on its own. *)
Definition query_exec (q : timestamp -> tables -> tables) : M unit :=
  fun w => (Ok tt, set_db (q (now w) (db w)) w).

Definition nextval_orders_id_seq : M Z :=
  fun w => let n := orders_id_seq (seqs w) + 1 in
           (Ok n, set_seqs (Sequences (customers_id_seq (seqs w)) n) w).
Definition nextval_customers_id_seq : M Z :=
  fun w => let n := customers_id_seq (seqs w) + 1 in
           (Ok n, set_seqs (Sequences n (orders_id_seq (seqs w))) w).

(** ** src/database/schema.sql, lines 212-217: [generate_tracking_id] *)

(** [n::TEXT] *)
Definition text (n : Z) : string := NilZero.string_of_int (Z.to_int n).

Fixpoint repeat_string (k : nat) (s : string) : string :=
  match k with
  | O => EmptyString
  | S k' => s +:+ repeat_string k' s
  end.

(** [LPAD(s, n, fill)]: [s] filled on the left up to [n] characters, and cut
    on the right down to [n] characters when it is longer. *)
Definition lpad (s : string) (n : nat) (fill : string) : string :=
  let len := String.length s in
  if (n <=? len)%nat then String.substring 0 n s
  else String.substring 0 (n - len) (repeat_string (n - len) fill) +:+ s.

(** A [TO_CHAR] field of at least [n] digits. *)
Definition digits_field (n : nat) (z : Z) : string :=
  let s := text z in
  repeat_string (n - String.length s) "0" +:+ s.

(** [TO_CHAR(ts, 'YYYYMMDD')] *)
Definition to_char_YYYYMMDD (ts : timestamp) : string :=
  digits_field 4 (ts_year ts) +:+ digits_field 2 (ts_month ts) +:+ digits_field 2 (ts_day ts).

(** [generate_tracking_id()], given [NOW()] and the value [nextval] returned. *)
Definition generate_tracking_id (ts : timestamp) (n : Z) : string :=
  "SEO-" +:+ to_char_YYYYMMDD ts +:+ "-" +:+ lpad (text n) 4 "0".

(** ** The statements the routes send, and the triggers of
    src/database/schema.sql, lines 219-261 *)

(** [SELECT st.*, s.name as service_name FROM service_tiers st JOIN services s
    ON st.service_id = s.id WHERE st.id = $1 AND st.is_active = true AND
    s.is_active = true] *)
Definition select_service_tier (id : string) (t : tables) : option (service_tier * string) :=
  tier ← service_tiers t !! id;
  svc ← services t !! st_service_id tier;
  if st_is_active tier && s_is_active svc then Some (tier, s_name svc) else None.

(** [SELECT id FROM customers WHERE email = $1] (the column is UNIQUE). *)
Definition select_customer_by_email (email : string) (t : tables) : option Z :=
  fst <$> head (filter (λ kc, c_email kc.2 = email) (map_to_list (customers t))).

(** [SELECT o.*, c.name, c.email, c.website FROM orders o JOIN customers c
    ON o.customer_id = c.id WHERE o.id = $1] *)
Definition select_order_with_customer (id : Z) (t : tables) : option (order * customer) :=
  o ← orders t !! id;
  c ← customers t !! customer_id o;
  Some (o, c).

(** [SELECT * FROM orders WHERE id = $1] *)
Definition select_order (id : Z) (t : tables) : option order := orders t !! id.

Definition with_status (s : order_status) (o : order) : order :=
  Order (tracking_id o) (customer_id o) (service_tier_id o) (service_name o)
        (service_tier_name o) (service_price o) (delivery_days o) (keywords o)
        (quantity o) (total_amount o) s (payment_status_of o) (notes o)
        (created_at o) (updated_at o).
Definition with_payment_status (p : payment_status) (o : order) : order :=
  Order (tracking_id o) (customer_id o) (service_tier_id o) (service_name o)
        (service_tier_name o) (service_price o) (delivery_days o) (keywords o)
        (quantity o) (total_amount o) (status o) p (notes o)
        (created_at o) (updated_at o).
Definition with_updated_at (ts : timestamp) (o : order) : order :=
  Order (tracking_id o) (customer_id o) (service_tier_id o) (service_name o)
        (service_tier_name o) (service_price o) (delivery_days o) (keywords o)
        (quantity o) (total_amount o) (status o) (payment_status_of o) (notes o)
        (created_at o) ts.

(** [INSERT INTO order_status_history (order_id, status, notes, changed_by)];
    [created_at] takes its default. *)
Definition insert_history (id : Z) (s : order_status) (n : option string)
    (by_admin : option Z) (ts : timestamp) (t : tables) : tables :=
  set_history (order_status_history t ++ [HistoryRow id s n by_admin ts]) t.

(** The function of [trigger_add_status_history] (AFTER UPDATE ON orders FOR
    EACH ROW). *)
Definition add_status_history (id : Z) (old new : order) (ts : timestamp) (t : tables) : tables :=
  if decide (status old = status new) then t
  else insert_history id (status new) (Some "Status changed automatically"%string) None ts t.

(** [UPDATE orders SET ... WHERE id = $n]: the assignments [f] on the row of
    that id, then [update_orders_updated_at] (BEFORE UPDATE) and
    [trigger_add_status_history] (AFTER UPDATE).  No row of that id: nothing
    happens. *)
Definition update_order (id : Z) (f : order -> order) (ts : timestamp) (t : tables) : tables :=
  match orders t !! id with
  | None => t
  | Some old =>
      let new := with_updated_at ts (f old) in
      add_status_history id old new ts (set_orders (<[id := new]> (orders t)) t)
  end.

(** [INSERT INTO payments ...] *)
Definition insert_payment (p : payment) (t : tables) : tables :=
  set_payments (payments t ++ [p]) t.

(** [UPDATE payments SET status = $1, gateway_response = $2, updated_at =
    CURRENT_TIMESTAMP WHERE payment_id = $3] *)
Definition update_payment_row (s : payment_status) (j : gateway_json) (ts : timestamp)
    (p : payment) : payment :=
  Payment (p_order_id p) (p_method p) (p_payment_id p) (p_payer_id p) (p_amount p)
          (p_currency p) s (Some j) (p_created_at p) ts.
Definition update_payments_by_payment_id (s : payment_status) (j : gateway_json)
    (pid : string) (ts : timestamp) (t : tables) : tables :=
  set_payments
    (map (λ p, if decide (p_payment_id p = Some pid) then update_payment_row s j ts p else p)
         (payments t)) t.

(** [UPDATE customers SET name = $1, website = $2, updated_at =
    CURRENT_TIMESTAMP WHERE id = $3] *)
Definition update_customer (id : Z) (name website : string) (ts : timestamp) (t : tables) : tables :=
  match customers t !! id with
  | None => t
  | Some c =>
      set_customers (<[id := Customer name (c_email c) website (c_phone c) ts]> (customers t)) t
  end.

(** [INSERT INTO customers (name, email, website, phone) ... RETURNING id] *)
Definition insert_customer (name email website : string) (phone : option string) : M Z :=
  id <- nextval_customers_id_seq ;;
  fun w =>
    let t := visible w in
    match customers t !! id with
    | Some _ => (Throw "duplicate key value violates unique constraint customers_pkey"%string, w)
    | None =>
        (Ok id, set_visible
                  (set_customers (<[id := Customer name email website phone (now w)]> (customers t)) t) w)
    end.

(** The UNIQUE constraint on [orders.tracking_id]. *)
Definition tracking_id_taken (tid : string) (t : tables) : bool :=
  bool_decide (map_Exists (λ _ o, tracking_id o = tid) (orders t)).

(** ** JavaScript numbers *)

(** The number of an integer value. *)
Definition number_of_Z (z : Z) : float :=
  if z <? 0 then PrimFloat.opp (PrimFloat.of_uint63 (Uint63.of_Z (- z)))
  else PrimFloat.of_uint63 (Uint63.of_Z z).

(** The number a DECIMAL(10,2) column reads as ([parseFloat] or [Number] of
    the text the driver returns, such as ["450.00"]): the double nearest to
    cents/100, which is what the correctly rounded division yields. *)
Definition number_of_decimal (cents : Z) : float :=
  PrimFloat.div (number_of_Z cents) (number_of_Z 100).

(** [serviceTier.price * quantity]: the price is the text of a DECIMAL, which
    [*] reads as a number; the product is the double product. *)
Definition totalAmount (serviceTier : service_tier) (quantity : Z) : float :=
  PrimFloat.mul (number_of_decimal (st_price serviceTier)) (number_of_Z quantity).

#[local] Set Warnings "-inexact-float".
(** [Math.abs(amount - parseFloat(order.total_amount)) > 0.01] *)
Definition amount_mismatch (amount : float) (total_cents : Z) : bool :=
  PrimFloat.ltb 0.01 (PrimFloat.abs (PrimFloat.sub amount (number_of_decimal total_cents))).
#[local] Set Warnings "inexact-float".

(** ** Requests and responses *)

Record payment_info := PaymentInfo {
  paypalOrderId : string;
  captureId : option string;
  payerId : option string;
  payerEmail : option string;
  amount : float;
  currency : string;
  info_status : string;
  referenceId : option string;
  transactionFee : string
}.

(** One entry of [createdOrders] in [POST /test-order]. *)
Record created_order := CreatedOrder {
  co_id : Z;
  co_trackingId : string;
  co_serviceName : string;
  co_serviceTierName : string;
  co_totalAmount : float;
  co_deliveryDays : Z;
  co_status : order_status;
  co_paymentStatus : payment_status
}.

(** One entry of [orderItems] in [POST /create-payment-intent]. *)
Record order_item := OrderItem {
  oi_serviceId : string;
  oi_serviceName : string;
  oi_tierName : string;
  oi_price : Z;
  oi_quantity : Z;
  oi_total : float
}.

Inductive response_data :=
| NoData
| CaptureData (orderId : Z) (trackingId : string) (paymentId : string) (amount : float)
| StatusData (updated : option order)
| TestOrderData (created : list created_order) (totalAmount : float)
| PaymentIntentData (clientSecret paymentIntentId : string) (amount : float)
                    (orderItems : list order_item).

(** [res.status(code).json({ success, message, data })] *)
Record response := Response {
  status_code : Z;
  success : bool;
  message : string;
  data : response_data
}.

(** [req.body] of [POST /create], as the handler reads it.  The validators
    in front of the handler ([validateOrderCreation]) let through only a
    [serviceId] that is the text of an integer and a quantity from 1 to
    100; the handler is modelled for every string, so that what is proved
    of every request holds of the ones it receives. *)
Record create_request := CreateRequest {
  customerName : string;
  customerEmail : string;
  website : string;
  req_keywords : string;
  serviceId : string;
  req_quantity : option Z
}.

(** [req.body] of [POST /capture-payment]. *)
Record capture_request := CaptureRequest {
  req_paypalOrderId : string;
  req_orderId : Z
}.

(** [req.params], [req.body] and [req.admin] of [PUT /orders/:id/status],
    after [validateStatusUpdate], which admits exactly the five values of
    [order_status] for [status]. *)
Record status_request := StatusRequest {
  sr_id : Z;
  sr_status : order_status;
  sr_notes : option string;
  sr_admin_id : Z
}.

(** [req.body] of [POST /webhook/paypal]. *)
Record webhook_event := WebhookEvent {
  event_type : string;
  resource : webhook_resource
}.

Record cart_item := CartItem {
  ci_serviceId : string;
  ci_quantity : option Z;
  ci_keywords : option string
}.

Record customer_input := CustomerInput {
  ci_name : string;
  ci_email : string;
  ci_website : string;
  ci_phone : option string
}.

(** [req.body] of [POST /test-order] and [POST /create-payment-intent]:
    [cart] is [None] when it is missing or not an array. *)
Record cart_request := CartRequest {
  cart : option (list cart_item);
  cart_customer : option customer_input
}.

(** What [stripeService.createPaymentIntent] returns. *)
Record payment_intent := PaymentIntent {
  pi_clientSecret : string;
  pi_paymentIntentId : string
}.

(** The INSERT parameters of [orders]. *)
Record order_values := OrderValues {
  ov_customer_id : Z;
  ov_service_tier_id : string;
  ov_service_name : string;
  ov_service_tier_name : string;
  ov_service_price : Z;
  ov_delivery_days : Z;
  ov_keywords : string;
  ov_quantity : Z;
  ov_total_amount : float;
  ov_status : order_status;
  ov_payment_status : payment_status
}.

(** A string that is neither [undefined] nor empty ([x || y] takes [y]
    otherwise). *)
Definition truthy (s : option string) : option string :=
  match s with
  | Some EmptyString => None
  | other => other
  end.

(** [s.length]: the number of UTF-16 code units of a JavaScript string.  A
    string of the model holds the UTF-8 encoding of the text: a code point
    below U+10000 (one lead byte, no lead byte from 0xF0 on) is one unit, a
    code point from U+10000 on (lead byte from 0xF0 on) is two, and the
    continuation bytes 0x80 to 0xBF count for nothing. *)
Definition utf16_units (b : ascii) : nat :=
  let n := Ascii.N_of_ascii b in
  if (n <? 128)%N then 1%nat
  else if (n <? 192)%N then 0%nat
  else if (n <? 240)%N then 1%nat
  else 2%nat.

Fixpoint js_length (s : string) : nat :=
  match s with
  | EmptyString => 0%nat
  | String b rest => (utf16_units b + js_length rest)%nat
  end.

Section Runtime.

(** Two functions of the platform, outside the repository: JavaScript's
    [parseFloat], and PostgreSQL's conversion of the text of a number to
    DECIMAL(10,2) ([None]: the value is refused and the statement fails). *)
Variable parseFloat : string -> float.
Variable numeric_10_2 : float -> option Z.

(** *** src/services/paypal.js: [extractPaymentInfo]; [None] when it throws. *)
Definition extractPaymentInfo (paypalResponse : paypal_response) : option payment_info :=
  purchaseUnit ← head (purchase_units paypalResponse);
  let capture := pu_captures purchaseUnit ≫= head in
  let capture_money := capture ≫= capture_amount in
  amount_text ← match truthy (value <$> capture_money) with
                | Some v => Some v
                | None => value <$> pu_amount purchaseUnit
                end;
  currency_text ← match truthy (currency_code <$> capture_money) with
                  | Some c => Some c
                  | None => currency_code <$> pu_amount purchaseUnit
                  end;
  Some (PaymentInfo
          (pr_id paypalResponse)
          (capture ≫= capture_id)
          (pr_payer paypalResponse ≫= payer_id_of)
          (pr_payer paypalResponse ≫= email_address)
          (parseFloat amount_text)
          currency_text
          (default (pr_status paypalResponse) (truthy (capture ≫= capture_status)))
          (reference_id purchaseUnit)
          (default "0.00"%string (truthy (capture ≫= capture_paypal_fee)))).

Definition numeric_refused : string := "invalid input for type numeric".

(** [INSERT INTO orders (...) VALUES (...) RETURNING *]: [id] takes its
    default [nextval('orders_id_seq')], [trigger_set_tracking_id] (BEFORE
    INSERT) takes the next value of the same sequence for the tracking id,
    and the primary key and the UNIQUE constraint are checked. *)
Definition insert_order (v : order_values) : M (Z * order) :=
  total <- or_throw numeric_refused (numeric_10_2 (ov_total_amount v)) ;;
  id <- nextval_orders_id_seq ;;
  n <- nextval_orders_id_seq ;;
  fun w =>
    let t := visible w in
    let row := Order (generate_tracking_id (now w) n) (ov_customer_id v)
                     (ov_service_tier_id v) (ov_service_name v) (ov_service_tier_name v)
                     (ov_service_price v) (ov_delivery_days v) (ov_keywords v)
                     (ov_quantity v) total (ov_status v) (ov_payment_status v) None
                     (now w) (now w) in
    match orders t !! id with
    | Some _ => (Throw "duplicate key value violates unique constraint orders_pkey"%string, w)
    | None =>
        if tracking_id_taken (tracking_id row) t
        then (Throw "duplicate key value violates unique constraint orders_tracking_id_key"%string, w)
        else (Ok (id, row), set_visible (set_orders (<[id := row]> (orders t)) t) w)
    end.

(** [INSERT INTO payments (...)], the amount being a JavaScript number. *)
Definition insert_payment_values (order_id : Z) (method : payment_method)
    (payment_id payer_id : option string) (amount : float) (currency : string)
    (s : payment_status) (j : option gateway_json) : M unit :=
  cents <- or_throw numeric_refused (numeric_10_2 amount) ;;
  client_exec (λ ts, insert_payment
                       (Payment order_id method payment_id payer_id cents currency s j ts ts)).

(** *** src/unnamed/part_002, lines 23-144: [POST /create]

    The statement after the commit reads [service.name], and no [service]
    is declared in the module: it throws, the [catch] calls
    [rollbackTransaction] on the released client, and that throws again. *)
Definition create_order (req : create_request) : M response :=
  beginTransaction ;;
  try_catch
    (let quantity := default 1 (req_quantity req) in
     serviceTierResult <- client_select (select_service_tier (serviceId req)) ;;
     match serviceTierResult with
     | None =>
         rollbackTransaction ;;
         ret (Response 400 false "Invalid or inactive service tier" NoData)
     | Some (serviceTier, tier_service_name) =>
         customerResult <- client_select (select_customer_by_email (customerEmail req)) ;;
         customerId <- match customerResult with
                       | Some id =>
                           client_exec (update_customer id (customerName req) (website req)) ;;
                           ret id
                       | None =>
                           insert_customer (customerName req) (customerEmail req) (website req) None
                       end ;;
         created <- insert_order
                      (OrderValues customerId (serviceId req) tier_service_name
                                   (st_name serviceTier) (st_price serviceTier)
                                   (st_delivery_days serviceTier) (req_keywords req)
                                   quantity (totalAmount serviceTier quantity)
                                   pending unpaid) ;;
         client_exec (insert_history created.1 pending (Some "Order created"%string) None) ;;
         commitTransaction ;;
         throw "ReferenceError: service is not defined"
     end)
    (λ _, rollbackTransaction ;;
          ret (Response 500 false "Failed to create order" NoData)).

(** *** src/unnamed/part_002, lines 146-248: [POST /capture-payment]

    [gateway] is [paypalService.captureOrder]: the answer's body, or
    [None] when the call throws. *)
Definition capture_payment (gateway : string -> option paypal_response)
    (req : capture_request) : M response :=
  beginTransaction ;;
  try_catch
    (orderResult <- client_select (select_order_with_customer (req_orderId req)) ;;
     match orderResult with
     | None =>
         rollbackTransaction ;;
         ret (Response 404 false "Order not found" NoData)
     | Some (order, _) =>
         captureResult <- or_throw "Failed to capture PayPal order"
                                   (gateway (req_paypalOrderId req)) ;;
         paymentInfo <- or_throw "Failed to extract payment information"
                                 (extractPaymentInfo captureResult) ;;
         if amount_mismatch (amount paymentInfo) (total_amount order) then
           rollbackTransaction ;;
           ret (Response 400 false "Payment amount mismatch" NoData)
         else
           client_exec (update_order (req_orderId req)
                          (λ o, with_status confirmed (with_payment_status paid o))) ;;
           insert_payment_values (req_orderId req) paypal
             (Some (paypalOrderId paymentInfo)) (payerId paymentInfo)
             (amount paymentInfo) (currency paymentInfo) paid
             (Some (CaptureJson captureResult)) ;;
           client_exec (insert_history (req_orderId req) confirmed
                          (Some "Payment received and confirmed"%string) None) ;;
           commitTransaction ;;
           ret (Response 200 true "Payment captured successfully"
                  (CaptureData (req_orderId req) (tracking_id order)
                               (paypalOrderId paymentInfo) (amount paymentInfo)))
     end)
    (λ _, rollbackTransaction ;;
          ret (Response 500 false "Failed to capture payment" NoData)).

End Runtime.

(** *** src/middleware/validation.js, lines 587-667: [PUT /orders/:id/status] *)
Definition update_order_status (req : status_request) : M response :=
  beginTransaction ;;
  try_catch
    (let notes := default EmptyString (sr_notes req) in
     orderResult <- client_select (select_order (sr_id req)) ;;
     match orderResult with
     | None =>
         rollbackTransaction ;;
         ret (Response 404 false "Order not found" NoData)
     | Some currentOrder =>
         client_exec (update_order (sr_id req) (with_status (sr_status req))) ;;
         updateResult <- client_select (select_order (sr_id req)) ;;
         client_exec (insert_history (sr_id req) (sr_status req) (Some notes)
                        (Some (sr_admin_id req))) ;;
         customerResult <- client_select (select_order_with_customer (sr_id req)) ;;
         commitTransaction ;;
         ret (Response 200 true "Order status updated successfully" (StatusData updateResult))
     end)
    (λ _, rollbackTransaction ;;
          ret (Response 500 false "Failed to update order status" NoData)).

(** *** src/unnamed/part_002, lines 344-422: [POST /webhook/paypal] *)
Definition handlePaymentCompleted (r : webhook_resource) : M unit :=
  try_catch
    (query_exec (update_payments_by_payment_id paid (ResourceJson r) (resource_id r)))
    (λ _, ret tt).

Definition handlePaymentDenied (r : webhook_resource) : M unit :=
  try_catch
    (query_exec (update_payments_by_payment_id failed (ResourceJson r) (resource_id r)))
    (λ _, ret tt).

Definition paypal_webhook (webhookEvent : webhook_event) : M response :=
  try_catch
    ((if decide (event_type webhookEvent = "CHECKOUT.ORDER.APPROVED"%string) then ret tt
      else if decide (event_type webhookEvent = "PAYMENT.CAPTURE.COMPLETED"%string)
           then handlePaymentCompleted (resource webhookEvent)
      else if decide (event_type webhookEvent = "PAYMENT.CAPTURE.DENIED"%string)
           then handlePaymentDenied (resource webhookEvent)
      else ret tt) ;;
     ret (Response 200 true EmptyString NoData))
    (λ _, ret (Response 500 false EmptyString NoData)).

(** The same route on any request.  [paypal_webhook] above is the route on
    an event that has its [event_type], its [resource] and the resource's
    [id]; each of the three can be missing from [req.body], and so can the
    body ([None]: [req.body] is [undefined]).  [production] is
    [process.env.NODE_ENV === 'production'].

    Reading [event_type] of a missing body throws in the route's [try].
    Reading [resource.id] of a missing resource throws: in the two handlers
    inside their own [try], whose [catch] logs it; in the branch of
    [CHECKOUT.ORDER.APPROVED], which reads it to log it outside production,
    in the route's [try].  A missing [id] reaches the UPDATE as NULL, and
    [payment_id = NULL] holds of no row. *)
Record raw_resource := RawResource {
  raw_id : option string;
  raw_rest : string
}.

Record webhook_body := WebhookBody {
  wb_event_type : option string;
  wb_resource : option raw_resource
}.

Definition undefined_resource : string :=
  "TypeError: Cannot read properties of undefined (reading 'id')".
Definition undefined_body : string :=
  "TypeError: Cannot read properties of undefined (reading 'event_type')".

Definition update_payments_of_resource (s : payment_status) (r : raw_resource) : M unit :=
  match raw_id r with
  | Some paymentId =>
      query_exec (update_payments_by_payment_id
                    s (ResourceJson (WebhookResource paymentId (raw_rest r))) paymentId)
  | None => query_exec (λ _ t, t)
  end.

Definition handlePaymentCompleted_body (resource : option raw_resource) : M unit :=
  try_catch
    (r <- or_throw undefined_resource resource ;;
     update_payments_of_resource paid r)
    (λ _, ret tt).

Definition handlePaymentDenied_body (resource : option raw_resource) : M unit :=
  try_catch
    (r <- or_throw undefined_resource resource ;;
     update_payments_of_resource failed r)
    (λ _, ret tt).

Definition paypal_webhook_body (production : bool) (body : option webhook_body)
    : M response :=
  try_catch
    (webhookEvent <- or_throw undefined_body body ;;
     (if decide (wb_event_type webhookEvent = Some "CHECKOUT.ORDER.APPROVED"%string) then
        if production then ret tt
        else r <- or_throw undefined_resource (wb_resource webhookEvent) ;; ret tt
      else if decide (wb_event_type webhookEvent = Some "PAYMENT.CAPTURE.COMPLETED"%string)
           then handlePaymentCompleted_body (wb_resource webhookEvent)
      else if decide (wb_event_type webhookEvent = Some "PAYMENT.CAPTURE.DENIED"%string)
           then handlePaymentDenied_body (wb_resource webhookEvent)
      else ret tt) ;;
     ret (Response 200 true EmptyString NoData))
    (λ _, ret (Response 500 false EmptyString NoData)).

(** The body of an event that has its type, its resource and the id. *)
Definition body_of_event (ev : webhook_event) : webhook_body :=
  WebhookBody (Some (event_type ev))
              (Some (RawResource (Some (resource_id (resource ev)))
                                 (resource_rest (resource ev)))).

(** The answer 500 of the route: no body; or an approved order without
    resource, logged outside production. *)
Definition webhook_throws (production : bool) (body : option webhook_body) : bool :=
  match body with
  | None => true
  | Some webhookEvent =>
      bool_decide (wb_event_type webhookEvent = Some "CHECKOUT.ORDER.APPROVED"%string)
      && negb production
      && bool_decide (wb_resource webhookEvent = None)
  end.

Section CartRoutes.

Variable numeric_10_2 : float -> option Z.

Definition cart_required : response :=
  Response 400 false "Cart is required and must contain at least one item" NoData.

(** *** src/unnamed/part_002, lines 424-664: [POST /test-order]

    The loop over the cart: [inl] is the response of an early [return]. *)
Fixpoint test_order_items (items : list cart_item) (customerId : Z)
    (createdOrders : list created_order) (totalCartAmount : float)
    : M (response + list created_order * float) :=
  match items with
  | [] => ret (inr (createdOrders, totalCartAmount))
  | cartItem :: rest =>
      let quantity := default 1 (ci_quantity cartItem) in
      let keywords :=
        default "SEO optimization, digital marketing"%string (ci_keywords cartItem) in
      serviceTierResult <- client_select (select_service_tier (ci_serviceId cartItem)) ;;
      match serviceTierResult with
      | None =>
          rollbackTransaction ;;
          ret (inl (Response 400 false
                      ("Invalid service selected. Service ID '" +:+ ci_serviceId cartItem
                         +:+ "' not found.") NoData))
      | Some (serviceTier, tier_service_name) =>
          let itemTotal := totalAmount serviceTier quantity in
          created <- insert_order numeric_10_2
                       (OrderValues customerId (ci_serviceId cartItem) tier_service_name
                                    (st_name serviceTier) (st_price serviceTier)
                                    (st_delivery_days serviceTier) keywords quantity
                                    itemTotal confirmed paid) ;;
          insert_payment_values numeric_10_2 created.1 paypal
            (Some ("TEST-" +:+ tracking_id created.2)) None itemTotal "USD" paid None ;;
          test_order_items rest customerId
            (createdOrders ++
               [CreatedOrder created.1 (tracking_id created.2) (service_name created.2)
                             (service_tier_name created.2)
                             (number_of_decimal (total_amount created.2))
                             (delivery_days created.2) (status created.2)
                             (payment_status_of created.2)])
            (PrimFloat.add totalCartAmount itemTotal)
      end
  end.

Definition test_order (req : cart_request) : M response :=
  beginTransaction ;;
  try_catch
    (match cart req with
     | None | Some [] => ret cart_required
     | Some items =>
         match cart_customer req with
         | None =>
             ret (Response 400 false "Customer name, email, and website are required" NoData)
         | Some customer =>
             if bool_decide (ci_name customer = EmptyString)
                || bool_decide (ci_email customer = EmptyString)
                || bool_decide (ci_website customer = EmptyString)
             then ret (Response 400 false "Customer name, email, and website are required"
                         NoData)
             else if (js_length (ci_name customer) <? 2)%nat
                     || (255 <? js_length (ci_name customer))%nat
             then ret (Response 400 false
                         "Customer name must be between 2 and 255 characters" NoData)
             else
               existingCustomer <- client_select (select_customer_by_email (ci_email customer)) ;;
               customerId <- match existingCustomer with
                             | Some id => ret id
                             | None => insert_customer (ci_name customer) (ci_email customer)
                                         (ci_website customer) (ci_phone customer)
                             end ;;
               looped <- test_order_items items customerId [] PrimFloat.zero ;;
               match looped with
               | inl early => ret early
               | inr (createdOrders, totalCartAmount) =>
                   commitTransaction ;;
                   ret (Response 200 true
                          (text (Z.of_nat (length createdOrders))
                             +:+ " test orders created successfully")
                          (TestOrderData createdOrders totalCartAmount))
               end
         end
     end)
    (λ _, try_catch rollbackTransaction (λ _, ret tt) ;;
          ret (Response 500 false "Failed to create test order" NoData)).

(** *** src/unnamed/part_002, lines 666-747: [POST /create-payment-intent] *)
Fixpoint payment_intent_items (items : list cart_item) (total : float)
    (orderItems : list order_item) : M (response + float * list order_item) :=
  match items with
  | [] => ret (inr (total, orderItems))
  | cartItem :: rest =>
      let quantity := default 1 (ci_quantity cartItem) in
      serviceTierResult <- client_select (select_service_tier (ci_serviceId cartItem)) ;;
      match serviceTierResult with
      | None =>
          rollbackTransaction ;;
          ret (inl (Response 400 false
                      ("Invalid service selected: " +:+ ci_serviceId cartItem) NoData))
      | Some (serviceTier, tier_service_name) =>
          let itemTotal := totalAmount serviceTier quantity in
          payment_intent_items rest (PrimFloat.add total itemTotal)
            (orderItems ++
               [OrderItem (ci_serviceId cartItem) tier_service_name (st_name serviceTier)
                          (st_price serviceTier) quantity itemTotal])
      end
  end.

(** [stripe] is [stripeService.createPaymentIntent] on the amount and the
    customer's email: [None] when it throws. *)
Definition create_payment_intent (stripe : float -> string -> option payment_intent)
    (req : cart_request) : M response :=
  beginTransaction ;;
  try_catch
    (match cart req with
     | None | Some [] => ret cart_required
     | Some items =>
         looped <- payment_intent_items items PrimFloat.zero [] ;;
         match looped with
         | inl early => ret early
         | inr (total, orderItems) =>
             rollbackTransaction ;;
             customer <- or_throw "TypeError: Cannot read properties of undefined"
                                  (cart_customer req) ;;
             paymentIntent <- or_throw "Failed to create payment intent"
                                       (stripe total (ci_email customer)) ;;
             ret (Response 200 true EmptyString
                    (PaymentIntentData (pi_clientSecret paymentIntent)
                                       (pi_paymentIntentId paymentIntent)
                                       total orderItems))
         end
     end)
    (λ _, rollbackTransaction ;;
          ret (Response 500 false "Failed to create payment intent" NoData)).

End CartRoutes.

(** A response sent while the request's client is still checked out of the
    pool, its transaction open. *)
Definition holds_connection (w : world) : bool :=
  match conn w with InTransaction _ => true | Released => false end.

(** ** A concrete platform, to run the handlers on concrete requests

    [parse_decimal] is [parseFloat] on texts made of digits with at most one
    point (the double nearest to the decimal, by one correctly rounded
    division), and NaN on the others; [round_cents] rounds the exact value
    of a double to two decimals, half away from zero, and refuses what does
    not fit DECIMAL(10,2). *)
Definition digit_of_ascii (a : ascii) : option Z :=
  let n := Z.of_N (Ascii.N_of_ascii a) in
  if (48 <=? n) && (n <=? 57) then Some (n - 48) else None.

Fixpoint parse_decimal_go (s : string) (num den : Z) (after_point : bool) : option (Z * Z) :=
  match s with
  | EmptyString => Some (num, den)
  | String a rest =>
      if Ascii.eqb a "."%char then
        if after_point then None else parse_decimal_go rest num den true
      else
        d ← digit_of_ascii a;
        parse_decimal_go rest (10 * num + d) (if after_point then 10 * den else den) after_point
  end.

Definition parse_decimal (s : string) : float :=
  match s with
  | EmptyString => PrimFloat.nan
  | _ => match parse_decimal_go s 0 1 false with
         | Some (num, den) => PrimFloat.div (number_of_Z num) (number_of_Z den)
         | None => PrimFloat.nan
         end
  end.

Definition round_cents (f : float) : option Z :=
  match FloatOps.Prim2SF f with
  | SpecFloat.S754_zero _ => Some 0
  | SpecFloat.S754_finite negative m e =>
      let scaled := Z.pos m * 100 in
      let magnitude := if 0 <=? e then scaled * 2 ^ e
                       else (2 * scaled / 2 ^ (- e) + 1) / 2 in
      if magnitude <? 10 ^ 10
      then Some (if negative then - magnitude else magnitude)
      else None
  | _ => None
  end.

(** The rows [schema.sql] inserts into [services] (id, name) and
    [service_tiers] (id, service, name, price in cents, delivery days). *)
Definition seed_services : gmap string service :=
  list_to_map
    [ ("monthly-seo-packages", Service "Monthly SEO Packages" true);
      ("pbn-backlinks-service", Service "PBN Backlinks Services" true);
      ("guest-posts-service", Service "Guest Post Services" true);
      ("id-pbn-posts-service", Service "Id PBN Post Services" true);
      ("sidebar-pbn-backlinks-service", Service "Sidebar PBN Backlinks Services" true);
      ("weekly-package-service", Service "Weekly Package Services" true) ]%string.

Definition seed_service_tiers : gmap string service_tier :=
  list_to_map
    [ ("monthly-seo-basic", ServiceTier "monthly-seo-packages" "Basic Monthly" 20000 30 true);
      ("monthly-seo-standard", ServiceTier "monthly-seo-packages" "Standard Monthly" 45000 30 true);
      ("monthly-seo-premium", ServiceTier "monthly-seo-packages" "Premium Monthly" 80000 30 true);
      ("pbn-basic", ServiceTier "pbn-backlinks-service" "Basic" 10000 7 true);
      ("pbn-standard", ServiceTier "pbn-backlinks-service" "Standard" 20000 7 true);
      ("pbn-premium", ServiceTier "pbn-backlinks-service" "Premium" 100000 7 true);
      ("pbn-silver", ServiceTier "pbn-backlinks-service" "Silver" 200000 14 true);
      ("pbn-platinum", ServiceTier "pbn-backlinks-service" "Platinum" 400000 21 true);
      ("pbn-deluxe", ServiceTier "pbn-backlinks-service" "Deluxe" 600000 30 true);
      ("guest-bronze-gb-1", ServiceTier "guest-posts-service" "Bronze GB-1" 2500 7 true);
      ("guest-silver-gb-5", ServiceTier "guest-posts-service" "Silver GB-5" 10000 10 true);
      ("guest-bronze-gb-10", ServiceTier "guest-posts-service" "Bronze GB-10" 18000 14 true);
      ("guest-silver-gb-20", ServiceTier "guest-posts-service" "Silver GB-20" 27000 21 true);
      ("id-pbn-pro-silver", ServiceTier "id-pbn-posts-service" "Pro Silver" 7000 7 true);
      ("id-pbn-pro-platinum", ServiceTier "id-pbn-posts-service" "Pro Platinum" 16000 10 true);
      ("id-pbn-pro-deluxe", ServiceTier "id-pbn-posts-service" "Pro Deluxe" 30000 14 true);
      ("sidebar-pbn-basic", ServiceTier "sidebar-pbn-backlinks-service" "Basic" 15000 7 true);
      ("sidebar-pbn-booster", ServiceTier "sidebar-pbn-backlinks-service" "Booster" 30000 7 true);
      ("sidebar-pbn-ranker", ServiceTier "sidebar-pbn-backlinks-service" "Ranker Package" 60000 7 true);
      ("weekly-silver", ServiceTier "weekly-package-service" "Silver" 6000 7 true);
      ("weekly-gold", ServiceTier "weekly-package-service" "Gold" 9000 7 true);
      ("weekly-platinum", ServiceTier "weekly-package-service" "Platinum" 14000 7 true) ]%string.

Definition seed_tables : tables := Tables seed_services seed_service_tiers ∅ ∅ [] [].

(** ** Tracking codes: the format, and the numbering the specification
    describes *)

Definition is_digit (a : ascii) : bool :=
  match digit_of_ascii a with Some _ => true | None => false end.

(** [SEO-YYYYMMDD-NNNN]: the prefix, eight digits, a dash, four digits. *)
Definition tracking_format (s : string) : bool :=
  match s with
  | String "S" (String "E" (String "O" (String "-"
      (String y1 (String y2 (String y3 (String y4
        (String m1 (String m2 (String d1 (String d2
          (String "-"
            (String n1 (String n2 (String n3 (String n4 EmptyString)))))))))))))))) =>
      forallb is_digit [y1; y2; y3; y4; m1; m2; d1; d2; n1; n2; n3; n4]
  | _ => false
  end.

Definition same_day (a b : timestamp) : bool :=
  bool_decide (ts_year a = ts_year b) && bool_decide (ts_month a = ts_month b)
    && bool_decide (ts_day a = ts_day b).

(** The orders created on the calendar day of [ts]. *)
Definition orders_created_on (ts : timestamp) (t : tables) : nat :=
  length (filter (λ ko, same_day (created_at ko.2) ts = true) (map_to_list (orders t))).

(** The specification's numbering, for comparison with
    [generate_tracking_id]: "date-stamped with a per-day monotonically
    increasing sequence number, zero-padded to at least 4 digits"; the
    order created on a day that has [k] orders already gets number [k + 1]. *)
Definition spec_per_day_tracking_id (ts : timestamp) (t : tables) : string :=
  "SEO-" +:+ to_char_YYYYMMDD ts +:+ "-"
    +:+ digits_field 4 (Z.of_nat (orders_created_on ts t) + 1).

(** A date [TO_CHAR] prints on eight characters. *)
Definition four_digit_date (ts : timestamp) : Prop :=
  0 <= ts_year ts < 10000 ∧ 1 <= ts_month ts <= 12 ∧ 1 <= ts_day ts <= 31.

(** No two rows of [orders] carry the same tracking id. *)
Definition unique_tracking_ids (t : tables) : Prop :=
  ∀ i j oi oj,
    orders t !! i = Some oi → orders t !! j = Some oj →
    tracking_id oi = tracking_id oj → i = j.

(** The text of a number read back. *)
Definition number_of_text (s : string) : option Z :=
  Z.of_int <$> NilZero.int_of_string s.

(** ** The rows the capture route writes *)

Definition paid_payment_row (id : Z) (r : paypal_response) (info : payment_info)
    (cents : Z) (ts : timestamp) : payment :=
  Payment id paypal (Some (paypalOrderId info)) (payerId info) cents (currency info) paid
          (Some (CaptureJson r)) ts ts.

Definition automatic_history_row (id : Z) (s : order_status) (ts : timestamp) : history_row :=
  HistoryRow id s (Some "Status changed automatically"%string) None ts.

Definition payment_history_row (id : Z) (ts : timestamp) : history_row :=
  HistoryRow id confirmed (Some "Payment received and confirmed"%string) None ts.

(** The three statements of the capture route on the transaction's rows. *)
Definition captured_tables (id : Z) (r : paypal_response) (info : payment_info)
    (cents : Z) (ts : timestamp) (t : tables) : tables :=
  insert_history id confirmed (Some "Payment received and confirmed"%string) None ts
    (insert_payment (paid_payment_row id r info cents ts)
       (update_order id (λ o, with_status confirmed (with_payment_status paid o)) ts t)).

(** A Payment row of the order with status [paid] and the gateway reference. *)
Definition is_paid_with_reference (id : Z) (reference : string) (p : payment) : bool :=
  bool_decide (p_order_id p = id) && bool_decide (p_status p = paid)
    && bool_decide (p_payment_id p = Some reference).

(** ** Concrete requests and states *)

Definition jan31 : timestamp := Timestamp 2025 1 31 36000.
Definition feb01 : timestamp := Timestamp 2025 2 1 36000.

Definition ann : customer := Customer "Ann" "ann@example.com" "https://ann.example" None jan31.

(** An order for the tier priced 450.00, quantity 1, in status [s]. *)
Definition order_450 (s : order_status) (p : payment_status) : order :=
  Order "SEO-20250131-0007" 1 "monthly-seo-standard" "Monthly SEO Packages"
        "Standard Monthly" 45000 30 "seo" 1 45000 s p None jan31 jan31.

Definition created_row : history_row := HistoryRow 6 pending (Some "Order created"%string) None jan31.

(** The state after that order was created: one order, one history entry. *)
Definition pending_world : world :=
  World (Tables seed_services seed_service_tiers {[ 1 := ann ]}
                {[ 6 := order_450 pending unpaid ]} [] [created_row])
        (Sequences 1 7) jan31 Released.

(** The same order, delivered. *)
Definition completed_world : world :=
  World (Tables seed_services seed_service_tiers {[ 1 := ann ]}
                {[ 6 := order_450 completed paid ]} [] [created_row])
        (Sequences 1 7) jan31 Released.

(** The gateway's answer for a capture of [v] dollars. *)
Definition capture_of (v : string) : paypal_response :=
  PaypalResponse "5O190127TN364715T" "COMPLETED" (Some (Payer (Some "QYR5Z8XDVJNXQ") None))
                 [PurchaseUnit (Some "SEO-20250131-0007"%string) (Some (Money v "USD")) None].

Definition gateway_450 (paypalOrderId : string) : option paypal_response :=
  Some (capture_of "450.00").
Definition gateway_449_50 (paypalOrderId : string) : option paypal_response :=
  Some (capture_of "449.50").

Definition capture_request_6 : capture_request := CaptureRequest "5O190127TN364715T" 6.

(** The state after the first capture of 450.00 for order 6. *)
Definition paid_world : world :=
  (capture_payment parse_decimal round_cents gateway_450 capture_request_6 pending_world).2.

Definition denied_event : webhook_event :=
  WebhookEvent "PAYMENT.CAPTURE.DENIED" (WebhookResource "5O190127TN364715T" "{}").

Definition empty_cart_request : cart_request := CartRequest (Some []) None.

(** Requests to the status route: a delivered order back to work, a pending
    order straight to work. *)
Definition reopen_request : status_request :=
  StatusRequest 6 in_progress (Some "back to work"%string) 1.

Definition start_request : status_request :=
  StatusRequest 6 in_progress None 1.

(** The row the status route adds to the history itself. *)
Definition admin_history_row (req : status_request) (ts : timestamp) : history_row :=
  HistoryRow (sr_id req) (sr_status req) (Some (default EmptyString (sr_notes req)))
             (Some (sr_admin_id req)) ts.

(** A catalog with one more tier, under the integer id 7, priced 99.99, and
    a request for three of it. *)
Definition site_audit : service_tier :=
  ServiceTier "monthly-seo-packages" "Site Audit" 9999 7 true.

Definition audit_world : world :=
  World (Tables seed_services (<["7"%string := site_audit]> seed_service_tiers)
                ∅ ∅ [] [])
        (Sequences 0 5) jan31 Released.

Definition audit_request : create_request :=
  CreateRequest "Ann" "ann@example.com" "https://ann.example" "seo" "7" (Some 3).

(** An order of 100.00 dollars, and a capture of 100.01. *)
Definition order_100 : order :=
  Order "SEO-20250131-0007" 1 "pbn-basic" "PBN Backlinks Services" "Basic" 10000 7 "seo"
        1 10000 pending unpaid None jan31 jan31.

Definition hundred_world : world :=
  World (Tables seed_services seed_service_tiers {[ 1 := ann ]}
                {[ 6 := order_100 ]} [] [created_row])
        (Sequences 1 7) jan31 Released.

Definition gateway_100_01 (paypalOrderId : string) : option paypal_response :=
  Some (capture_of "100.01").

(** The first order of the seeded catalog's 450.00 tier, quantity left out. *)
Definition seed_world : world :=
  World seed_tables (Sequences 0 5) jan31 Released.

Definition standard_request : create_request :=
  CreateRequest "Ann" "ann@example.com" "https://ann.example" "seo" "monthly-seo-standard" None.

(** The double [f] is within 0.004 of [cents / 100]: [f] is [m * 2 ^ e] up
    to its sign. *)
Definition within_cents (f : float) (cents : Z) : Prop :=
  match FloatOps.Prim2SF f with
  | SpecFloat.S754_zero _ => cents = 0
  | SpecFloat.S754_finite s m e =>
      let v := if s then Z.neg m else Z.pos m in
      if 0 <=? e then 100 * v * 2 ^ e = cents
      else 5 * Z.abs (100 * v - cents * 2 ^ (- e)) <= 2 * 2 ^ (- e)
  | _ => False
  end.

(** A mantissa of 53 digits. *)
Definition normal (m : positive) : Prop := 2 ^ 52 <= Z.pos m < 2 ^ 53.

(** The row [POST /create] inserts for a tier, a customer and a total. *)
Definition created_order_row (req : create_request) (w : world) (tier : service_tier)
    (tier_service_name : string) (customerId total : Z) : order :=
  Order (generate_tracking_id (now w) (orders_id_seq (seqs w) + 2)) customerId
        (serviceId req) tier_service_name (st_name tier) (st_price tier)
        (st_delivery_days tier) (req_keywords req) (default 1 (req_quantity req)) total
        pending unpaid None (now w) (now w).

(** Checks over the ranges of the date fields and of the sequence values
    below 10000, decided by computation. *)
Definition four_digits (s : string) : bool :=
  match s with
  | String a (String b (String c (String d EmptyString))) => forallb is_digit [a; b; c; d]
  | _ => false
  end.

Definition two_digits (s : string) : bool :=
  match s with
  | String a (String b EmptyString) => forallb is_digit [a; b]
  | _ => false
  end.

(** [p] on [count] consecutive integers from [first] on. *)
Fixpoint all_from (count : nat) (first : Z) (p : Z -> bool) : bool :=
  match count with
  | O => true
  | S count' => p first && all_from count' (first + 1) p
  end.

(** What is checked of the field of a sequence value [n]: it has four
    digits, [LPAD] gives the same text, and [n] is read back from it. *)
Definition sequence_field_ok (n : Z) : bool :=
  let s := text n in
  let field := repeat_string (4 - String.length s) "0" +:+ s in
  four_digits field
  && String.eqb (lpad s 4 "0") field
  && bool_decide (number_of_text field = Some n).

(** A database just set up by [schema.sql], on 31 January 2025, and the
    states after a first order that day and a second one the day after. *)
Definition fresh_world : world :=
  World seed_tables (Sequences 0 0) jan31 Released.

Definition after_first_order : world :=
  (create_order round_cents standard_request fresh_world).2.

Definition next_morning : world :=
  World (db after_first_order) (seqs after_first_order) feb01 Released.

Definition after_second_order : world :=
  (create_order round_cents standard_request next_morning).2.

(** INSERT parameters and a transaction to run [insert_order] in. *)
Definition standard_values : order_values :=
  OrderValues 1 "monthly-seo-standard" "Monthly SEO Packages" "Standard Monthly" 45000 30
              "seo" 1 (number_of_decimal 45000) pending unpaid.

Definition open_world : world :=
  World seed_tables (Sequences 0 5) jan31 (InTransaction seed_tables).

(** For a total of 450.00 and a captured amount of [a] cents: the route's
    check says what the decimals say, a difference of more than one cent. *)
Definition check_agrees_450 (a : Z) : bool :=
  Bool.eqb (amount_mismatch (number_of_decimal a) 45000) (1 <? Z.abs (a - 45000)).

(** * More of the routers and services *)

(** [query] (that is [pool.query]) of a SELECT. *)
Definition query_select {A} (q : tables -> A) : M A :=
  fun w => (Ok (q (db w)), w).

(** ** src/middleware/validation.js, lines 950-991: [DELETE /orders/:id]

    The table [deliverables] is not among the modelled ones (no route
    writes it): its DELETE is left out. *)

(** [DELETE FROM order_status_history WHERE order_id = $1] *)
Definition delete_history_of (id : Z) (t : tables) : tables :=
  set_history (filter (λ h, h_order_id h ≠ id) (order_status_history t)) t.

(** [DELETE FROM payments WHERE order_id = $1] *)
Definition delete_payments_of (id : Z) (t : tables) : tables :=
  set_payments (filter (λ p, p_order_id p ≠ id) (payments t)) t.

(** [DELETE FROM orders WHERE id = $1] *)
Definition delete_order_row (id : Z) (t : tables) : tables :=
  set_orders (delete id (orders t)) t.

Definition delete_order (id : Z) : M response :=
  beginTransaction ;;
  try_catch
    (orderResult <- client_select (select_order id) ;;
     match orderResult with
     | None =>
         rollbackTransaction ;;
         ret (Response 404 false "Order not found" NoData)
     | Some _ =>
         client_exec (λ _, delete_history_of id) ;;
         client_exec (λ _, delete_payments_of id) ;;
         client_exec (λ _, delete_order_row id) ;;
         commitTransaction ;;
         ret (Response 200 true "Order deleted successfully" NoData)
     end)
    (λ _, rollbackTransaction ;;
          ret (Response 500 false "Failed to delete order" NoData)).

(** ** src/middleware/validation.js, lines 993-1041: [DELETE /customers/:id] *)

(** [SELECT COUNT( * ) as count FROM orders WHERE customer_id = $1] *)
Definition count_orders_of_customer (id : Z) (t : tables) : nat :=
  size (filter (λ ko : Z * order, customer_id ko.2 = id) (orders t)).

(** [DELETE FROM customers WHERE id = $1]; the route sends it only when no
    order refers to the customer, so that ON DELETE CASCADE has no order to
    delete. *)
Definition delete_customer_row (id : Z) (t : tables) : tables :=
  set_customers (delete id (customers t)) t.

Definition delete_customer (id : Z) : M response :=
  beginTransaction ;;
  try_catch
    (customerResult <- client_select (λ t, customers t !! id) ;;
     match customerResult with
     | None =>
         rollbackTransaction ;;
         ret (Response 404 false "Customer not found" NoData)
     | Some _ =>
         orderCount <- client_select (count_orders_of_customer id) ;;
         if (0 <? orderCount)%nat then
           rollbackTransaction ;;
           ret (Response 400 false
                  ("Cannot delete customer with " +:+ text (Z.of_nat orderCount)
                     +:+ " existing orders. Delete orders first.") NoData)
         else
           client_exec (λ _, delete_customer_row id) ;;
           commitTransaction ;;
           ret (Response 200 true "Customer deleted successfully" NoData)
     end)
    (λ _, rollbackTransaction ;;
          ret (Response 500 false "Failed to delete customer" NoData)).

(** ** src/middleware/validation.js, lines 864-947: [POST /orders/:id/deliver]
    once the checks of the file and of the message (lines 818-860) have
    passed

    The route works through [query], statement by statement, without a
    transaction.  [saved] and [mailed] are what [tempFileManager.saveTemp]
    and [emailService.sendDeliveryEmail] did: [None] when they went through,
    the message of the error they threw otherwise. *)
Record deliver_answer := DeliverAnswer {
  da_status_code : Z;
  da_success : bool;
  da_message : string;
  da_data : option (Z * string * string * Z)
}.

Definition deliver_order (saved mailed : option string) (id : Z)
    (fileName : string) (fileSize : Z) : M deliver_answer :=
  try_catch
    (orderResult <- query_select (select_order_with_customer id) ;;
     match orderResult with
     | None => ret (DeliverAnswer 404 false "Order not found" None)
     | Some (order, _) =>
         match saved with Some e => throw e | None => ret tt end ;;
         query_exec (update_order id (with_status completed)) ;;
         query_exec (insert_history id completed
                       (Some ("Order delivered with file attachment: " +:+ fileName)) None) ;;
         match mailed with
         | Some e => throw ("Failed to send delivery email: " +:+ e)
         | None => ret tt
         end ;;
         ret (DeliverAnswer 200 true "Order delivered successfully"
                (Some (id, tracking_id order, fileName, fileSize)))
     end)
    (λ e, ret (DeliverAnswer 500 false ("Failed to deliver order: " +:+ e) None)).

(** ** src/unnamed/part_002, lines 250-322: [GET /track/:trackingId] *)

(** The labels of [order_status] in the database. *)
Definition status_label (s : order_status) : string :=
  match s with
  | pending => "pending"
  | confirmed => "confirmed"
  | in_progress => "in_progress"
  | completed => "completed"
  | cancelled => "cancelled"
  end.

(** [toUpperCase] of a letter from a to z. *)
Definition upper_letter (a : ascii) : ascii :=
  let n := Ascii.N_of_ascii a in
  if ((97 <=? n) && (n <=? 122))%N then Ascii.ascii_of_N (n - 32) else a.

(** [s.replace(from, to)] for two characters: the first occurrence only. *)
Fixpoint replace_first (from to : ascii) (s : string) : string :=
  match s with
  | EmptyString => EmptyString
  | String a rest =>
      if Ascii.eqb a from then String to rest else String a (replace_first from to rest)
  end.

(** [status.charAt(0).toUpperCase() + status.slice(1).replace('_', ' ')] *)
Definition statusText (s : order_status) : string :=
  match status_label s with
  | EmptyString => EmptyString
  | String a rest => String (upper_letter a) (replace_first "_" " " rest)
  end.

Definition timestamp_leb (a b : timestamp) : bool :=
  if decide (ts_year a = ts_year b) then
    if decide (ts_month a = ts_month b) then
      if decide (ts_day a = ts_day b) then ts_time a <=? ts_time b
      else ts_day a <? ts_day b
    else ts_month a <? ts_month b
  else ts_year a <? ts_year b.

(** [ORDER BY created_at DESC] on history rows, by insertion: rows of the
    same instant, which PostgreSQL may return in any order, come out here
    in the order they are met. *)
Fixpoint insert_newest_first (h : history_row) (sorted : list history_row) : list history_row :=
  match sorted with
  | [] => [h]
  | h' :: rest =>
      if timestamp_leb (h_created_at h') (h_created_at h) then h :: sorted
      else h' :: insert_newest_first h rest
  end.

Definition newest_first (l : list history_row) : list history_row :=
  foldr insert_newest_first [] l.

(** [SELECT ... FROM orders o JOIN customers c ON o.customer_id = c.id WHERE
    o.tracking_id = $1 AND c.email = $2], first row. *)
Definition select_tracked (trackingId email : string) (t : tables) : option (Z * order * customer) :=
  head (omap (λ ko : Z * order,
                c ← customers t !! customer_id ko.2;
                if decide (tracking_id ko.2 = trackingId ∧ c_email c = email)
                then Some (ko.1, ko.2, c) else None)
             (map_to_list (orders t))).

(** [SELECT status, notes, created_at FROM order_status_history WHERE
    order_id = (SELECT id FROM orders WHERE tracking_id = $1) ORDER BY
    created_at DESC] *)
Definition select_history_of_tracked (trackingId : string) (t : tables) : list history_row :=
  match head (filter (λ ko : Z * order, tracking_id ko.2 = trackingId) (map_to_list (orders t))) with
  | None => []
  | Some ko => newest_first (filter (λ h, h_order_id h = ko.1) (order_status_history t))
  end.

Record timeline_entry := TimelineEntry {
  te_date : timestamp;
  te_description : string
}.

(** [estimatedCompletion] is [Date.now()] plus [tr_days_to_completion] days,
    printed as an ISO date: the number of days is what is kept of it. *)
Record track_response := TrackResponse {
  tr_trackingId : string;
  tr_status : order_status;
  tr_statusText : string;
  tr_submittedAt : timestamp;
  tr_total : float;
  tr_customer_name : string;
  tr_customer_email : string;
  tr_customer_website : string;
  tr_item_description : string;
  tr_item_total : float;
  tr_timeline : list timeline_entry;
  tr_days_to_completion : Z
}.

Inductive track_answer :=
| TrackRefused (status_code : Z) (message : string)
| TrackFound (r : track_response).

Definition timeline_of (h : history_row) : timeline_entry :=
  TimelineEntry (h_created_at h)
    (default ("Order status updated to " +:+ status_label (h_status h)) (truthy (h_notes h))).

Definition track_order (trackingId : string) (email : option string) : M track_answer :=
  try_catch
    (match truthy email with
     | None => ret (TrackRefused 400 "Email is required for order tracking")
     | Some email =>
         result <- query_select (select_tracked trackingId email) ;;
         match result with
         | None => ret (TrackRefused 404 "Order not found or email doesn't match")
         | Some (_, order, customer) =>
             historyResult <- query_select (select_history_of_tracked trackingId) ;;
             ret (TrackFound
                    (TrackResponse
                       (tracking_id order) (status order) (statusText (status order))
                       (created_at order) (number_of_decimal (total_amount order))
                       (c_name customer) (c_email customer) (c_website customer)
                       (service_name order +:+ " - " +:+ service_tier_name order)
                       (number_of_decimal (total_amount order))
                       (match historyResult with
                        | [] => [TimelineEntry (created_at order) "Order placed and confirmed"]
                        | _ => map timeline_of historyResult
                        end)
                       (if delivery_days order =? 0 then 7 else delivery_days order)))
         end
     end)
    (λ _, ret (TrackRefused 500 "Failed to retrieve order information")).

(** ** src/services/paypal.js, lines 6-49: the access token and its cache *)

(** [this.accessToken] and [this.tokenExpiry], [None] for [null]. *)
Record paypal_service := PaypalService {
  accessToken : option string;
  tokenExpiry : option Z
}.

(** [response.data] of the token request. *)
Record token_response := TokenResponse {
  access_token : string;
  expires_in : Z
}.

(** [this.accessToken && this.tokenExpiry && Date.now() < this.tokenExpiry] *)
Definition token_cached (s : paypal_service) (clock : Z) : bool :=
  match truthy (accessToken s), tokenExpiry s with
  | Some _, Some expiry => negb (expiry =? 0) && (clock <? expiry)
  | _, _ => false
  end.

(** [getAccessToken()]: [fetched] is the answer to the token request, [None]
    when the request fails; [clock] is [Date.now()] at the test of the cache
    and [clock'] at the time the new token is stored.  The result is [None]
    when the method throws. *)
Definition getAccessToken (fetched : option token_response) (clock clock' : Z)
    (s : paypal_service) : option string * paypal_service :=
  if token_cached s clock then (accessToken s, s)
  else match fetched with
       | Some r =>
           (Some (access_token r),
            PaypalService (Some (access_token r)) (Some (clock' + expires_in r * 900)))
       | None => (None, s)
       end.

(** ** Conditions on the rows *)

(** Every order has history entries, and the latest one carries the order's
    status. *)
Definition history_agrees (t : tables) : Prop :=
  ∀ id o, orders t !! id = Some o ->
    ∃ row, last (filter (λ h, h_order_id h = id) (order_status_history t)) = Some row
           ∧ h_status row = status o.

(** No two customers have the same email (the UNIQUE constraint of
    [customers.email]). *)
Definition unique_emails (t : tables) : Prop :=
  ∀ i j ci cj, customers t !! i = Some ci -> customers t !! j = Some cj ->
    c_email ci = c_email cj -> i = j.

(** Every order's customer exists (the foreign key of [orders.customer_id]). *)
Definition customers_exist (t : tables) : Prop :=
  ∀ id o, orders t !! id = Some o -> is_Some (customers t !! customer_id o).

(** The three checks [POST /test-order] makes before it reads the database. *)
Definition test_order_checks (req : cart_request) : bool :=
  match cart req, cart_customer req with
  | Some (_ :: _), Some customer =>
      negb (bool_decide (ci_name customer = EmptyString)
            || bool_decide (ci_email customer = EmptyString)
            || bool_decide (ci_website customer = EmptyString))
      && negb ((js_length (ci_name customer) <? 2)%nat
               || (255 <? js_length (ci_name customer))%nat)
  | _, _ => false
  end.

(** The same world a moment later. *)
Definition at_time (ts : timestamp) (w : world) : world :=
  World (db w) (seqs w) ts (conn w).

Definition completed_event : webhook_event :=
  WebhookEvent "PAYMENT.CAPTURE.COMPLETED" (WebhookResource "5O190127TN364715T" "{}").

(** A capture whose amount is no number. *)
Definition gateway_no_number (paypalOrderId : string) : option paypal_response :=
  Some (capture_of "n/a").

(** What is checked of a sequence value of five digits: [LPAD] keeps its
    first four digits, the text of the value without its last digit, which
    [LPAD] leaves as it is. *)
Definition cut_field_ok (n : Z) : bool :=
  let s := text (n / 10) in
  String.eqb (lpad (text n) 4 "0") s && String.eqb (lpad s 4 "0") s.

(** Order 999 of 31 January carries the code of the sequence value 1000;
    the sequence has since reached 10003. *)
Definition busy_world : world :=
  World seed_tables (Sequences 1 10003) jan31
        (InTransaction
           (Tables seed_services seed_service_tiers {[ 1 := ann ]}
                   {[ 999 := Order "SEO-20250131-1000" 1 "monthly-seo-standard"
                                   "Monthly SEO Packages" "Standard Monthly" 45000 30 "seo"
                                   1 45000 pending unpaid None jan31 jan31 ]} [] [])).

(** What an order keeps of the moment it was made: its code, its customer,
    the tier with the name, the price and the delivery days it had then,
    the keywords, the quantity, the total and the date. *)
Definition same_snapshot (o o' : order) : Prop :=
  tracking_id o = tracking_id o' ∧ customer_id o = customer_id o'
  ∧ service_tier_id o = service_tier_id o' ∧ service_name o = service_name o'
  ∧ service_tier_name o = service_tier_name o' ∧ service_price o = service_price o'
  ∧ delivery_days o = delivery_days o' ∧ keywords o = keywords o'
  ∧ quantity o = quantity o' ∧ total_amount o = total_amount o'
  ∧ created_at o = created_at o'.

(** * Properties *)

(** What a check of [all_from] has checked. *)
Lemma all_from_spec count first p :
  all_from count first p = true ->
  ∀ n, first <= n < first + Z.of_nat count -> p n = true.
Proof.
  revert first. induction count as [|count IH]; intros first Hall n Hn; [lia|].
  cbn [all_from] in Hall. apply andb_true_iff in Hall as [Hfirst Hrest].
  destruct (decide (n = first)) as [->|Hne]; [exact Hfirst|].
  apply (IH (first + 1) Hrest). lia.
Qed.

(** ** What [UPDATE orders] and its triggers do to each table *)

Lemma select_order_with_customer_order id t o c :
  select_order_with_customer id t = Some (o, c) -> orders t !! id = Some o.
Proof.
  unfold select_order_with_customer. intros H.
  destruct (orders t !! id) as [o'|]; [|discriminate]. cbn in H.
  destruct (customers t !! customer_id o'); [|discriminate]. cbn in H. congruence.
Qed.

Lemma update_order_payments id f ts t :
  payments (update_order id f ts t) = payments t.
Proof.
  unfold update_order, add_status_history.
  destruct (orders t !! id); [|reflexivity]. by case_decide.
Qed.

Lemma update_order_orders id f ts t o :
  orders t !! id = Some o ->
  orders (update_order id f ts t) = <[id := with_updated_at ts (f o)]> (orders t).
Proof.
  intros H. unfold update_order, add_status_history. rewrite H. by case_decide.
Qed.

(** [add_status_history] adds its row exactly when the status changed. *)
Lemma update_order_history id f ts t o :
  orders t !! id = Some o ->
  order_status_history (update_order id f ts t)
  = order_status_history t
      ++ (if decide (status o = status (f o)) then []
          else [automatic_history_row id (status (f o)) ts]).
Proof.
  intros H. unfold update_order, add_status_history. rewrite H. cbn.
  case_decide; cbn; [by rewrite app_nil_r | reflexivity].
Qed.

(** ** The capture route, branch by branch *)

#[local] Arguments amount_mismatch : simpl never.
#[local] Arguments update_order : simpl never.
#[local] Arguments insert_history : simpl never.
#[local] Arguments insert_payment : simpl never.

Section CaptureRoute.

Variable parseFloat : string -> float.
Variable numeric_10_2 : float -> option Z.
Variable gateway : string -> option paypal_response.

Ltac run_handler :=
  unfold capture_payment, insert_payment_values, bind, try_catch, or_throw, ret, throw,
    beginTransaction, commitTransaction, rollbackTransaction, client_select, client_exec,
    visible, set_visible, set_conn, set_db; cbn [conn db seqs now fst snd].

(** No order of that id (or no customer for it): 404, after a rollback. *)
Lemma capture_payment_not_found req w :
  select_order_with_customer (req_orderId req) (db w) = None ->
  capture_payment parseFloat numeric_10_2 gateway req w =
    (Ok (Response 404 false "Order not found" NoData),
     World (db w) (seqs w) (now w) Released).
Proof. intros Hsel. run_handler. rewrite Hsel. reflexivity. Qed.

(** The amount check refuses: 400, after a rollback. *)
Lemma capture_payment_refused req w o c r info :
  select_order_with_customer (req_orderId req) (db w) = Some (o, c) ->
  gateway (req_paypalOrderId req) = Some r ->
  extractPaymentInfo parseFloat r = Some info ->
  amount_mismatch (amount info) (total_amount o) = true ->
  capture_payment parseFloat numeric_10_2 gateway req w =
    (Ok (Response 400 false "Payment amount mismatch" NoData),
     World (db w) (seqs w) (now w) Released).
Proof.
  intros Hsel Hgw Hinfo Hcheck. run_handler.
  rewrite Hsel, Hgw. cbn. rewrite Hinfo. cbn. rewrite Hcheck. reflexivity.
Qed.

(** The amount check passes and the database takes the amount: the three
    statements, the commit, 200. *)
Lemma capture_payment_paid req w o c r info cents :
  select_order_with_customer (req_orderId req) (db w) = Some (o, c) ->
  gateway (req_paypalOrderId req) = Some r ->
  extractPaymentInfo parseFloat r = Some info ->
  amount_mismatch (amount info) (total_amount o) = false ->
  numeric_10_2 (amount info) = Some cents ->
  capture_payment parseFloat numeric_10_2 gateway req w =
    (Ok (Response 200 true "Payment captured successfully"
           (CaptureData (req_orderId req) (tracking_id o) (paypalOrderId info) (amount info))),
     World (captured_tables (req_orderId req) r info cents (now w) (db w))
           (seqs w) (now w) Released).
Proof.
  intros Hsel Hgw Hinfo Hcheck Hcast. run_handler.
  rewrite Hsel, Hgw. cbn. rewrite Hinfo. cbn. rewrite Hcheck. cbn.
  rewrite Hcast. reflexivity.
Qed.


(** X1.  Whatever the request, the gateway's answer and the state: the
    capture route ends with its client released. *)
Lemma capture_payment_releases req w :
  holds_connection (capture_payment parseFloat numeric_10_2 gateway req w).2 = false.
Proof.
  run_handler.
  destruct (select_order_with_customer _ _) as [[o c]|]; [|reflexivity].
  destruct (gateway _) as [r|]; [|reflexivity]. cbn.
  destruct (extractPaymentInfo _ _) as [info|]; [|reflexivity]. cbn.
  destruct (amount_mismatch _ _); [reflexivity|]. cbn.
  destruct (numeric_10_2 _); reflexivity.
Qed.

(** The committed rows after the route are the ones before it, or the
    ones the three statements produce together: never a part of them. *)
Lemma capture_payment_all_or_nothing req w :
  db (capture_payment parseFloat numeric_10_2 gateway req w).2 = db w
  ∨ ∃ r info cents,
      db (capture_payment parseFloat numeric_10_2 gateway req w).2
      = captured_tables (req_orderId req) r info cents (now w) (db w).
Proof.
  run_handler.
  destruct (select_order_with_customer _ _) as [[o c]|]; [|by left].
  destruct (gateway _) as [r|]; [|by left]. cbn.
  destruct (extractPaymentInfo _ _) as [info|]; [|by left]. cbn.
  destruct (amount_mismatch _ _); [by left|]. cbn.
  destruct (numeric_10_2 _) as [cents|]; [|by left].
  right. by exists r, info, cents.
Qed.

(** The route has no branch that answers with success and writes nothing:
    a success always comes with a new Payment row of status [paid]. *)
Lemma capture_payment_success_inserts req w :
  success <$> result_value (capture_payment parseFloat numeric_10_2 gateway req w).1
    = Some true ->
  ∃ row,
    payments (db (capture_payment parseFloat numeric_10_2 gateway req w).2)
      = payments (db w) ++ [row]
    ∧ p_order_id row = req_orderId req
    ∧ p_status row = paid.
Proof.
  run_handler.
  destruct (select_order_with_customer _ _) as [[o c]|]; [|discriminate].
  destruct (gateway _) as [r|]; [|discriminate]. cbn.
  destruct (extractPaymentInfo _ _) as [info|]; [|discriminate]. cbn.
  destruct (amount_mismatch _ _); [discriminate|]. cbn.
  destruct (numeric_10_2 _) as [cents|]; [|discriminate]. cbn.
  intros _. eexists. split.
  - unfold insert_history, insert_payment. cbn. by rewrite update_order_payments.
  - split; reflexivity.
Qed.

End CaptureRoute.

Lemma captured_tables_payments id r info cents ts t :
  payments (captured_tables id r info cents ts t)
  = payments t ++ [paid_payment_row id r info cents ts].
Proof.
  unfold captured_tables, insert_history, insert_payment. cbn.
  by rewrite update_order_payments.
Qed.

Lemma captured_tables_order id r info cents ts t o :
  orders t !! id = Some o ->
  orders (captured_tables id r info cents ts t) !! id
  = Some (with_updated_at ts (with_status confirmed (with_payment_status paid o))).
Proof.
  intros H. unfold captured_tables, insert_history, insert_payment. cbn.
  rewrite (update_order_orders _ _ _ _ _ H). apply lookup_insert_eq.
Qed.

Lemma captured_tables_history id r info cents ts t o :
  orders t !! id = Some o ->
  order_status_history (captured_tables id r info cents ts t)
  = order_status_history t
      ++ (if decide (status o = confirmed) then [] else [automatic_history_row id confirmed ts])
      ++ [payment_history_row id ts].
Proof.
  intros H. unfold captured_tables, insert_history, insert_payment. cbn.
  rewrite (update_order_history _ _ _ _ _ H). cbn. by rewrite <- app_assoc.
Qed.

(** What [extractPaymentInfo] copies from the gateway's answer. *)
Lemma extractPaymentInfo_reference parseFloat r info :
  extractPaymentInfo parseFloat r = Some info ->
  paypalOrderId info = pr_id r ∧ payerId info = pr_payer r ≫= payer_id_of.
Proof.
  unfold extractPaymentInfo. intros H.
  destruct (head (purchase_units r)) as [pu|]; [|discriminate]. cbn in H.
  destruct (match truthy (value <$> _) with Some v => Some v | None => _ end);
    [|discriminate]. cbn in H.
  destruct (match truthy (currency_code <$> _) with Some v => Some v | None => _ end);
    [|discriminate]. cbn in H.
  injection H as <-. by split.
Qed.

(** ** C3: an amount mismatch leaves everything as it was *)

Lemma check_agrees_450_checked : all_from (Z.to_nat 100001) 0 check_agrees_450 = true.
Proof. vm_compute. reflexivity. Qed.

(** For the order of 450.00 and every amount in cents up to 1000.00, the
    double arithmetic of the check agrees with the decimals. *)
Lemma amount_mismatch_450 a :
  0 <= a <= 100000 ->
  amount_mismatch (number_of_decimal a) 45000 = (1 <? Z.abs (a - 45000)).
Proof.
  intros Ha. apply Bool.eqb_prop.
  apply (all_from_spec _ _ _ check_agrees_450_checked). lia.
Qed.

(** C3.  When the order exists, the gateway answers and the route's check
    [Math.abs(amount - parseFloat(total_amount)) > 0.01] holds, the route
    answers 400 "Payment amount mismatch" after rolling back: the committed
    database is the one before the call (the order keeps its status and its
    payment status, no Payment row, no history entry), and the client is
    released. *)
Theorem capture_payment_amount_mismatch
    (parseFloat : string -> float) (numeric_10_2 : float -> option Z)
    (gateway : string -> option paypal_response)
    (req : capture_request) (w : world) (o : order) (c : customer)
    (r : paypal_response) (info : payment_info) :
  select_order_with_customer (req_orderId req) (db w) = Some (o, c) ->
  gateway (req_paypalOrderId req) = Some r ->
  extractPaymentInfo parseFloat r = Some info ->
  amount_mismatch (amount info) (total_amount o) = true ->
  (capture_payment parseFloat numeric_10_2 gateway req w).1
    = Ok (Response 400 false "Payment amount mismatch" NoData)
  ∧ db (capture_payment parseFloat numeric_10_2 gateway req w).2 = db w
  ∧ orders (db (capture_payment parseFloat numeric_10_2 gateway req w).2) !! req_orderId req
    = Some o
  ∧ payments (db (capture_payment parseFloat numeric_10_2 gateway req w).2) = payments (db w)
  ∧ order_status_history (db (capture_payment parseFloat numeric_10_2 gateway req w).2)
    = order_status_history (db w)
  ∧ conn (capture_payment parseFloat numeric_10_2 gateway req w).2 = Released.
Proof.
  intros Hsel Hgw Hinfo Hcheck.
  rewrite (capture_payment_refused _ _ _ _ _ _ _ _ _ Hsel Hgw Hinfo Hcheck). cbn.
  repeat split. by apply select_order_with_customer_order in Hsel.
Qed.

(** The scenario of the specification: 449.50 captured for an order of
    450.00. *)
Lemma capture_payment_amount_mismatch_witness :
  amount_mismatch (parse_decimal "449.50") 45000 = true
  ∧ (capture_payment parse_decimal round_cents gateway_449_50 capture_request_6 pending_world).1
    = Ok (Response 400 false "Payment amount mismatch" NoData)
  ∧ db (capture_payment parse_decimal round_cents gateway_449_50 capture_request_6
          pending_world).2 = db pending_world.
Proof.
  split; [vm_compute; reflexivity|].
  destruct (capture_payment_amount_mismatch parse_decimal round_cents gateway_449_50
              capture_request_6 pending_world (order_450 pending unpaid) ann
              (capture_of "449.50")
              (PaymentInfo "5O190127TN364715T" None (Some "QYR5Z8XDVJNXQ"%string) None
                           (parse_decimal "449.50") "USD" "COMPLETED"
                           (Some "SEO-20250131-0007"%string) "0.00"))
    as (Hresponse & Hdb & _);
    [vm_compute; reflexivity | reflexivity | vm_compute; reflexivity
    | vm_compute; reflexivity | ].
  split; assumption.
Defined.

(** ** C4: the first successful reconciliation *)

(** C4.  When the order exists, the gateway answers, the amount check passes
    and the database takes the amount, the route answers 200 and its one
    commit publishes together: exactly one new Payment row, with status
    [paid], method [paypal], the gateway's order id as reference, the
    payer id, the amount, the currency and the gateway's answer itself; the
    order with status [confirmed] and payment status [paid]; and a last
    history entry [confirmed] "Payment received and confirmed".  The commit
    is the only change the route ever makes to the committed rows: on any
    request they end up untouched or with all of this. *)
Theorem capture_payment_first_reconciliation
    (parseFloat : string -> float) (numeric_10_2 : float -> option Z)
    (gateway : string -> option paypal_response)
    (req : capture_request) (w : world) (o : order) (c : customer)
    (r : paypal_response) (info : payment_info) (cents : Z) :
  select_order_with_customer (req_orderId req) (db w) = Some (o, c) ->
  gateway (req_paypalOrderId req) = Some r ->
  extractPaymentInfo parseFloat r = Some info ->
  amount_mismatch (amount info) (total_amount o) = false ->
  numeric_10_2 (amount info) = Some cents ->
  (capture_payment parseFloat numeric_10_2 gateway req w).1
    = Ok (Response 200 true "Payment captured successfully"
            (CaptureData (req_orderId req) (tracking_id o) (pr_id r) (amount info)))
  ∧ payments (db (capture_payment parseFloat numeric_10_2 gateway req w).2)
    = payments (db w)
        ++ [Payment (req_orderId req) paypal (Some (pr_id r)) (pr_payer r ≫= payer_id_of)
                    cents (currency info) paid (Some (CaptureJson r)) (now w) (now w)]
  ∧ orders (db (capture_payment parseFloat numeric_10_2 gateway req w).2) !! req_orderId req
    = Some (with_updated_at (now w) (with_status confirmed (with_payment_status paid o)))
  ∧ order_status_history (db (capture_payment parseFloat numeric_10_2 gateway req w).2)
    = order_status_history (db w)
        ++ (if decide (status o = confirmed) then []
            else [automatic_history_row (req_orderId req) confirmed (now w)])
        ++ [HistoryRow (req_orderId req) confirmed
                       (Some "Payment received and confirmed"%string) None (now w)]
  ∧ conn (capture_payment parseFloat numeric_10_2 gateway req w).2 = Released
  ∧ (∀ req' w',
       db (capture_payment parseFloat numeric_10_2 gateway req' w').2 = db w'
       ∨ ∃ r' info' cents',
           db (capture_payment parseFloat numeric_10_2 gateway req' w').2
           = captured_tables (req_orderId req') r' info' cents' (now w') (db w')).
Proof.
  intros Hsel Hgw Hinfo Hcheck Hcast.
  rewrite (capture_payment_paid _ _ _ _ _ _ _ _ _ _ Hsel Hgw Hinfo Hcheck Hcast). cbn.
  pose proof (select_order_with_customer_order _ _ _ _ Hsel) as Horder.
  destruct (extractPaymentInfo_reference _ _ _ Hinfo) as [Hid Hpayer].
  repeat split.
  - by rewrite Hid.
  - rewrite captured_tables_payments. unfold paid_payment_row. by rewrite Hid, Hpayer.
  - by apply captured_tables_order.
  - by apply captured_tables_history.
  - intros req' w'. apply capture_payment_all_or_nothing.
Qed.

(** The scenario of the specification: 450.00 captured for the pending
    order of 450.00. *)
Lemma capture_payment_first_reconciliation_witness :
  payments (db paid_world)
    = [Payment 6 paypal (Some "5O190127TN364715T"%string) (Some "QYR5Z8XDVJNXQ"%string)
               45000 "USD" paid (Some (CaptureJson (capture_of "450.00"))) jan31 jan31]
  ∧ orders (db paid_world) !! 6
    = Some (with_updated_at jan31 (order_450 confirmed paid))
  ∧ order_status_history (db paid_world)
    = [created_row; automatic_history_row 6 confirmed jan31; payment_history_row 6 jan31].
Proof.
  destruct (capture_payment_first_reconciliation parse_decimal round_cents gateway_450
              capture_request_6 pending_world (order_450 pending unpaid) ann
              (capture_of "450.00")
              (PaymentInfo "5O190127TN364715T" None (Some "QYR5Z8XDVJNXQ"%string) None
                           (parse_decimal "450.00") "USD" "COMPLETED"
                           (Some "SEO-20250131-0007"%string) "0.00")
              45000)
    as (_ & Hpayments & Horder & Hhistory & _);
    [vm_compute; reflexivity | reflexivity | vm_compute; reflexivity
    | vm_compute; reflexivity | vm_compute; reflexivity | ].
  split; [exact Hpayments | split; [exact Horder | exact Hhistory]].
Defined.

(** ** C9: the capture route sets the status whatever it was *)

(** C9 as stated fails: a capture of 100.01 for the order of 100.00 is
    within 0.01 of the total, one cent away; the doubles of 100.01 and 100
    differ by more than the double of 0.01, the route's check refuses it,
    answers 400 and leaves the order [pending] and [unpaid]. *)
Lemma capture_payment_one_cent_refused :
  total_amount order_100 = 10000
  ∧ round_cents (parse_decimal "100.01") = Some 10001
  ∧ Z.abs (10001 - 10000) = 1
  ∧ amount_mismatch (parse_decimal "100.01") 10000 = true
  ∧ capture_payment parse_decimal round_cents gateway_100_01 capture_request_6 hundred_world
    = (Ok (Response 400 false "Payment amount mismatch" NoData),
       World (db hundred_world) (seqs hundred_world) jan31 Released)
  ∧ orders (db (capture_payment parse_decimal round_cents gateway_100_01 capture_request_6
                  hundred_world).2) !! 6 = Some order_100
  ∧ status order_100 = pending
  ∧ payment_status_of order_100 = unpaid.
Proof.
  assert (amount_mismatch (parse_decimal "100.01") 10000 = true) as Hcheck
    by (vm_compute; reflexivity).
  assert (capture_payment parse_decimal round_cents gateway_100_01 capture_request_6
            hundred_world
          = (Ok (Response 400 false "Payment amount mismatch" NoData),
             World (db hundred_world) (seqs hundred_world) jan31 Released)) as Hrun.
  { apply (capture_payment_refused parse_decimal round_cents gateway_100_01
             capture_request_6 hundred_world order_100 ann (capture_of "100.01")
             (PaymentInfo "5O190127TN364715T" None (Some "QYR5Z8XDVJNXQ"%string) None
                          (parse_decimal "100.01") "USD" "COMPLETED"
                          (Some "SEO-20250131-0007"%string) "0.00"));
      [reflexivity | reflexivity | reflexivity | exact Hcheck]. }
  split; [reflexivity|]. split; [vm_compute; reflexivity|]. split; [reflexivity|].
  split; [exact Hcheck|]. split; [exact Hrun|]. rewrite Hrun.
  split; [reflexivity|]. split; reflexivity.
Qed.

(** C9, amended.  When the amount passes the route's own check, the
    comparison of doubles in [amount_mismatch], and the database takes it,
    the order ends with status [confirmed]
    and payment status [paid], for every status [s] it had before
    ([confirmed], [in_progress], [completed] and [cancelled] included): the
    route's UPDATE has no condition on the current status. *)
Theorem capture_payment_sets_status_unconditionally
    (parseFloat : string -> float) (numeric_10_2 : float -> option Z)
    (gateway : string -> option paypal_response)
    (req : capture_request) (w : world) (o : order) (c : customer)
    (r : paypal_response) (info : payment_info) (cents : Z) (s : order_status) :
  status o = s ->
  select_order_with_customer (req_orderId req) (db w) = Some (o, c) ->
  gateway (req_paypalOrderId req) = Some r ->
  extractPaymentInfo parseFloat r = Some info ->
  amount_mismatch (amount info) (total_amount o) = false ->
  numeric_10_2 (amount info) = Some cents ->
  ∃ o',
    orders (db (capture_payment parseFloat numeric_10_2 gateway req w).2) !! req_orderId req
      = Some o'
    ∧ status o' = confirmed
    ∧ payment_status_of o' = paid
    ∧ success <$> result_value (capture_payment parseFloat numeric_10_2 gateway req w).1
      = Some true.
Proof.
  intros _ Hsel Hgw Hinfo Hcheck Hcast.
  rewrite (capture_payment_paid _ _ _ _ _ _ _ _ _ _ Hsel Hgw Hinfo Hcheck Hcast). cbn.
  pose proof (select_order_with_customer_order _ _ _ _ Hsel) as Horder.
  eexists. split; [by apply captured_tables_order|]. by repeat split.
Qed.

(** A delivered order goes back to [confirmed] when a capture arrives. *)
Lemma capture_payment_sets_status_unconditionally_witness :
  status (order_450 completed paid) = completed
  ∧ ∃ o',
      orders (db (capture_payment parse_decimal round_cents gateway_450 capture_request_6
                    completed_world).2) !! 6 = Some o'
      ∧ status o' = confirmed
      ∧ payment_status_of o' = paid
      ∧ success <$> result_value
                      (capture_payment parse_decimal round_cents gateway_450
                         capture_request_6 completed_world).1
        = Some true.
Proof.
  split; [reflexivity|].
  apply (capture_payment_sets_status_unconditionally parse_decimal round_cents gateway_450
           capture_request_6 completed_world (order_450 completed paid) ann
           (capture_of "450.00")
           (PaymentInfo "5O190127TN364715T" None (Some "QYR5Z8XDVJNXQ"%string) None
                        (parse_decimal "450.00") "USD" "COMPLETED"
                        (Some "SEO-20250131-0007"%string) "0.00")
           45000 completed);
    [reflexivity | vm_compute; reflexivity | reflexivity | vm_compute; reflexivity
    | vm_compute; reflexivity | vm_compute; reflexivity].
Defined.

(** ** C1: a repeated capture is recorded again *)

(** C1 as stated fails: in [paid_world] the order has its Payment row with
    status [paid] and the gateway's reference; the same capture request, with
    the same answer of the gateway, answers 200 again and leaves a second
    such row, and a fourth history entry after the three there were. *)
Lemma capture_payment_not_idempotent :
  existsb (is_paid_with_reference 6 "5O190127TN364715T") (payments (db paid_world)) = true
  ∧ length (payments (db paid_world)) = 1%nat
  ∧ length (order_status_history (db paid_world)) = 3%nat
  ∧ success <$> result_value
                  (capture_payment parse_decimal round_cents gateway_450 capture_request_6
                     paid_world).1 = Some true
  ∧ length (filter (λ p, is_paid_with_reference 6 "5O190127TN364715T" p = true)
              (payments (db (capture_payment parse_decimal round_cents gateway_450
                               capture_request_6 paid_world).2))) = 2%nat
  ∧ order_status_history (db (capture_payment parse_decimal round_cents gateway_450
                                capture_request_6 paid_world).2)
    = order_status_history (db paid_world) ++ [payment_history_row 6 jan31].
Proof. vm_compute. repeat split. Qed.

(** C1, amended.  When a Payment row of the order with status [paid] and the
    gateway's reference exists already, and the gateway gives the same answer
    with a matching amount, the route answers 200 and does insert a second
    Payment row with status [paid] and that reference (there is one more
    such row than before, so at least two), sets the order's status to [confirmed] and its
    payment status to [paid] again, and appends another history entry
    [confirmed] "Payment received and confirmed".  The route has no other
    way to succeed: on every request, a success has inserted a Payment row. *)
Theorem capture_payment_repeated
    (parseFloat : string -> float) (numeric_10_2 : float -> option Z)
    (gateway : string -> option paypal_response)
    (req : capture_request) (w : world) (o : order) (c : customer)
    (r : paypal_response) (info : payment_info) (cents : Z) (p : payment) :
  p ∈ payments (db w) ->
  is_paid_with_reference (req_orderId req) (pr_id r) p = true ->
  select_order_with_customer (req_orderId req) (db w) = Some (o, c) ->
  gateway (req_paypalOrderId req) = Some r ->
  extractPaymentInfo parseFloat r = Some info ->
  amount_mismatch (amount info) (total_amount o) = false ->
  numeric_10_2 (amount info) = Some cents ->
  success <$> result_value (capture_payment parseFloat numeric_10_2 gateway req w).1
    = Some true
  ∧ payments (db (capture_payment parseFloat numeric_10_2 gateway req w).2)
    = payments (db w) ++ [paid_payment_row (req_orderId req) r info cents (now w)]
  ∧ is_paid_with_reference (req_orderId req) (pr_id r)
      (paid_payment_row (req_orderId req) r info cents (now w)) = true
  ∧ length (filter (λ p, is_paid_with_reference (req_orderId req) (pr_id r) p = true)
              (payments (db (capture_payment parseFloat numeric_10_2 gateway req w).2)))
    = S (length (filter (λ p, is_paid_with_reference (req_orderId req) (pr_id r) p = true)
                   (payments (db w))))
  ∧ (2 <= length (filter (λ p, is_paid_with_reference (req_orderId req) (pr_id r) p = true)
                    (payments (db (capture_payment parseFloat numeric_10_2 gateway req w).2))))%nat
  ∧ orders (db (capture_payment parseFloat numeric_10_2 gateway req w).2) !! req_orderId req
    = Some (with_updated_at (now w) (with_status confirmed (with_payment_status paid o)))
  ∧ (∃ earlier,
       order_status_history (db (capture_payment parseFloat numeric_10_2 gateway req w).2)
       = order_status_history (db w) ++ earlier
           ++ [payment_history_row (req_orderId req) (now w)])
  ∧ (∀ req' w',
       success <$> result_value (capture_payment parseFloat numeric_10_2 gateway req' w').1
         = Some true ->
       ∃ row,
         payments (db (capture_payment parseFloat numeric_10_2 gateway req' w').2)
           = payments (db w') ++ [row]
         ∧ p_order_id row = req_orderId req'
         ∧ p_status row = paid).
Proof.
  intros Hin Hpaid Hsel Hgw Hinfo Hcheck Hcast.
  assert (1 <= length (filter (λ p, is_paid_with_reference (req_orderId req) (pr_id r) p = true)
                         (payments (db w))))%nat as Hone.
  { assert (p ∈ filter (λ p, is_paid_with_reference (req_orderId req) (pr_id r) p = true)
                  (payments (db w))) as Hfiltered
      by (apply list_elem_of_filter; by split).
    destruct (filter _ (payments (db w))); [by apply elem_of_nil in Hfiltered | cbn; lia]. }
  rewrite (capture_payment_paid _ _ _ _ _ _ _ _ _ _ Hsel Hgw Hinfo Hcheck Hcast). cbn.
  pose proof (select_order_with_customer_order _ _ _ _ Hsel) as Horder.
  destruct (extractPaymentInfo_reference _ _ _ Hinfo) as [Hid _].
  assert (is_paid_with_reference (req_orderId req) (pr_id r)
            (paid_payment_row (req_orderId req) r info cents (now w)) = true) as Hnew.
  { unfold is_paid_with_reference, paid_payment_row. cbn. rewrite Hid.
    by rewrite !bool_decide_eq_true_2. }
  split; [reflexivity|]. split; [apply captured_tables_payments|]. split; [exact Hnew|].
  assert (length (filter (λ p, is_paid_with_reference (req_orderId req) (pr_id r) p = true)
                    (payments (captured_tables (req_orderId req) r info cents (now w) (db w))))
          = S (length (filter (λ p, is_paid_with_reference (req_orderId req) (pr_id r) p = true)
                         (payments (db w))))) as Hcount.
  { rewrite captured_tables_payments, filter_app, length_app.
    rewrite filter_cons_True by exact Hnew. cbn. lia. }
  split; [exact Hcount|]. split; [lia|].
  split; [by apply captured_tables_order|].
  split; [eexists; by apply captured_tables_history|].
  intros req' w'. apply capture_payment_success_inserts.
Qed.

(** The second capture of 450.00 for order 6. *)
Lemma capture_payment_repeated_witness :
  length (payments (db (capture_payment parse_decimal round_cents gateway_450
                          capture_request_6 paid_world).2))
  = S (length (payments (db paid_world))).
Proof.
  destruct (capture_payment_repeated parse_decimal round_cents gateway_450
              capture_request_6 paid_world (with_updated_at jan31 (order_450 confirmed paid))
              ann (capture_of "450.00")
              (PaymentInfo "5O190127TN364715T" None (Some "QYR5Z8XDVJNXQ"%string) None
                           (parse_decimal "450.00") "USD" "COMPLETED"
                           (Some "SEO-20250131-0007"%string) "0.00")
              45000
              (Payment 6 paypal (Some "5O190127TN364715T"%string)
                       (Some "QYR5Z8XDVJNXQ"%string) 45000 "USD" paid
                       (Some (CaptureJson (capture_of "450.00"))) jan31 jan31))
    as (_ & Hpayments & _);
    [vm_compute; apply list_elem_of_here | vm_compute; reflexivity | vm_compute; reflexivity
    | reflexivity | vm_compute; reflexivity | vm_compute; reflexivity
    | vm_compute; reflexivity | ].
  rewrite Hpayments, length_app. cbn. lia.
Defined.

(** ** The status route of the administration *)

Lemma update_order_status_not_found req w :
  orders (db w) !! sr_id req = None ->
  update_order_status req w
  = (Ok (Response 404 false "Order not found" NoData), World (db w) (seqs w) (now w) Released).
Proof.
  intros Hnone.
  unfold update_order_status, bind, try_catch, ret, beginTransaction, rollbackTransaction,
    client_select, visible, set_conn, select_order.
  cbn. by rewrite Hnone.
Qed.

(** An order of that id: the UPDATE, the INSERT, the commit, 200. *)
Lemma update_order_status_found req w o :
  orders (db w) !! sr_id req = Some o ->
  update_order_status req w
  = (Ok (Response 200 true "Order status updated successfully"
           (StatusData (Some (with_updated_at (now w) (with_status (sr_status req) o))))),
     World (insert_history (sr_id req) (sr_status req)
              (Some (default EmptyString (sr_notes req))) (Some (sr_admin_id req)) (now w)
              (update_order (sr_id req) (with_status (sr_status req)) (now w) (db w)))
           (seqs w) (now w) Released).
Proof.
  intros Hsome.
  unfold update_order_status, bind, try_catch, ret, beginTransaction, commitTransaction,
    client_select, client_exec, visible, set_visible, set_conn, set_db, select_order.
  cbn. rewrite Hsome. cbn.
  by rewrite (update_order_orders _ _ _ _ _ Hsome), lookup_insert_eq.
Qed.

(** X2.  Whatever the request and the state, the status route ends with
    its client released. *)
Lemma update_order_status_releases req w :
  holds_connection (update_order_status req w).2 = false.
Proof.
  destruct (orders (db w) !! sr_id req) as [o|] eqn:Horder.
  - by rewrite (update_order_status_found _ _ _ Horder).
  - by rewrite (update_order_status_not_found _ _ Horder).
Qed.

(** ** C2: the status route checks no transition *)

(** C2 as stated fails: the order of [completed_world] is [completed], a
    terminal status; the request to set it to [in_progress] answers 200, the
    order is [in_progress] afterwards and the history has two more entries. *)
Lemma update_order_status_leaves_terminal :
  status <$> orders (db completed_world) !! 6 = Some completed
  ∧ success <$> result_value (update_order_status reopen_request completed_world).1 = Some true
  ∧ status <$> orders (db (update_order_status reopen_request completed_world).2) !! 6
    = Some in_progress
  ∧ order_status_history (db (update_order_status reopen_request completed_world).2)
    = order_status_history (db completed_world)
        ++ [automatic_history_row 6 in_progress jan31; admin_history_row reopen_request jan31].
Proof. vm_compute. repeat split. Qed.

(** C2, amended.  For every order that exists, whatever its current status
    (terminal or not) and whichever of the five statuses is asked for, the
    status route answers 200, leaves the order with the status asked for,
    and ends the history with an entry of that status, the notes and the
    administrator's id: no request fails for its transition. *)
Theorem update_order_status_any_transition (req : status_request) (w : world) (o : order) :
  orders (db w) !! sr_id req = Some o ->
  (update_order_status req w).1
    = Ok (Response 200 true "Order status updated successfully"
            (StatusData (Some (with_updated_at (now w) (with_status (sr_status req) o)))))
  ∧ orders (db (update_order_status req w).2) !! sr_id req
    = Some (with_updated_at (now w) (with_status (sr_status req) o))
  ∧ status (with_updated_at (now w) (with_status (sr_status req) o)) = sr_status req
  ∧ order_status_history (db (update_order_status req w).2)
    = order_status_history (db w)
        ++ (if decide (status o = sr_status req) then []
            else [automatic_history_row (sr_id req) (sr_status req) (now w)])
        ++ [admin_history_row req (now w)]
  ∧ conn (update_order_status req w).2 = Released.
Proof.
  intros Hsome. rewrite (update_order_status_found _ _ _ Hsome).
  unfold insert_history. cbn.
  rewrite (update_order_orders _ _ _ _ _ Hsome), lookup_insert_eq.
  rewrite (update_order_history _ _ _ _ _ Hsome). cbn.
  repeat split. by rewrite <- app_assoc.
Qed.

(** From [pending] straight to [in_progress], which is no edge of the
    specification's graph. *)
Lemma update_order_status_any_transition_witness :
  status <$> orders (db pending_world) !! 6 = Some pending
  ∧ status <$> orders (db (update_order_status start_request pending_world).2) !! 6
    = Some in_progress.
Proof.
  split; [reflexivity|].
  destruct (update_order_status_any_transition start_request pending_world
              (order_450 pending unpaid))
    as (_ & Horder & _); [reflexivity|].
  exact (f_equal (fmap status) Horder).
Defined.

(** ** C10: one transition, two history entries *)

(** C10.  For an order [o] that exists: (1) every UPDATE of its row that
    changes the status makes [add_status_history] append one entry, with
    the new status and the note "Status changed automatically"; (2) the
    status route, asked for a status other than the current one, appends
    exactly two entries, the trigger's and its own; (3) so does the capture
    route when the order was not [confirmed] yet. *)
Theorem status_change_recorded_twice
    (parseFloat : string -> float) (numeric_10_2 : float -> option Z)
    (gateway : string -> option paypal_response) (w : world) (id : Z) (o : order) :
  orders (db w) !! id = Some o ->
  (∀ (f : order -> order) (ts : timestamp),
     status (f o) ≠ status o ->
     order_status_history (update_order id f ts (db w))
     = order_status_history (db w)
         ++ [HistoryRow id (status (f o)) (Some "Status changed automatically"%string) None ts])
  ∧ (∀ req : status_request,
       sr_id req = id -> sr_status req ≠ status o ->
       order_status_history (db (update_order_status req w).2)
       = order_status_history (db w)
           ++ [HistoryRow id (sr_status req) (Some "Status changed automatically"%string)
                          None (now w);
               HistoryRow id (sr_status req) (Some (default EmptyString (sr_notes req)))
                          (Some (sr_admin_id req)) (now w)])
  ∧ (∀ (req : capture_request) c r info cents,
       req_orderId req = id -> status o ≠ confirmed ->
       customers (db w) !! customer_id o = Some c ->
       gateway (req_paypalOrderId req) = Some r ->
       extractPaymentInfo parseFloat r = Some info ->
       amount_mismatch (amount info) (total_amount o) = false ->
       numeric_10_2 (amount info) = Some cents ->
       order_status_history (db (capture_payment parseFloat numeric_10_2 gateway req w).2)
       = order_status_history (db w)
           ++ [HistoryRow id confirmed (Some "Status changed automatically"%string)
                          None (now w);
               HistoryRow id confirmed (Some "Payment received and confirmed"%string)
                          None (now w)]).
Proof.
  intros Hsome. split; [|split].
  - intros f ts Hchange. rewrite (update_order_history _ _ _ _ _ Hsome).
    by rewrite decide_False by congruence.
  - intros req <- Hchange. rewrite (update_order_status_found _ _ _ Hsome).
    unfold insert_history. cbn. rewrite (update_order_history _ _ _ _ _ Hsome). cbn.
    rewrite decide_False by congruence. by rewrite <- app_assoc.
  - intros req c r info cents <- Hchange Hcustomer Hgw Hinfo Hcheck Hcast.
    assert (select_order_with_customer (req_orderId req) (db w) = Some (o, c)) as Hsel.
    { unfold select_order_with_customer. rewrite Hsome. cbn. by rewrite Hcustomer. }
    rewrite (capture_payment_paid _ _ _ _ _ _ _ _ _ _ Hsel Hgw Hinfo Hcheck Hcast). cbn.
    rewrite (captured_tables_history _ _ _ _ _ _ _ Hsome).
    by rewrite decide_False by congruence.
Qed.

(** The pending order of 450.00: set to [in_progress] by the administrator,
    or paid. *)
Lemma status_change_recorded_twice_witness :
  order_status_history (db (update_order_status start_request pending_world).2)
    = [created_row; automatic_history_row 6 in_progress jan31;
       admin_history_row start_request jan31]
  ∧ order_status_history (db paid_world)
    = [created_row; automatic_history_row 6 confirmed jan31; payment_history_row 6 jan31].
Proof.
  destruct (status_change_recorded_twice parse_decimal round_cents gateway_450 pending_world 6
              (order_450 pending unpaid))
    as (_ & Hadmin & Hcapture); [reflexivity|].
  split.
  - apply (Hadmin start_request); [reflexivity | discriminate].
  - apply (Hcapture capture_request_6 ann (capture_of "450.00")
             (PaymentInfo "5O190127TN364715T" None (Some "QYR5Z8XDVJNXQ"%string) None
                          (parse_decimal "450.00") "USD" "COMPLETED"
                          (Some "SEO-20250131-0007"%string) "0.00")
             45000);
      [reflexivity | discriminate | reflexivity | reflexivity | vm_compute; reflexivity
      | vm_compute; reflexivity | vm_compute; reflexivity].
Defined.

(** ** C6: the denied-capture webhook *)

Lemma paypal_webhook_denied_run ev w :
  event_type ev = "PAYMENT.CAPTURE.DENIED"%string ->
  paypal_webhook ev w
  = (Ok (Response 200 true EmptyString NoData),
     set_db (update_payments_by_payment_id failed (ResourceJson (resource ev))
               (resource_id (resource ev)) (now w) (db w)) w).
Proof.
  intros Htype. unfold paypal_webhook, handlePaymentDenied, try_catch, bind, ret, query_exec.
  rewrite Htype. reflexivity.
Qed.

(** C6 as stated fails: a denied capture for the pending, unpaid order of
    [pending_world], which has no Payment row, is answered 200 and records
    nothing: there is still no Payment row (so none with status [failed]),
    and the order's payment status is still [unpaid], not [failed]. *)
Lemma paypal_webhook_denied_records_nothing :
  payments (db pending_world) = []
  ∧ (paypal_webhook denied_event pending_world).1 = Ok (Response 200 true EmptyString NoData)
  ∧ payments (db (paypal_webhook denied_event pending_world).2) = []
  ∧ payment_status_of <$> orders (db (paypal_webhook denied_event pending_world).2) !! 6
    = Some unpaid.
Proof. vm_compute. repeat split. Qed.

(** C6, amended.  A PAYMENT.CAPTURE.DENIED webhook is answered 200 and only
    touches the Payment rows that exist already with the resource's id as
    [payment_id]: each gets status [failed] and the resource as its gateway
    response, the others stay as they are.  No Payment row is inserted, no
    history entry is added, and every order keeps its payment status and its
    status. *)
Theorem paypal_webhook_denied (ev : webhook_event) (w : world) :
  event_type ev = "PAYMENT.CAPTURE.DENIED"%string ->
  (paypal_webhook ev w).1 = Ok (Response 200 true EmptyString NoData)
  ∧ orders (db (paypal_webhook ev w).2) = orders (db w)
  ∧ order_status_history (db (paypal_webhook ev w).2) = order_status_history (db w)
  ∧ length (payments (db (paypal_webhook ev w).2)) = length (payments (db w))
  ∧ (∀ i p,
       payments (db w) !! i = Some p ->
       payments (db (paypal_webhook ev w).2) !! i
       = Some (if decide (p_payment_id p = Some (resource_id (resource ev)))
               then Payment (p_order_id p) (p_method p) (p_payment_id p) (p_payer_id p)
                            (p_amount p) (p_currency p) failed
                            (Some (ResourceJson (resource ev))) (p_created_at p) (now w)
               else p)).
Proof.
  intros Htype. rewrite (paypal_webhook_denied_run _ _ Htype).
  unfold update_payments_by_payment_id. cbn.
  split; [reflexivity|]. split; [reflexivity|]. split; [reflexivity|].
  split; [apply length_map|].
  intros i p Hp. rewrite list_lookup_fmap, Hp. reflexivity.
Qed.

(** A denied capture whose id is the reference of the paid row of
    [paid_world]: the row is marked [failed], the order stays [paid]. *)
Lemma paypal_webhook_denied_witness :
  p_status <$> payments (db (paypal_webhook denied_event paid_world).2) !! 0%nat = Some failed
  ∧ orders (db (paypal_webhook denied_event paid_world).2) = orders (db paid_world).
Proof.
  destruct (paypal_webhook_denied denied_event paid_world)
    as (_ & Horders & _ & _ & Hrows); [reflexivity|].
  split; [|exact Horders].
  rewrite (Hrows 0%nat
             (Payment 6 paypal (Some "5O190127TN364715T"%string)
                      (Some "QYR5Z8XDVJNXQ"%string) 45000 "USD" paid
                      (Some (CaptureJson (capture_of "450.00"))) jan31 jan31))
    by (vm_compute; reflexivity).
  reflexivity.
Defined.

(** ** C8: the client is not released on every path *)

(** C8, on the code.  [POST /test-order] and [POST /create-payment-intent]
    answer 400 to a request with an empty cart straight after
    [beginTransaction], with neither a commit nor a rollback: the response is
    sent while the client is still checked out, its transaction open. *)
Theorem empty_cart_leaves_client_checked_out
    (numeric_10_2 : float -> option Z) (stripe : float -> string -> option payment_intent)
    (w : world) :
  (test_order numeric_10_2 empty_cart_request w).1 = Ok cart_required
  ∧ conn (test_order numeric_10_2 empty_cart_request w).2 = InTransaction (db w)
  ∧ holds_connection (test_order numeric_10_2 empty_cart_request w).2 = true
  ∧ (create_payment_intent stripe empty_cart_request w).1 = Ok cart_required
  ∧ conn (create_payment_intent stripe empty_cart_request w).2 = InTransaction (db w)
  ∧ holds_connection (create_payment_intent stripe empty_cart_request w).2 = true.
Proof. repeat split. Qed.

(** The other early returns of [POST /test-order]: a request without a
    customer, or with a customer name of one letter, be it of two bytes. *)
Lemma test_order_validation_leaves_client_checked_out numeric_10_2 w item :
  holds_connection (test_order numeric_10_2 (CartRequest (Some [item]) None) w).2 = true
  ∧ holds_connection
      (test_order numeric_10_2
         (CartRequest (Some [item])
                      (Some (CustomerInput "A" "a@b.example" "https://b.example" None))) w).2
    = true
  ∧ holds_connection
      (test_order numeric_10_2
         (CartRequest (Some [item])
                      (Some (CustomerInput (String "195" (String "169" EmptyString))
                                           "a@b.example" "https://b.example" None))) w).2
    = true.
Proof. repeat split. Qed.

(** ** The creation route *)

Lemma update_customer_orders id name site ts t :
  orders (update_customer id name site ts t) = orders t.
Proof. unfold update_customer. by destruct (customers t !! id). Qed.

(** The committed rows after [POST /create]: the ones before, or those with
    one more order, the row of [created_order_row] under the next value of
    the sequence, and its first history entry. *)
Lemma create_order_outcome numeric_10_2 req w :
  db (create_order numeric_10_2 req w).2 = db w
  ∨ ∃ tier tier_service_name total customerId,
      select_service_tier (serviceId req) (db w) = Some (tier, tier_service_name)
      ∧ numeric_10_2 (totalAmount tier (default 1 (req_quantity req))) = Some total
      ∧ orders (db w) !! (orders_id_seq (seqs w) + 1) = None
      ∧ orders (db (create_order numeric_10_2 req w).2)
        = <[orders_id_seq (seqs w) + 1 :=
              created_order_row req w tier tier_service_name customerId total]> (orders (db w))
      ∧ order_status_history (db (create_order numeric_10_2 req w).2)
        = order_status_history (db w)
            ++ [HistoryRow (orders_id_seq (seqs w) + 1) pending
                           (Some "Order created"%string) None (now w)].
Proof.
  unfold create_order, insert_order, insert_customer, bind, try_catch, or_throw, ret, throw,
    beginTransaction, commitTransaction, rollbackTransaction, client_select, client_exec,
    nextval_orders_id_seq, nextval_customers_id_seq,
    visible, set_visible, set_conn, set_db, set_seqs.
  cbn [conn db seqs now fst snd].
  destruct (select_service_tier _ _) as [[tier sname]|] eqn:Htier; [|by left].
  destruct (select_customer_by_email _ _) as [cid|]; cbn.
  - destruct (numeric_10_2 _) as [total|] eqn:Hcast; [|by left]. cbn.
    rewrite update_customer_orders.
    destruct (orders (db w) !! _) eqn:Hfree; [by left|].
    destruct (tracking_id_taken _ _); [by left|]. cbn.
    right. exists tier, sname, total, cid.
    repeat split; try done.
    + unfold created_order_row. by replace (orders_id_seq (seqs w) + 1 + 1) with
        (orders_id_seq (seqs w) + 2) by lia.
    + unfold insert_history, update_customer. cbn. by destruct (customers (db w) !! cid).
  - destruct (customers (db w) !! _); [by left|]. cbn.
    destruct (numeric_10_2 _) as [total|] eqn:Hcast; [|by left]. cbn.
    destruct (orders (db w) !! _) eqn:Hfree; [by left|].
    destruct (tracking_id_taken _ _); [by left|]. cbn.
    right. exists tier, sname, total, (customers_id_seq (seqs w) + 1).
    repeat split; try done.
    unfold created_order_row. by replace (orders_id_seq (seqs w) + 1 + 1) with
      (orders_id_seq (seqs w) + 2) by lia.
Qed.

(** ** Binary64 arithmetic, from its specification

    The operations on doubles are specified by [SpecFloat]: what follows
    bounds the error of a quotient and of a product of doubles with
    mantissas of 53 digits, far from overflow and underflow, by unfolding
    that specification. *)

Section Binary64.

Import SpecFloat.

Lemma digits2_pos_bounds (p : positive) :
  2 ^ (Z.pos (digits2_pos p) - 1) <= Z.pos p < 2 ^ Z.pos (digits2_pos p).
Proof.
  induction p as [p IH|p IH|]; cbn [digits2_pos].
  - rewrite Pos2Z.inj_succ.
    replace (Z.succ (Z.pos (digits2_pos p)) - 1) with (Z.succ (Z.pos (digits2_pos p) - 1)) by lia.
    rewrite !Z.pow_succ_r by lia. lia.
  - rewrite Pos2Z.inj_succ.
    replace (Z.succ (Z.pos (digits2_pos p)) - 1) with (Z.succ (Z.pos (digits2_pos p) - 1)) by lia.
    rewrite !Z.pow_succ_r by lia. lia.
  - cbn. lia.
Qed.

Lemma Zdigits2_unique (m d : Z) :
  2 ^ (d - 1) <= m < 2 ^ d -> 1 <= d -> Zdigits2 m = d.
Proof.
  intros Hm Hd.
  assert (0 < 2 ^ (d - 1)) by (apply Z.pow_pos_nonneg; lia).
  destruct m as [|p|p]; try lia.
  cbn [Zdigits2]. pose proof (digits2_pos_bounds p) as Hp.
  destruct (Z.lt_trichotomy (Z.pos (digits2_pos p)) d) as [Hlt|[Heq|Hgt]]; [|exact Heq|].
  - assert (2 ^ Z.pos (digits2_pos p) <= 2 ^ (d - 1)) by (apply Z.pow_le_mono_r; lia). lia.
  - assert (2 ^ d <= 2 ^ (Z.pos (digits2_pos p) - 1)) by (apply Z.pow_le_mono_r; lia). lia.
Qed.

Lemma shr_m_shr_1 (mrs : shr_record) :
  0 <= shr_m mrs -> shr_m (shr_1 mrs) = shr_m mrs / 2.
Proof.
  destruct mrs as [m r s]. cbn [shr_m]. intros Hm.
  destruct m as [|[p|p|]|p]; cbn [shr_1 shr_m]; try lia.
  - reflexivity.
  - apply (Z.div_unique _ _ _ 1); lia.
  - apply (Z.div_unique _ _ _ 0); lia.
  - reflexivity.
Qed.

Lemma pow2_xI (p : positive) : 2 ^ Z.pos p~1 = 2 * (2 ^ Z.pos p * 2 ^ Z.pos p).
Proof.
  replace (Z.pos p~1) with (1 + (Z.pos p + Z.pos p)) by lia.
  rewrite !Z.pow_add_r by lia. reflexivity.
Qed.

Lemma pow2_xO (p : positive) : 2 ^ Z.pos p~0 = 2 ^ Z.pos p * 2 ^ Z.pos p.
Proof.
  replace (Z.pos p~0) with (Z.pos p + Z.pos p) by lia.
  rewrite !Z.pow_add_r by lia. reflexivity.
Qed.

Lemma shr_m_iter (p : positive) :
  ∀ mrs, 0 <= shr_m mrs -> shr_m (iter_pos shr_1 p mrs) = shr_m mrs / 2 ^ Z.pos p.
Proof.
  assert (∀ m k, 0 <= m -> 0 < k -> 0 <= m / k) as Hdiv
    by (intros; apply Z.div_pos; lia).
  induction p as [p IH|p IH|]; intros mrs Hm; cbn [iter_pos].
  - assert (0 < 2 ^ Z.pos p) by (apply Z.pow_pos_nonneg; lia).
    assert (0 <= shr_m (shr_1 mrs)) by (rewrite shr_m_shr_1 by lia; apply Hdiv; lia).
    assert (0 <= shr_m (iter_pos shr_1 p (shr_1 mrs))) by (rewrite IH by lia; apply Hdiv; lia).
    rewrite IH, IH, shr_m_shr_1 by lia.
    rewrite !Z.div_div by lia. f_equal. rewrite pow2_xI. lia.
  - assert (0 < 2 ^ Z.pos p) by (apply Z.pow_pos_nonneg; lia).
    assert (0 <= shr_m (iter_pos shr_1 p mrs)) by (rewrite IH by lia; apply Hdiv; lia).
    rewrite IH, IH by lia.
    rewrite !Z.div_div by lia. f_equal. rewrite pow2_xO. lia.
  - rewrite shr_m_shr_1 by lia. reflexivity.
Qed.

Lemma fexp_normal (e : Z) : -1021 <= e -> fexp 53 1024 e = e - 53.
Proof. unfold fexp, emin. lia. Qed.

Lemma shr_m_of_loc (m : Z) (l : location) : shr_m (shr_record_of_loc m l) = m.
Proof. destruct l as [|[]]; reflexivity. Qed.

Lemma Zdigits2_bounds (m d : Z) :
  0 < m -> Zdigits2 m = d -> 2 ^ (d - 1) <= m < 2 ^ d.
Proof.
  intros Hm <-. destruct m as [|p|p]; try lia. apply digits2_pos_bounds.
Qed.

(** Shifting a mantissa of [d >= 53] digits down to 53 digits. *)
Lemma shr_fexp_spec (m e : Z) (l : location) (d : Z) :
  0 < m -> Zdigits2 m = d -> 53 <= d -> -1021 <= d + e ->
  ∃ mrs, shr_fexp 53 1024 m e l = (mrs, e + (d - 53)) ∧ shr_m mrs = m / 2 ^ (d - 53).
Proof.
  intros Hm Hd Hd53 He. unfold shr_fexp. rewrite Hd, fexp_normal by lia.
  replace (d + e - 53 - e) with (d - 53) by lia. unfold shr.
  destruct (d - 53) as [|p|p] eqn:Hshift; try lia.
  - rewrite Z.add_0_r. eexists. split; [reflexivity|].
    rewrite shr_m_of_loc. cbn. by rewrite Z.div_1_r.
  - eexists. split; [reflexivity|]. rewrite shr_m_iter; rewrite shr_m_of_loc; [reflexivity | lia].
Qed.

Lemma round_nearest_even_cases (m : Z) (l : location) :
  round_nearest_even m l = m ∨ round_nearest_even m l = m + 1.
Proof.
  destruct l as [|[]]; cbn; try (by left); try (by right).
  destruct (Z.even m); [by left | by right].
Qed.

Lemma pow2_pos (k : Z) : 0 <= k -> 0 < 2 ^ k.
Proof. intros. apply Z.pow_pos_nonneg; lia. Qed.

(** Rounding a mantissa of at least 53 digits, whatever is known of the
    digits already cut: the result has 53 digits and lies within one unit
    of its last place of the mantissa given. *)
Lemma binary_round_aux_spec (s : bool) (m e : Z) (l : location) (d : Z) :
  0 < m -> Zdigits2 m = d -> 53 <= d -> -1021 <= d + e -> d + e <= 1023 ->
  ∃ m' e', binary_round_aux 53 1024 s m e l = S754_finite s m' e'
           ∧ 2 ^ 52 <= Z.pos m' < 2 ^ 53
           ∧ e + (d - 53) <= e' <= e + (d - 53) + 1
           ∧ m - 2 ^ (e' - e) <= Z.pos m' * 2 ^ (e' - e) <= m + 2 ^ (e' - e).
Proof.
  intros Hm Hd Hd53 Hlow Hhigh.
  destruct (shr_fexp_spec m e l d Hm Hd Hd53 Hlow) as (mrs1 & Hshr1 & Hm1).
  unfold binary_round_aux. rewrite Hshr1.
  pose proof (Zdigits2_bounds m d Hm Hd) as Hbounds.
  pose proof (pow2_pos (d - 53) ltac:(lia)) as HP.
  assert (2 ^ d = 2 ^ (d - 53) * 2 ^ 53) as Hd_split
    by (rewrite <- Z.pow_add_r by lia; f_equal; lia).
  assert (2 ^ (d - 1) = 2 ^ (d - 53) * 2 ^ 52) as Hd1_split
    by (rewrite <- Z.pow_add_r by lia; f_equal; lia).
  set (P := 2 ^ (d - 53)) in *. set (t := m / P) in *.
  assert (t * P <= m < (t + 1) * P) as Ht.
  { unfold t. pose proof (Z.div_mod m P ltac:(lia)) as Hdm.
    pose proof (Z.mod_pos_bound m P HP). lia. }
  assert (2 ^ 52 <= t < 2 ^ 53) as Ht53.
  { split.
    - unfold t. apply Z.div_le_lower_bound; lia.
    - unfold t. apply Z.div_lt_upper_bound; lia. }
  destruct (round_nearest_even_cases (shr_m mrs1) (loc_of_shr_record mrs1)) as [Hr|Hr];
    rewrite Hr, Hm1; fold t.
  - destruct (shr_fexp_spec t (e + (d - 53)) loc_Exact 53) as (mrs2 & Hshr2 & Hm2);
      [lia | apply Zdigits2_unique; [exact Ht53 | lia] | lia | lia |].
    rewrite Hshr2, Hm2. change (2 ^ (53 - 53)) with 1. rewrite Z.div_1_r.
    destruct t as [|pt|pt]; try lia.
    replace (e + (d - 53) + (53 - 53) <=? 1024 - 53) with true
      by (symmetry; apply Z.leb_le; lia).
    exists pt, (e + (d - 53) + (53 - 53)). split; [reflexivity|]. split; [exact Ht53|].
    split; [lia|].
    replace (e + (d - 53) + (53 - 53) - e) with (d - 53) by lia. fold P. lia.
  - destruct (Z.eq_dec (t + 1) (2 ^ 53)) as [Hcarry|Hnocarry].
    + destruct (shr_fexp_spec (t + 1) (e + (d - 53)) loc_Exact 54) as (mrs2 & Hshr2 & Hm2);
        [lia | apply Zdigits2_unique; [rewrite Hcarry; cbn; lia | lia] | lia | lia |].
      rewrite Hshr2, Hm2, Hcarry. change (2 ^ 53 / 2 ^ (54 - 53)) with (Z.pos (2 ^ 52)).
      replace (e + (d - 53) + (54 - 53) <=? 1024 - 53) with true
        by (symmetry; apply Z.leb_le; lia).
      exists (2 ^ 52)%positive, (e + (d - 53) + (54 - 53)). split; [reflexivity|].
      split; [cbn; lia|]. split; [lia|].
      replace (e + (d - 53) + (54 - 53) - e) with ((d - 53) + 1) by lia.
      rewrite Z.pow_add_r by lia. fold P. change (2 ^ 1) with 2.
      change (Z.pos (2 ^ 52)) with (2 ^ 52). lia.
    + destruct (shr_fexp_spec (t + 1) (e + (d - 53)) loc_Exact 53) as (mrs2 & Hshr2 & Hm2);
        [lia | apply Zdigits2_unique; lia | lia | lia |].
      rewrite Hshr2, Hm2. change (2 ^ (53 - 53)) with 1. rewrite Z.div_1_r.
      destruct (t + 1) as [|pt|pt] eqn:Ht1; try lia.
      replace (e + (d - 53) + (53 - 53) <=? 1024 - 53) with true
        by (symmetry; apply Z.leb_le; lia).
      exists pt, (e + (d - 53) + (53 - 53)). split; [reflexivity|]. split; [lia|].
      split; [lia|].
      replace (e + (d - 53) + (53 - 53) - e) with (d - 53) by lia. fold P. lia.
Qed.

Lemma binary_round_aux_exact (s : bool) (m : positive) (e : Z) :
  Z.pos (digits2_pos m) = 53 -> -1074 <= e <= 971 ->
  binary_round_aux 53 1024 s (Z.pos m) e loc_Exact = S754_finite s m e.
Proof.
  intros Hd He. unfold binary_round_aux, shr_fexp. cbn [Zdigits2]. rewrite Hd.
  assert (fexp 53 1024 (53 + e) - e = 0) as -> by (unfold fexp, emin; lia).
  cbn [shr shr_record_of_loc shr_m loc_of_shr_record round_nearest_even Zdigits2].
  rewrite Hd.
  assert (fexp 53 1024 (53 + e) - e = 0) as -> by (unfold fexp, emin; lia).
  cbn [shr shr_record_of_loc shr_m].
  replace (e <=? 1024 - 53) with true by (symmetry; apply Z.leb_le; lia).
  reflexivity.
Qed.

Lemma pos_iter_xO (k p : positive) : Z.pos (Pos.iter xO p k) = Z.pos p * 2 ^ Z.pos k.
Proof.
  induction k as [|k IH] using Pos.peano_ind.
  - cbn. lia.
  - rewrite Pos.iter_succ, Pos2Z.inj_xO, IH, Pos2Z.inj_succ, Z.pow_succ_r by lia. lia.
Qed.

(** An integer below 2^53 is its own double: the mantissa is the integer
    shifted up to 53 digits. *)
Lemma binary_normalize_integer (n : positive) :
  Z.pos n < 2 ^ 53 ->
  ∃ m, binary_normalize 53 1024 (Z.pos n) 0 false
       = S754_finite false m (Z.pos (digits2_pos n) - 53)
       ∧ Z.pos m = Z.pos n * 2 ^ (53 - Z.pos (digits2_pos n))
       ∧ 2 ^ 52 <= Z.pos m < 2 ^ 53.
Proof.
  intros Hn. pose proof (digits2_pos_bounds n) as Hbounds.
  set (d := Z.pos (digits2_pos n)) in *.
  assert (1 <= d <= 53) as Hd.
  { split; [unfold d; lia|].
    destruct (Z.le_gt_cases d 53) as [H|H]; [exact H|].
    assert (2 ^ 53 <= 2 ^ (d - 1)) by (apply Z.pow_le_mono_r; lia). lia. }
  assert (2 ^ 52 <= Z.pos n * 2 ^ (53 - d) < 2 ^ 53) as Hm.
  { pose proof (pow2_pos (53 - d) ltac:(lia)).
    assert (2 ^ 52 = 2 ^ (d - 1) * 2 ^ (53 - d)) as ->
      by (rewrite <- Z.pow_add_r by lia; f_equal; lia).
    assert (2 ^ 53 = 2 ^ d * 2 ^ (53 - d)) as ->
      by (rewrite <- Z.pow_add_r by lia; f_equal; lia).
    nia. }
  cbn [binary_normalize]. unfold binary_round, shl_align.
  fold d. rewrite Z.add_0_r. rewrite fexp_normal by lia. rewrite Z.sub_0_r.
  destruct (d - 53) as [|k|k] eqn:Hshift; try lia.
  - exists n. replace (53 - d) with 0 in * by lia. rewrite Z.mul_1_r in *.
    split; [|split; [reflexivity | exact Hm]].
    apply binary_round_aux_exact; [|lia].
    apply (Zdigits2_unique (Z.pos n) 53); lia.
  - exists (Pos.iter xO n k).
    assert (Z.pos (Pos.iter xO n k) = Z.pos n * 2 ^ (53 - d)) as Hshifted
      by (rewrite pos_iter_xO; f_equal; f_equal; lia).
    split; [|split; [exact Hshifted | by rewrite Hshifted]].
    apply binary_round_aux_exact; [|lia].
    apply (Zdigits2_unique (Z.pos (Pos.iter xO n k)) 53); [by rewrite Hshifted | lia].
Qed.

Lemma normal_digits (m : positive) : normal m -> Zdigits2 (Z.pos m) = 53.
Proof. intros Hm. apply Zdigits2_unique; [exact Hm | lia]. Qed.

Lemma Zdigits2_between (m a b : Z) :
  0 <= a -> 2 ^ a <= m < 2 ^ b -> a + 1 <= Zdigits2 m <= b.
Proof.
  intros Ha Hm. pose proof (pow2_pos a Ha).
  pose proof (Zdigits2_bounds m (Zdigits2 m) ltac:(lia) eq_refl) as Hd.
  assert (1 <= Zdigits2 m) by (destruct m; cbn; lia).
  split.
  - destruct (Z.le_gt_cases (a + 1) (Zdigits2 m)) as [H'|H']; [exact H'|].
    assert (2 ^ Zdigits2 m <= 2 ^ a) by (apply Z.pow_le_mono_r; lia). lia.
  - destruct (Z.le_gt_cases (Zdigits2 m) b) as [H'|H']; [exact H'|].
    assert (2 ^ b <= 2 ^ (Zdigits2 m - 1)) by (apply Z.pow_le_mono_r; lia). lia.
Qed.

(** The quotient of two doubles: a double within two units of its last
    place of the exact quotient. *)
Lemma SFdiv_spec (s1 s2 : bool) (m1 m2 : positive) (e1 e2 : Z) :
  normal m1 -> normal m2 -> -960 <= e1 - e2 <= 960 ->
  ∃ m e, SFdiv 53 1024 (S754_finite s1 m1 e1) (S754_finite s2 m2 e2)
         = S754_finite (xorb s1 s2) m e
         ∧ normal m
         ∧ e1 - e2 - 53 <= e <= e1 - e2 - 51
         ∧ Z.pos m1 * 2 ^ 53 - 2 * 2 ^ (e - (e1 - e2 - 53)) * Z.pos m2
           <= Z.pos m * 2 ^ (e - (e1 - e2 - 53)) * Z.pos m2
           <= Z.pos m1 * 2 ^ 53 + 2 * 2 ^ (e - (e1 - e2 - 53)) * Z.pos m2.
Proof.
  intros Hm1 Hm2 He.
  unfold SFdiv, SFdiv_core_binary.
  rewrite (normal_digits m1 Hm1), (normal_digits m2 Hm2).
  replace (53 + e1 - (53 + e2)) with (e1 - e2) by lia.
  rewrite fexp_normal by lia.
  replace (Z.min (e1 - e2 - 53) (e1 - e2)) with (e1 - e2 - 53) by lia.
  replace (e1 - e2 - (e1 - e2 - 53)) with 53 by lia.
  rewrite Z.shiftl_mul_pow2 by lia.
  destruct (Z.div_eucl (Z.pos m1 * 2 ^ 53) (Z.pos m2)) as [q r] eqn:Hqr.
  assert (q = Z.pos m1 * 2 ^ 53 / Z.pos m2) as Hq by (unfold Z.div; by rewrite Hqr).
  unfold normal in Hm1, Hm2.
  assert (q * Z.pos m2 <= Z.pos m1 * 2 ^ 53 < (q + 1) * Z.pos m2) as Hquot.
  { rewrite Hq. pose proof (Z.div_mod (Z.pos m1 * 2 ^ 53) (Z.pos m2) ltac:(lia)).
    pose proof (Z.mod_pos_bound (Z.pos m1 * 2 ^ 53) (Z.pos m2) ltac:(lia)). lia. }
  assert (2 ^ 52 <= q < 2 ^ 54) as Hq_bounds.
  { change (2 ^ 54) with (2 * 2 ^ 53) in *. split.
    - rewrite Hq. apply Z.div_le_lower_bound; [lia|]. nia.
    - rewrite Hq. apply Z.div_lt_upper_bound; [lia|]. nia. }
  pose proof (Zdigits2_between q 52 54 ltac:(lia) Hq_bounds) as Hdq.
  destruct (binary_round_aux_spec (xorb s1 s2) q (e1 - e2 - 53) (new_location (Z.pos m2) r)
              (Zdigits2 q) ltac:(lia) eq_refl ltac:(lia) ltac:(lia) ltac:(lia))
    as (m & e & Hround & Hm & He' & Hnear).
  exists m, e. split; [exact Hround|]. split; [exact Hm|]. split; [lia|].
  pose proof (pow2_pos (e - (e1 - e2 - 53)) ltac:(lia)) as HP.
  set (P := 2 ^ (e - (e1 - e2 - 53))) in *. nia.
Qed.

(** The product of two doubles: a double within one unit of its last place
    of the exact product. *)
Lemma SFmul_spec (s1 s2 : bool) (m1 m2 : positive) (e1 e2 : Z) :
  normal m1 -> normal m2 -> -1000 <= e1 + e2 <= 900 ->
  ∃ m e, SFmul 53 1024 (S754_finite s1 m1 e1) (S754_finite s2 m2 e2)
         = S754_finite (xorb s1 s2) m e
         ∧ normal m
         ∧ e1 + e2 + 52 <= e <= e1 + e2 + 54
         ∧ Z.pos m1 * Z.pos m2 - 2 ^ (e - (e1 + e2))
           <= Z.pos m * 2 ^ (e - (e1 + e2))
           <= Z.pos m1 * Z.pos m2 + 2 ^ (e - (e1 + e2)).
Proof.
  intros Hm1 Hm2 He. unfold SFmul, normal in *.
  assert (2 ^ 104 <= Z.pos (m1 * m2) < 2 ^ 106) as Hprod.
  { rewrite Pos2Z.inj_mul. change (2 ^ 104) with (2 ^ 52 * 2 ^ 52).
    change (2 ^ 106) with (2 ^ 53 * 2 ^ 53). nia. }
  pose proof (Zdigits2_between _ 104 106 ltac:(lia) Hprod) as Hd.
  destruct (binary_round_aux_spec (xorb s1 s2) (Z.pos (m1 * m2)) (e1 + e2) loc_Exact
              (Zdigits2 (Z.pos (m1 * m2))) ltac:(lia) eq_refl ltac:(lia) ltac:(lia) ltac:(lia))
    as (m & e & Hround & Hm & He' & Hnear).
  exists m, e. split; [exact Hround|]. split; [exact Hm|]. split; [lia|].
  by rewrite <- Pos2Z.inj_mul.
Qed.

Lemma Prim2SF_number_of_Z (z : Z) :
  z ≠ 0 -> Z.abs z < 2 ^ 53 ->
  ∃ m, FloatOps.Prim2SF (number_of_Z z)
       = S754_finite (z <? 0) m (Zdigits2 z - 53)
       ∧ Z.pos m = Z.abs z * 2 ^ (53 - Zdigits2 z)
       ∧ normal m.
Proof.
  intros Hz Hsmall. unfold number_of_Z.
  assert (∀ n : positive, Z.pos n < 2 ^ 53 ->
            Uint63.to_Z (Uint63.of_Z (Z.pos n)) = Z.pos n) as Hto.
  { intros n Hn. rewrite Uint63.of_Z_spec. apply Z.mod_small.
    change Uint63.wB with (2 ^ 63). change (2 ^ 63) with (2 ^ 53 * 1024). lia. }
  destruct z as [|n|n]; [done| |].
  - replace (Z.pos n <? 0) with false by (symmetry; apply Z.ltb_ge; lia).
    rewrite FloatAxioms.of_uint63_spec. rewrite (Hto n) by lia.
    apply (binary_normalize_integer n). lia.
  - replace (Z.neg n <? 0) with true by (symmetry; apply Z.ltb_lt; lia).
    rewrite FloatAxioms.opp_spec, FloatAxioms.of_uint63_spec.
    change (- Z.neg n) with (Z.pos n). rewrite (Hto n) by lia.
    destruct (binary_normalize_integer n ltac:(lia)) as (m & Hm & Hval & Hnormal).
    exists m. split; [|split; [exact Hval | exact Hnormal]].
    change (binary_normalize FloatOps.prec FloatOps.emax (Z.pos n) 0 false)
      with (binary_normalize 53 1024 (Z.pos n) 0 false).
    by rewrite Hm.
Qed.

Lemma product_near (mp mr C Q A B T W U : Z) :
  0 < A -> 0 < B -> 0 < Q -> 0 < W -> 0 <= C -> 0 < mp ->
  T * W = U * A * B -> Q * W < 2 * B -> 1250 <= U ->
  C * T - 200 * A <= 100 * mp * A <= C * T + 200 * A ->
  mp * (Q * W) - B <= mr * B <= mp * (Q * W) + B ->
  5 * Z.abs (100 * mr - C * Q * U) <= 2 * U.
Proof.
  intros HA HB HQ HW HC Hmp Hpow HQW HU Hdiv Hmul.
  assert ((100 * mr - C * Q * U) * (A * B) < 500 * (A * B)) as Hup.
  { assert (100 * mr * B * A <= 100 * (mp * (Q * W) + B) * A) by nia.
    assert (100 * mp * A * (Q * W) <= (C * T + 200 * A) * (Q * W)) by nia.
    assert (200 * A * (Q * W) < 200 * A * (2 * B)) by nia.
    nia. }
  assert (- (500 * (A * B)) < (100 * mr - C * Q * U) * (A * B)) as Hlow.
  { assert (100 * (mp * (Q * W) - B) * A <= 100 * mr * B * A) by nia.
    assert ((C * T - 200 * A) * (Q * W) <= 100 * mp * A * (Q * W)) by nia.
    assert (200 * A * (Q * W) < 200 * A * (2 * B)) by nia.
    nia. }
  assert (0 < A * B) by nia.
  assert (-500 < 100 * mr - C * Q * U < 500) by nia.
  lia.
Qed.

(** The double [price / 100 * q] of a price in cents and a quantity up to
    100 is within 0.004 of the exact total. *)
Lemma total_within_cents (price q : Z) :
  Z.abs price < 10 ^ 10 -> 1 <= q <= 100 ->
  within_cents (PrimFloat.mul (number_of_decimal price) (number_of_Z q)) (price * q).
Proof.
  intros Hprice Hq. unfold within_cents, number_of_decimal.
  rewrite FloatAxioms.mul_spec, FloatAxioms.div_spec.
  destruct (Prim2SF_number_of_Z q ltac:(lia) ltac:(change (2 ^ 53) with 9007199254740992; lia))
    as (mQ & -> & HmQ & HnQ).
  destruct (Prim2SF_number_of_Z 100 ltac:(lia) ltac:(reflexivity))
    as (m100 & -> & Hm100 & Hn100).
  change (Zdigits2 100) with 7 in *. change (100 <? 0) with false.
  change (Z.abs 100 * 2 ^ (53 - 7)) with (100 * 2 ^ 46) in Hm100.
  replace (q <? 0) with false by (symmetry; apply Z.ltb_ge; lia).
  replace (Z.abs q) with q in HmQ by lia.
  assert (1 <= Zdigits2 q <= 7) as HdQ
    by (apply (Zdigits2_between q 0 7); [lia | change (2 ^ 0) with 1; change (2 ^ 7) with 128; lia]).
  destruct (Z.eq_dec price 0) as [->|Hnonzero].
  - cbn. reflexivity.
  - destruct (Prim2SF_number_of_Z price Hnonzero
                ltac:(change (2 ^ 53) with 9007199254740992; change (10 ^ 10) with 10000000000 in Hprice; lia))
      as (mC & -> & HmC & HnC).
    assert (Zdigits2 price = Zdigits2 (Z.abs price)) as Hdabs by (by destruct price).
    assert (1 <= Zdigits2 price <= 34) as HdC.
    { rewrite Hdabs. apply (Zdigits2_between (Z.abs price) 0 34); [lia|].
      change (2 ^ 0) with 1. change (2 ^ 34) with 17179869184.
      change (10 ^ 10) with 10000000000 in Hprice. lia. }
    set (dC := Zdigits2 price) in *. set (dQ := Zdigits2 q) in *.
    set (C := Z.abs price) in *.
    destruct (SFdiv_spec (price <? 0) false mC m100 (dC - 53) (7 - 53) HnC Hn100 ltac:(lia))
      as (mp & ep & Hdiv & Hnp & Hep & Hdiv_near).
    change (FloatAxioms.SF64div ?x ?y) with (SFdiv 53 1024 x y). rewrite Hdiv.
    destruct (SFmul_spec (xorb (price <? 0) false) false mp mQ ep (dQ - 53) Hnp HnQ ltac:(lia))
      as (mr & er & Hmul & Hnr & Her & Hmul_near).
    change (FloatAxioms.SF64mul ?x ?y) with (SFmul 53 1024 x y). rewrite Hmul.
    rewrite !xorb_false_r. cbv zeta.
    replace (0 <=? er) with false by (symmetry; apply Z.leb_gt; lia).
    set (n := ep - (dC - 53 - (7 - 53) - 53)) in *.
    set (n' := er - (ep + (dQ - 53))) in *.
    assert (0 <= n <= 2) as Hn by (unfold n; lia).
    assert (52 <= n' <= 54) as Hn' by (unfold n'; lia).
    assert (- er = 113 - dC - dQ - n - n') as HE by (unfold n, n'; lia).
    pose proof (pow2_pos n ltac:(lia)) as HA.
    pose proof (pow2_pos n' ltac:(lia)) as HB.
    pose proof (pow2_pos (53 - dQ) ltac:(lia)) as HW.
    pose proof (pow2_pos (60 - dC) ltac:(lia)) as HT.
    assert (2 ^ (60 - dC) * 2 ^ (53 - dQ) = 2 ^ (- er) * 2 ^ n * 2 ^ n') as Hpow
      by (rewrite <- !Z.pow_add_r by lia; f_equal; lia).
    assert (1250 <= 2 ^ (- er)) as HU.
    { assert (2 ^ 16 <= 2 ^ (- er)) by (apply Z.pow_le_mono_r; lia).
      change (2 ^ 16) with 65536 in *. lia. }
    assert (2 ^ 52 <= 2 ^ n') as HB52 by (apply Z.pow_le_mono_r; lia).
    unfold normal in *.
    assert (2 ^ (53 - dC) * 2 ^ 53 = 2 ^ (60 - dC) * 2 ^ 46) as Hshift
      by (rewrite <- !Z.pow_add_r by lia; f_equal; lia).
    assert (C * 2 ^ (60 - dC) - 200 * 2 ^ n <= 100 * Z.pos mp * 2 ^ n
            <= C * 2 ^ (60 - dC) + 200 * 2 ^ n) as Hdiv'.
    { rewrite HmC, Hm100 in Hdiv_near.
      pose proof (pow2_pos 46 ltac:(lia)) as H46.
      set (K := 2 ^ 46) in *. set (A := 2 ^ n) in *. set (T := 2 ^ (60 - dC)) in *.
      assert (C * 2 ^ (53 - dC) * 2 ^ 53 = C * T * K) as Heq by (rewrite <- Z.mul_assoc, Hshift; lia).
      rewrite Heq in Hdiv_near. nia. }
    assert (5 * Z.abs (100 * Z.pos mr - C * q * 2 ^ (- er)) <= 2 * 2 ^ (- er)) as Hfinal.
    { apply (product_near (Z.pos mp) (Z.pos mr) C q (2 ^ n) (2 ^ n') (2 ^ (60 - dC))
               (2 ^ (53 - dQ)) (2 ^ (- er))); lia. }
    destruct (price <? 0) eqn:Hsign.
    + apply Z.ltb_lt in Hsign. replace (price * q) with (- (C * q)) by (unfold C; lia).
      replace (100 * Z.neg mr - - (C * q) * 2 ^ (- er))
        with (- (100 * Z.pos mr - C * q * 2 ^ (- er))) by lia.
      by rewrite Z.abs_opp.
    + apply Z.ltb_ge in Hsign. replace (price * q) with (C * q) by (unfold C; lia).
      exact Hfinal.
Qed.

Lemma round_half_near (X P c : Z) :
  0 < P -> 5 * Z.abs (X - c * P) <= 2 * P -> (2 * X / P + 1) / 2 = c.
Proof.
  intros HP Hnear.
  assert (2 * c - 1 <= 2 * X / P <= 2 * c) as Hq.
  { split.
    - apply Z.div_le_lower_bound; [exact HP | lia].
    - assert (2 * X / P < 2 * c + 1); [|lia].
      apply Z.div_lt_upper_bound; [exact HP | lia]. }
  destruct (Z.eq_dec (2 * X / P) (2 * c)) as [->|Hne].
  - symmetry. apply (Z.div_unique _ _ _ 1); lia.
  - replace (2 * X / P) with (2 * c - 1) by lia.
    symmetry. apply (Z.div_unique _ _ _ 0); lia.
Qed.

(** [round_cents] takes a double within 0.004 of an amount in cents to that
    amount. *)
Lemma round_cents_within (f : float) (cents : Z) :
  - 10 ^ 10 < cents < 10 ^ 10 -> within_cents f cents -> round_cents f = Some cents.
Proof.
  unfold within_cents, round_cents. intros Hfits Hnear.
  destruct (FloatOps.Prim2SF f) as [s|s| |s m e]; try done.
  - by rewrite Hnear.
  - cbv zeta in *. destruct (0 <=? e) eqn:He.
    + destruct s.
      * replace (Z.pos m * 100 * 2 ^ e) with (- cents) by lia.
        replace (- cents <? 10 ^ 10) with true by (symmetry; apply Z.ltb_lt; lia).
        f_equal. lia.
      * replace (Z.pos m * 100 * 2 ^ e) with cents by lia.
        replace (cents <? 10 ^ 10) with true by (symmetry; apply Z.ltb_lt; lia).
        reflexivity.
    + apply Z.leb_gt in He. pose proof (pow2_pos (- e) ltac:(lia)) as HP.
      destruct s.
      * rewrite (round_half_near (Z.pos m * 100) (2 ^ (- e)) (- cents) HP)
          by (replace (Z.pos m * 100 - - cents * 2 ^ (- e))
                with (- (100 * Z.neg m - cents * 2 ^ (- e))) by lia;
              by rewrite Z.abs_opp).
        replace (- cents <? 10 ^ 10) with true by (symmetry; apply Z.ltb_lt; lia).
        f_equal. lia.
      * rewrite (round_half_near (Z.pos m * 100) (2 ^ (- e)) cents HP)
          by (by replace (Z.pos m * 100 - cents * 2 ^ (- e))
                   with (100 * Z.pos m - cents * 2 ^ (- e)) by lia).
        replace (cents <? 10 ^ 10) with true by (symmetry; apply Z.ltb_lt; lia).
        reflexivity.
Qed.

End Binary64.

(** ** C7: the stored total is exact *)

(** The double the route computes is not always the double nearest to the
    exact total: for the tier priced 99.99 and the quantity 3 it is the one
    below 299.97.  The conversion to DECIMAL(10,2) removes the error. *)
Lemma totalAmount_not_nearest :
  st_price site_audit * 3 = 29997
  ∧ PrimFloat.ltb (totalAmount site_audit 3) (number_of_decimal 29997) = true
  ∧ round_cents (totalAmount site_audit 3) = Some 29997.
Proof. vm_compute. repeat split. Qed.

Lemma select_customer_by_email_found email t id :
  select_customer_by_email email t = Some id ->
  ∃ c, customers t !! id = Some c ∧ c_email c = email.
Proof.
  unfold select_customer_by_email. intros Hsome.
  destruct (head _) as [[k c]|] eqn:Hhead; [|discriminate].
  injection Hsome as <-.
  apply head_Some_elem_of, list_elem_of_filter in Hhead as [Hemail Hin].
  apply elem_of_map_to_list in Hin. by exists c.
Qed.

Section CreatedTotal.

#[local] Arguments totalAmount : simpl never.

(** PostgreSQL's conversion of a number to DECIMAL(10,2) rounds to the
    nearest cent: a double within 0.004 of an amount in cents that fits the
    column is stored as that amount. *)
Variable numeric_10_2 : float -> option Z.
Hypothesis numeric_10_2_rounds :
  ∀ f cents, - 10 ^ 10 < cents < 10 ^ 10 -> within_cents f cents ->
             numeric_10_2 f = Some cents.

(** C7.  For every valid tier, whatever its id and its price, and every
    quantity from 1 to 100 whose total fits the column, [POST /create] adds
    one order, under the next value of the sequence, and that order carries
    the service name, the tier name, the unit price and the delivery days
    of the tier as they are, the quantity, and as total exactly price x
    quantity, in cents: the error of the double product is far below half
    a cent and the database's rounding removes it.  The conditions on the
    state are those of any insertion: the next id and its code are free,
    and so is the next customer id when the email is new. *)
Theorem create_order_snapshot_and_total (req : create_request) (w : world)
    (tier : service_tier) (tier_service_name : string) :
  select_service_tier (serviceId req) (db w) = Some (tier, tier_service_name) ->
  1 <= default 1 (req_quantity req) <= 100 ->
  - 10 ^ 10 < st_price tier * default 1 (req_quantity req) < 10 ^ 10 ->
  orders (db w) !! (orders_id_seq (seqs w) + 1) = None ->
  tracking_id_taken (generate_tracking_id (now w) (orders_id_seq (seqs w) + 2)) (db w) = false ->
  (select_customer_by_email (customerEmail req) (db w) = None ->
   customers (db w) !! (customers_id_seq (seqs w) + 1) = None) ->
  ∃ customerId,
    orders (db (create_order numeric_10_2 req w).2)
    = <[orders_id_seq (seqs w) + 1 :=
          Order (generate_tracking_id (now w) (orders_id_seq (seqs w) + 2)) customerId
                (serviceId req) tier_service_name (st_name tier) (st_price tier)
                (st_delivery_days tier) (req_keywords req) (default 1 (req_quantity req))
                (st_price tier * default 1 (req_quantity req))
                pending unpaid None (now w) (now w)]> (orders (db w))
    ∧ (c_email <$> customers (db (create_order numeric_10_2 req w).2) !! customerId)
      = Some (customerEmail req).
Proof.
  intros Htier Hquantity Hfits Hfree Hcode Hcustomer.
  assert (numeric_10_2 (totalAmount tier (default 1 (req_quantity req)))
          = Some (st_price tier * default 1 (req_quantity req))) as Hcast.
  { apply numeric_10_2_rounds; [exact Hfits|].
    apply total_within_cents; [|exact Hquantity].
    destruct (Z.abs_spec (st_price tier)) as [[? ->]|[? ->]]; nia. }
  unfold create_order, insert_order, insert_customer, bind, try_catch, or_throw, ret, throw,
    beginTransaction, commitTransaction, rollbackTransaction, client_select, client_exec,
    nextval_orders_id_seq, nextval_customers_id_seq,
    visible, set_visible, set_conn, set_db, set_seqs.
  cbn [conn db seqs now fst snd]. rewrite Htier.
  destruct (select_customer_by_email _ _) as [cid|] eqn:Hsel; cbn in Hsel |- *.
  - rewrite Hcast. cbn. rewrite update_customer_orders, Hfree.
    unfold tracking_id_taken in *. cbn [tracking_id orders] in *.
    replace (orders_id_seq (seqs w) + 1 + 1) with (orders_id_seq (seqs w) + 2) by lia.
    rewrite update_customer_orders, Hcode. cbn.
    exists cid. split; [reflexivity|].
    unfold insert_history, update_customer. cbn.
    apply select_customer_by_email_found in Hsel as (c & Hc & Hemail).
    rewrite Hc. cbn. rewrite lookup_insert_eq. cbn. by rewrite Hemail.
  - rewrite (Hcustomer eq_refl). cbn. rewrite Hcast. cbn. rewrite Hfree.
    unfold tracking_id_taken in *. cbn [tracking_id orders] in *.
    replace (orders_id_seq (seqs w) + 1 + 1) with (orders_id_seq (seqs w) + 2) by lia.
    change (orders (set_customers ?c (db w))) with (orders (db w)). rewrite Hcode. cbn.
    exists (customers_id_seq (seqs w) + 1). split; [reflexivity|].
    unfold insert_history. cbn. by rewrite lookup_insert_eq.
Qed.

End CreatedTotal.

(** The tier of id 7 priced 99.99, three times: the order carries 299.97. *)
Lemma create_order_snapshot_and_total_witness :
  ∃ customerId,
    orders (db (create_order round_cents audit_request audit_world).2)
    = <[6 := Order "SEO-20250131-0007" customerId "7" "Monthly SEO Packages" "Site Audit"
                   9999 7 "seo" 3 29997 pending unpaid None jan31 jan31]> ∅
    ∧ (c_email <$> customers (db (create_order round_cents audit_request audit_world).2)
                   !! customerId)
      = Some "ann@example.com"%string.
Proof.
  apply (create_order_snapshot_and_total round_cents round_cents_within
           audit_request audit_world site_audit "Monthly SEO Packages").
  - vm_compute. reflexivity.
  - cbn. lia.
  - cbn. lia.
  - reflexivity.
  - vm_compute. reflexivity.
  - intros _. reflexivity.
Defined.

(** ** Tracking codes *)

Lemma sequence_fields_checked : all_from (Z.to_nat 10000) 0 sequence_field_ok = true.
Proof. vm_compute. reflexivity. Qed.

Lemma day_fields_checked :
  all_from (Z.to_nat 31) 1 (λ n, two_digits (digits_field 2 n)) = true.
Proof. vm_compute. reflexivity. Qed.

Lemma four_digits_shape s :
  four_digits s = true ->
  ∃ a b c d,
    s = String a (String b (String c (String d EmptyString)))
    ∧ is_digit a = true ∧ is_digit b = true ∧ is_digit c = true ∧ is_digit d = true.
Proof.
  destruct s as [|a [|b [|c [|d [|e s]]]]]; try discriminate. cbn.
  rewrite !andb_true_iff. intros (Ha & Hb & Hc & Hd & _). by exists a, b, c, d.
Qed.

Lemma two_digits_shape s :
  two_digits s = true ->
  ∃ a b, s = String a (String b EmptyString) ∧ is_digit a = true ∧ is_digit b = true.
Proof.
  destruct s as [|a [|b [|e s]]]; try discriminate. cbn.
  rewrite !andb_true_iff. intros (Ha & Hb & _). by exists a, b.
Qed.

(** Below 10000: the field has four digits, [LPAD] pads without cutting, and
    the number can be read back from the field. *)
Lemma sequence_field n :
  0 <= n < 10000 ->
  four_digits (digits_field 4 n) = true
  ∧ lpad (text n) 4 "0" = digits_field 4 n
  ∧ number_of_text (digits_field 4 n) = Some n.
Proof.
  intros Hn.
  assert (sequence_field_ok n = true) as Hn3
    by (apply (all_from_spec _ _ _ sequence_fields_checked); lia).
  unfold sequence_field_ok in Hn3. cbv zeta in Hn3.
  change (repeat_string (4 - String.length (text n)) "0" +:+ text n)
    with (digits_field 4 n) in Hn3.
  apply andb_true_iff in Hn3 as [Hn2 Hread].
  apply andb_true_iff in Hn2 as [Hfour Hpad].
  apply String.eqb_eq in Hpad. apply bool_decide_eq_true in Hread.
  exact (conj Hfour (conj Hpad Hread)).
Qed.

Lemma day_field n : 1 <= n <= 31 -> two_digits (digits_field 2 n) = true.
Proof.
  intros Hn. apply (all_from_spec _ _ _ day_fields_checked). lia.
Qed.

(** The code of a four-digit date and a sequence value below 10000, spelled
    out character by character. *)
Lemma generate_tracking_id_shape ts n :
  four_digit_date ts -> 0 <= n < 10000 ->
  ∃ y1 y2 y3 y4 m1 m2 d1 d2 n1 n2 n3 n4,
    generate_tracking_id ts n
    = String "S" (String "E" (String "O" (String "-"
        (String y1 (String y2 (String y3 (String y4
          (String m1 (String m2 (String d1 (String d2
            (String "-"
              (String n1 (String n2 (String n3 (String n4 EmptyString))))))))))))))))
    ∧ digits_field 4 n = String n1 (String n2 (String n3 (String n4 EmptyString)))
    ∧ forallb is_digit [y1; y2; y3; y4; m1; m2; d1; d2; n1; n2; n3; n4] = true.
Proof.
  intros (Hyear & Hmonth & Hday) Hn.
  destruct (sequence_field (ts_year ts) Hyear) as (Hy & _ & _).
  apply four_digits_shape in Hy as (y1 & y2 & y3 & y4 & Hy & Hy1 & Hy2 & Hy3 & Hy4).
  assert (1 <= ts_month ts <= 31) as Hmonth' by lia.
  pose proof (day_field _ Hmonth') as Hm.
  apply two_digits_shape in Hm as (m1 & m2 & Hm & Hm1 & Hm2).
  pose proof (day_field _ Hday) as Hd.
  apply two_digits_shape in Hd as (d1 & d2 & Hd & Hd1 & Hd2).
  destruct (sequence_field n Hn) as (Hfour & Hpad & _).
  apply four_digits_shape in Hfour as (n1 & n2 & n3 & n4 & Hfield & Hn1 & Hn2 & Hn3 & Hn4).
  exists y1, y2, y3, y4, m1, m2, d1, d2, n1, n2, n3, n4.
  split; [|split; [exact Hfield|]].
  - unfold generate_tracking_id, to_char_YYYYMMDD. rewrite Hpad, Hy, Hm, Hd, Hfield.
    reflexivity.
  - cbn. by rewrite Hy1, Hy2, Hy3, Hy4, Hm1, Hm2, Hd1, Hd2, Hn1, Hn2, Hn3, Hn4.
Qed.

Lemma generate_tracking_id_format ts n :
  four_digit_date ts -> 0 <= n < 10000 ->
  tracking_format (generate_tracking_id ts n) = true.
Proof.
  intros Hdate Hn.
  destruct (generate_tracking_id_shape ts n Hdate Hn)
    as (y1 & y2 & y3 & y4 & m1 & m2 & d1 & d2 & n1 & n2 & n3 & n4 & Hcode & _ & Hdigits).
  rewrite Hcode. exact Hdigits.
Qed.

(** Two codes of sequence values below 10000 are equal only for the same
    value, whatever their dates. *)
Lemma generate_tracking_id_inj ts ts' n n' :
  four_digit_date ts -> four_digit_date ts' -> 0 <= n < 10000 -> 0 <= n' < 10000 ->
  generate_tracking_id ts n = generate_tracking_id ts' n' -> n = n'.
Proof.
  intros Hdate Hdate' Hn Hn' Hsame.
  destruct (generate_tracking_id_shape ts n Hdate Hn)
    as (y1 & y2 & y3 & y4 & m1 & m2 & d1 & d2 & n1 & n2 & n3 & n4 & Hcode & Hfield & _).
  destruct (generate_tracking_id_shape ts' n' Hdate' Hn')
    as (y1' & y2' & y3' & y4' & m1' & m2' & d1' & d2' & n1' & n2' & n3' & n4'
        & Hcode' & Hfield' & _).
  rewrite Hcode, Hcode' in Hsame.
  assert (digits_field 4 n = digits_field 4 n') as Hfields
    by (rewrite Hfield, Hfield'; congruence).
  destruct (sequence_field n Hn) as (_ & _ & Hread).
  destruct (sequence_field n' Hn') as (_ & _ & Hread').
  rewrite Hfields in Hread. congruence.
Qed.

(** The example of the specification. *)
Example generate_tracking_id_7 :
  generate_tracking_id jan31 7 = "SEO-20250131-0007"%string.
Proof. reflexivity. Qed.

(** Beyond 9999 [LPAD] cuts the number on the right: the values 10000 to
    10009 all give the same code on a given day. *)
Example generate_tracking_id_cut :
  generate_tracking_id jan31 12345 = "SEO-20250131-1234"%string
  ∧ generate_tracking_id jan31 10000 = generate_tracking_id jan31 10009.
Proof. split; reflexivity. Qed.

Lemma visible_set_visible t w : visible (set_visible t w) = t.
Proof. destruct w as [? ? ? []]; reflexivity. Qed.

(** What a successful [INSERT INTO orders] did. *)
Lemma insert_order_ok numeric_10_2 v w id row w' :
  insert_order numeric_10_2 v w = (Ok (id, row), w') ->
  id = orders_id_seq (seqs w) + 1
  ∧ tracking_id row = generate_tracking_id (now w) (orders_id_seq (seqs w) + 2)
  ∧ orders (visible w) !! id = None
  ∧ tracking_id_taken (tracking_id row) (visible w) = false
  ∧ orders (visible w') = <[id := row]> (orders (visible w))
  ∧ orders_id_seq (seqs w') = orders_id_seq (seqs w) + 2.
Proof.
  unfold insert_order, bind, or_throw, ret, throw, nextval_orders_id_seq.
  destruct (numeric_10_2 _) as [total|]; [|discriminate].
  destruct w as [d [cs os] ts c]. cbn.
  replace (os + 1 + 1) with (os + 2) by lia.
  destruct c as [t|]; cbn.
  all: destruct (orders _ !! _) eqn:Hfree; [discriminate|].
  all: destruct (tracking_id_taken _ _) eqn:Htaken; [discriminate|].
  all: intros Hrun; injection Hrun as <- <- <-; cbn; repeat split; assumption.
Qed.

(** The UNIQUE constraint keeps the stored codes distinct. *)
Lemma unique_tracking_ids_insert t id row :
  unique_tracking_ids t ->
  tracking_id_taken (tracking_id row) t = false ->
  ∀ i j oi oj,
    <[id := row]> (orders t) !! i = Some oi -> <[id := row]> (orders t) !! j = Some oj ->
    tracking_id oi = tracking_id oj -> i = j.
Proof.
  intros Hunique Htaken i j oi oj Hi Hj Hsame.
  apply bool_decide_eq_false in Htaken.
  destruct (decide (id = i)) as [<-|Hi']; destruct (decide (id = j)) as [<-|Hj']; [done| | |].
  - rewrite lookup_insert_eq in Hi. rewrite lookup_insert_ne in Hj by done.
    injection Hi as <-. exfalso. apply Htaken.
    apply map_Exists_lookup. by exists j, oj.
  - rewrite lookup_insert_eq in Hj. rewrite lookup_insert_ne in Hi by done.
    injection Hj as <-. exfalso. apply Htaken.
    apply map_Exists_lookup. by exists i, oi.
  - rewrite lookup_insert_ne in Hi by done. rewrite lookup_insert_ne in Hj by done.
    by apply (Hunique i j oi oj).
Qed.

(** ** C5: the tracking code *)

(** C5 as stated fails: the number in the code is not a per-day sequence
    number.  In a database just set up, the first order, on 31 January, gets
    SEO-20250131-0002 where the specification's numbering gives 0001; the
    next order is the first of 1 February, and it gets SEO-20250201-0004
    where the specification's numbering starts again at 0001. *)
Lemma tracking_id_not_per_day :
  orders_created_on jan31 (db fresh_world) = 0%nat
  ∧ spec_per_day_tracking_id jan31 (db fresh_world) = "SEO-20250131-0001"%string
  ∧ tracking_id <$> orders (db after_first_order) !! 1 = Some "SEO-20250131-0002"%string
  ∧ orders_created_on feb01 (db next_morning) = 0%nat
  ∧ spec_per_day_tracking_id feb01 (db next_morning) = "SEO-20250201-0001"%string
  ∧ tracking_id <$> orders (db after_second_order) !! 3 = Some "SEO-20250201-0004"%string.
Proof. vm_compute. repeat split. Qed.

(** C5, amended.  Every order inserted gets the code SEO-YYYYMMDD-NNNN of
    the day's date and of the next value of the global sequence
    [orders_id_seq], which the order ids are drawn from too: the value is two
    more than the last one, whatever the day, and never starts again.  For a
    date of four-digit year and a value below 10000 the number is the value
    zero-padded to four digits, the code has the format, no code of another
    value below 10000 equals it on any day, and the stored codes stay
    distinct. *)
Theorem tracking_id_from_global_sequence
    (numeric_10_2 : float -> option Z) (v : order_values) (w : world)
    (id : Z) (row : order) (w' : world) :
  four_digit_date (now w) ->
  0 <= orders_id_seq (seqs w) < 9998 ->
  unique_tracking_ids (visible w) ->
  insert_order numeric_10_2 v w = (Ok (id, row), w') ->
  tracking_id row
    = "SEO-" +:+ to_char_YYYYMMDD (now w) +:+ "-"
        +:+ digits_field 4 (orders_id_seq (seqs w) + 2)
  ∧ tracking_format (tracking_id row) = true
  ∧ orders_id_seq (seqs w') = orders_id_seq (seqs w) + 2
  ∧ (∀ ts n, four_digit_date ts -> 0 <= n < 10000 ->
             generate_tracking_id ts n = tracking_id row -> n = orders_id_seq (seqs w) + 2)
  ∧ unique_tracking_ids (visible w').
Proof.
  intros Hdate Hseq Hunique Hrun.
  destruct (insert_order_ok _ _ _ _ _ _ Hrun) as (Hid & Hcode & Hfree & Htaken & Horders & Hnext).
  assert (0 <= orders_id_seq (seqs w) + 2 < 10000) as Hvalue by lia.
  split; [|split; [|split; [exact Hnext|split]]].
  - rewrite Hcode. unfold generate_tracking_id.
    by destruct (sequence_field _ Hvalue) as (_ & -> & _).
  - rewrite Hcode. by apply generate_tracking_id_format.
  - intros ts n Hts Hn Hsame. rewrite Hcode in Hsame.
    by apply (generate_tracking_id_inj ts (now w)).
  - unfold unique_tracking_ids. rewrite Horders.
    by apply unique_tracking_ids_insert.
Qed.

(** The order inserted in [open_world], where the sequence is at 5. *)
Lemma tracking_id_from_global_sequence_witness :
  (insert_order round_cents standard_values open_world).1
    = Ok (6, Order "SEO-20250131-0007" 1 "monthly-seo-standard" "Monthly SEO Packages"
                   "Standard Monthly" 45000 30 "seo" 1 45000 pending unpaid None jan31 jan31)
  ∧ tracking_format "SEO-20250131-0007" = true.
Proof.
  split; [vm_compute; reflexivity|].
  destruct (tracking_id_from_global_sequence round_cents standard_values open_world 6
              (Order "SEO-20250131-0007" 1 "monthly-seo-standard" "Monthly SEO Packages"
                     "Standard Monthly" 45000 30 "seo" 1 45000 pending unpaid None
                     jan31 jan31)
              (insert_order round_cents standard_values open_world).2)
    as (_ & Hformat & _).
  - unfold four_digit_date. cbn. lia.
  - cbn. lia.
  - intros i j oi oj Hi. cbn in Hi. rewrite lookup_empty in Hi. discriminate.
  - vm_compute. reflexivity.
  - exact Hformat.
Defined.

(** * More properties of the routes *)

Ltac run_route :=
  unfold bind, try_catch, or_throw, ret, throw, beginTransaction, commitTransaction,
    rollbackTransaction, client_select, client_exec, query_select, query_exec,
    nextval_orders_id_seq, nextval_customers_id_seq,
    visible, set_visible, set_conn, set_db, set_seqs;
  cbn [conn db seqs now fst snd].

(** ** The creation route never answers with success *)

(** X3.  [POST /create] has two outcomes only: it answers with a refusal
    (400 or 500) and the committed rows are the ones before; or it commits
    the order and then throws out of its own [catch] (the second release of
    the client) without having answered.  It never answers with success. *)
Theorem create_order_never_answers_success
    (numeric_10_2 : float -> option Z) (req : create_request) (w : world) :
  (∃ r, (create_order numeric_10_2 req w).1 = Ok r
        ∧ success r = false
        ∧ db (create_order numeric_10_2 req w).2 = db w
        ∧ conn (create_order numeric_10_2 req w).2 = Released)
  ∨ ((create_order numeric_10_2 req w).1 = Throw already_released
     ∧ conn (create_order numeric_10_2 req w).2 = Released
     ∧ ∃ tier tier_service_name customerId total,
         orders (db (create_order numeric_10_2 req w).2)
         = <[orders_id_seq (seqs w) + 1 :=
               created_order_row req w tier tier_service_name customerId total]>
             (orders (db w))).
Proof.
  unfold create_order, insert_order, insert_customer. run_route.
  destruct (select_service_tier _ _) as [[tier sname]|]; [|left; by eexists].
  destruct (select_customer_by_email _ _) as [cid|]; cbn.
  - destruct (numeric_10_2 _) as [total|]; [|left; by eexists]. cbn.
    rewrite update_customer_orders.
    destruct (orders (db w) !! _); [left; by eexists|].
    destruct (tracking_id_taken _ _); [left; by eexists|]. cbn.
    right. split; [reflexivity|]. split; [reflexivity|].
    exists tier, sname, cid, total.
    unfold insert_history. cbn.
    unfold created_order_row.
    by replace (orders_id_seq (seqs w) + 1 + 1) with (orders_id_seq (seqs w) + 2) by lia.
  - destruct (customers (db w) !! _); [left; by eexists|]. cbn.
    destruct (numeric_10_2 _) as [total|]; [|left; by eexists]. cbn.
    destruct (orders (db w) !! _); [left; by eexists|].
    destruct (tracking_id_taken _ _); [left; by eexists|]. cbn.
    right. split; [reflexivity|]. split; [reflexivity|].
    exists tier, sname, (customers_id_seq (seqs w) + 1), total.
    unfold created_order_row.
    by replace (orders_id_seq (seqs w) + 1 + 1) with (orders_id_seq (seqs w) + 2) by lia.
Qed.

(** ** The payment-intent route *)

(** The loop over the cart: it stops at the first tier that is not valid,
    after a rollback, or goes through and changes nothing. *)
Lemma payment_intent_items_spec numeric_items total acc w t :
  conn w = InTransaction t ->
  (∃ resp, payment_intent_items numeric_items total acc w
           = (Ok (inl resp), set_conn Released w)
           ∧ success resp = false
           ∧ Exists (λ i, select_service_tier (ci_serviceId i) t = None) numeric_items)
  ∨ (∃ total' acc', payment_intent_items numeric_items total acc w
                    = (Ok (inr (total', acc')), w)
                    ∧ Forall (λ i, is_Some (select_service_tier (ci_serviceId i) t))
                             numeric_items).
Proof.
  destruct w as [d s n c]. cbn. intros ->. revert total acc.
  induction numeric_items as [|item items IH]; intros total acc.
  - right. exists total, acc. split; [reflexivity|constructor].
  - cbn [payment_intent_items]. run_route.
    destruct (select_service_tier (ci_serviceId item) t) as [[tier sname]|] eqn:Htier.
    + destruct (IH (PrimFloat.add total (totalAmount tier (default 1 (ci_quantity item))))
                  (acc ++ [OrderItem (ci_serviceId item) sname (st_name tier) (st_price tier)
                                     (default 1 (ci_quantity item))
                                     (totalAmount tier (default 1 (ci_quantity item)))]))
        as [(resp & Hrun & Hresp & Hbad) | (total' & acc' & Hrun & Hall)].
      * left. exists resp. split; [exact Hrun|]. split; [exact Hresp|].
        by apply Exists_cons_tl.
      * right. exists total', acc'. split; [exact Hrun|].
        constructor; [by rewrite Htier | exact Hall].
    + left. eexists. split; [reflexivity|]. split; [reflexivity|].
      by apply Exists_cons_hd.
Qed.

(** X4.  [POST /create-payment-intent] never changes the committed rows nor
    the sequences, and it ends with its client still checked out exactly
    when the cart is missing or empty. *)
Theorem create_payment_intent_writes_nothing
    (stripe : float -> string -> option payment_intent) (req : cart_request) (w : world) :
  db (create_payment_intent stripe req w).2 = db w
  ∧ seqs (create_payment_intent stripe req w).2 = seqs w
  ∧ holds_connection (create_payment_intent stripe req w).2
    = match cart req with Some (_ :: _) => false | _ => true end.
Proof.
  unfold create_payment_intent. run_route.
  destruct (cart req) as [[|item items]|]; [by repeat split| |by repeat split].
  destruct (payment_intent_items_spec (item :: items) PrimFloat.zero []
              (World (db w) (seqs w) (now w) (InTransaction (db w))) (db w) eq_refl)
    as [(resp & -> & _) | (total' & acc' & -> & _)].
  - by repeat split.
  - cbn. destruct (cart_customer req) as [customer|]; cbn; [|by repeat split].
    destruct (stripe _ _); by repeat split.
Qed.

(** X5.  When every tier of a cart that is not empty is valid, the route
    has rolled back and released its client before it calls Stripe; if the
    request has no customer or Stripe refuses, the [catch] rolls back a
    second time, which throws: the route fails without any response. *)
Theorem create_payment_intent_second_release
    (stripe : float -> string -> option payment_intent) (req : cart_request) (w : world)
    (items : list cart_item) :
  cart req = Some items ->
  items ≠ [] ->
  Forall (λ i, is_Some (select_service_tier (ci_serviceId i) (db w))) items ->
  match cart_customer req with
  | Some customer => ∀ total, stripe total (ci_email customer) = None
  | None => True
  end ->
  (create_payment_intent stripe req w).1 = Throw already_released
  ∧ conn (create_payment_intent stripe req w).2 = Released.
Proof.
  intros Hcart Hitems Hvalid Hstripe.
  unfold create_payment_intent. run_route. rewrite Hcart.
  destruct items as [|item items]; [done|].
  destruct (payment_intent_items_spec (item :: items) PrimFloat.zero []
              (World (db w) (seqs w) (now w) (InTransaction (db w))) (db w) eq_refl)
    as [(resp & _ & _ & Hbad) | (total' & acc' & -> & _)].
  - exfalso. apply Exists_exists in Hbad as (i & Hi & Hnone).
    rewrite Forall_forall in Hvalid. destruct (Hvalid i Hi) as [x Hx]. congruence.
  - cbn. destruct (cart_customer req) as [customer|]; cbn; [|by split].
    by rewrite Hstripe.
Qed.

(** A cart of one seeded tier, no customer. *)
Lemma create_payment_intent_second_release_witness :
  (create_payment_intent (λ _ _, None)
     (CartRequest (Some [CartItem "pbn-basic" None None]) None) seed_world).1
  = Throw already_released.
Proof.
  apply (create_payment_intent_second_release (λ _ _, None)
           (CartRequest (Some [CartItem "pbn-basic" None None]) None) seed_world
           [CartItem "pbn-basic" None None]).
  - reflexivity.
  - discriminate.
  - constructor; [|constructor]. vm_compute. by eexists.
  - exact I.
Defined.

(** ** The test-order route *)

(** The loop over the cart, in a transaction on the rows [t]: nothing is
    committed; it stops at a tier that is not valid after a rollback, or
    throws with the transaction open, or goes through with one more order
    and one more payment per item, and no history entry. *)
Lemma test_order_items_spec numeric_10_2 items customerId created total d s n t :
  ∃ s' result c',
    test_order_items numeric_10_2 items customerId created total
      (World d s n (InTransaction t))
    = (result, World d s' n c')
    ∧ match result with
      | Ok (inl resp) => c' = Released ∧ success resp = false
      | Ok (inr (created', _)) =>
          ∃ t', c' = InTransaction t'
                ∧ length created' = (length created + length items)%nat
                ∧ length (payments t') = (length (payments t) + length items)%nat
                ∧ size (orders t') = (size (orders t) + length items)%nat
                ∧ order_status_history t' = order_status_history t
                ∧ customers t' = customers t
      | Throw _ => ∃ t', c' = InTransaction t'
      end.
Proof.
  revert created total s t. induction items as [|item items IH]; intros created total s t.
  - exists s, (Ok (inr (created, total))), (InTransaction t). split; [reflexivity|].
    exists t. cbn. repeat split; lia.
  - cbn [test_order_items]. unfold insert_order, insert_payment_values. run_route.
    destruct (select_service_tier (ci_serviceId item) t) as [[tier sname]|];
      [|eexists _, _, _; split; [reflexivity|by split]].
    destruct (numeric_10_2 _) as [cents|];
      [|eexists _, _, _; split; [reflexivity|by eexists]]. cbn.
    destruct (orders t !! _) eqn:Hfree; [eexists _, _, _; split; [reflexivity|by eexists]|].
    destruct (tracking_id_taken _ _); [eexists _, _, _; split; [reflexivity|by eexists]|].
    cbn.
    match goal with
    | |- context [test_order_items _ items _ ?created' ?total' (World d ?s' n (InTransaction ?t'))] =>
        destruct (IH created' total' s' t') as (s'' & result & c' & Hrun & Hresult)
    end.
    rewrite Hrun. exists s'', result, c'. split; [reflexivity|].
    destruct result as [[resp|[created' total']]|e]; [exact Hresult| |exact Hresult].
    destruct Hresult as (t' & -> & Hcreated & Hpayments & Horders & Hhistory & Hcustomers).
    exists t'. split; [reflexivity|].
    rewrite length_app in Hcreated. unfold insert_payment in *. cbn in *.
    rewrite length_app in Hpayments. cbn in Hpayments.
    rewrite map_size_insert_None in Horders by exact Hfree.
    repeat split; [lia | lia | lia | exact Hhistory | exact Hcustomers].
Qed.

#[local] Arguments test_order_items : simpl never.
#[local] Arguments payment_intent_items : simpl never.

(** What the route does once the three checks have passed. *)
Lemma test_order_checked numeric_10_2 req w :
  test_order_checks req = true ->
  conn (test_order numeric_10_2 req w).2 = Released
  ∧ (db (test_order numeric_10_2 req w).2 = db w
     ∨ ∃ items created total,
         cart req = Some items
         ∧ (test_order numeric_10_2 req w).1
           = Ok (Response 200 true
                   (text (Z.of_nat (length created)) +:+ " test orders created successfully")
                   (TestOrderData created total))
         ∧ length created = length items
         ∧ length (payments (db (test_order numeric_10_2 req w).2))
           = (length (payments (db w)) + length items)%nat
         ∧ size (orders (db (test_order numeric_10_2 req w).2))
           = (size (orders (db w)) + length items)%nat
         ∧ order_status_history (db (test_order numeric_10_2 req w).2)
           = order_status_history (db w)).
Proof.
  unfold test_order_checks, test_order. destruct w as [d s n c].
  destruct (cart req) as [[|item items]|] eqn:Hcart; try discriminate.
  destruct (cart_customer req) as [customer|]; [|discriminate].
  destruct (bool_decide _ || bool_decide _ || bool_decide _); [discriminate|].
  destruct (_ || _); [discriminate|]. intros _.
  unfold insert_customer. run_route.
  assert (∀ customerId s1 t1,
            payments t1 = payments d -> orders t1 = orders d ->
            order_status_history t1 = order_status_history d ->
            ∃ s2 result c2,
              test_order_items numeric_10_2 (item :: items) customerId [] PrimFloat.zero
                (World d s1 n (InTransaction t1)) = (result, World d s2 n c2)
              ∧ match result with
                | Ok (inl resp) => c2 = Released
                | Ok (inr (created', _)) =>
                    ∃ t', c2 = InTransaction t'
                          ∧ length created' = S (length items)
                          ∧ length (payments t') = (length (payments d) + S (length items))%nat
                          ∧ size (orders t') = (size (orders d) + S (length items))%nat
                          ∧ order_status_history t' = order_status_history d
                | Throw _ => ∃ t', c2 = InTransaction t'
                end) as Hloop.
  { intros customerId s1 t1 Hp Ho Hh.
    destruct (test_order_items_spec numeric_10_2 (item :: items) customerId []
                PrimFloat.zero d s1 n t1) as (s2 & result & c2 & Hrun & Hresult).
    exists s2, result, c2. split; [exact Hrun|].
    destruct result as [[resp|[created' total']]|e]; [by destruct Hresult| |exact Hresult].
    destruct Hresult as (t' & -> & Hc & Hpay & Hord & Hhist & _).
    exists t'. rewrite <- Hp, <- Ho, <- Hh. cbn in *. by repeat split. }
  destruct (select_customer_by_email _ _) as [cid|]; cbn.
  - destruct (Hloop cid s d eq_refl eq_refl eq_refl) as (s2 & result & c2 & -> & Hresult).
    destruct result as [[resp|[created' total']]|e]; cbn.
    + subst c2. split; [reflexivity|by left].
    + destruct Hresult as (t' & -> & Hc & Hpay & Hord & Hhist). cbn.
      split; [reflexivity|]. right. exists (item :: items), created', total'.
      by repeat split.
    + destruct Hresult as (t' & ->). cbn. split; [reflexivity|by left].
  - destruct (customers d !! _); cbn; [split; [reflexivity|by left]|].
    match goal with
    | |- context [test_order_items _ _ ?cid _ _ (World d ?s1 n (InTransaction ?t1))] =>
        destruct (Hloop cid s1 t1 eq_refl eq_refl eq_refl)
          as (s2 & result & c2 & -> & Hresult)
    end.
    destruct result as [[resp|[created' total']]|e]; cbn.
    + subst c2. split; [reflexivity|by left].
    + destruct Hresult as (t' & -> & Hc & Hpay & Hord & Hhist). cbn.
      split; [reflexivity|]. right. exists (item :: items), created', total'.
      by repeat split.
    + destruct Hresult as (t' & ->). cbn. split; [reflexivity|by left].
Qed.

(** A request that fails one of the three checks is answered at once. *)
Lemma test_order_unchecked numeric_10_2 req w :
  test_order_checks req = false ->
  (test_order numeric_10_2 req w).2 = set_conn (InTransaction (db w)) w
  ∧ success <$> result_value (test_order numeric_10_2 req w).1 = Some false.
Proof.
  unfold test_order_checks, test_order. run_route.
  destruct (cart req) as [[|item items]|]; try by intros _.
  destruct (cart_customer req) as [customer|]; [|by intros _].
  destruct (bool_decide _ || bool_decide _ || bool_decide _); [by intros _|].
  destruct (_ || _); [by intros _|]. discriminate.
Qed.

(** X6.  [POST /test-order] commits all of a cart or nothing: after any
    request the committed rows are the ones before, or the route has
    answered 200 and there are exactly one more order and one more Payment
    row per item of the cart, and not one more history entry. *)
Theorem test_order_all_or_nothing
    (numeric_10_2 : float -> option Z) (req : cart_request) (w : world) :
  db (test_order numeric_10_2 req w).2 = db w
  ∨ ∃ items created total,
      cart req = Some items
      ∧ (test_order numeric_10_2 req w).1
        = Ok (Response 200 true
                (text (Z.of_nat (length created)) +:+ " test orders created successfully")
                (TestOrderData created total))
      ∧ length created = length items
      ∧ length (payments (db (test_order numeric_10_2 req w).2))
        = (length (payments (db w)) + length items)%nat
      ∧ size (orders (db (test_order numeric_10_2 req w).2))
        = (size (orders (db w)) + length items)%nat
      ∧ order_status_history (db (test_order numeric_10_2 req w).2)
        = order_status_history (db w).
Proof.
  destruct (test_order_checks req) eqn:Hchecks.
  - exact (proj2 (test_order_checked numeric_10_2 req w Hchecks)).
  - left. by rewrite (proj1 (test_order_unchecked numeric_10_2 req w Hchecks)).
Qed.

(** X7.  [POST /test-order] answers with its client still checked out
    exactly when the request fails one of its three checks (no item in the
    cart, a customer without name, email or website, a name of fewer than 2
    or more than 255 UTF-16 code units, which is what [name.length]
    counts): every later exit, the error path included, releases it. *)
Theorem test_order_client
    (numeric_10_2 : float -> option Z) (req : cart_request) (w : world) :
  holds_connection (test_order numeric_10_2 req w).2 = negb (test_order_checks req).
Proof.
  destruct (test_order_checks req) eqn:Hchecks.
  - unfold holds_connection.
    by rewrite (proj1 (test_order_checked numeric_10_2 req w Hchecks)).
  - by rewrite (proj1 (test_order_unchecked numeric_10_2 req w Hchecks)).
Qed.

(** ** The PayPal webhook, whatever the event *)

Lemma update_payments_by_payment_id_lookup s j pid ts t i p :
  payments t !! i = Some p ->
  payments (update_payments_by_payment_id s j pid ts t) !! i
  = Some (if decide (p_payment_id p = Some pid) then update_payment_row s j ts p else p).
Proof.
  intros Hp. unfold update_payments_by_payment_id. cbn.
  by rewrite list_lookup_fmap, Hp.
Qed.

(** The webhook leaves the orders and their history alone. *)
Lemma paypal_webhook_orders_history (ev : webhook_event) (w : world) :
  orders (db (paypal_webhook ev w).2) = orders (db w)
  ∧ order_status_history (db (paypal_webhook ev w).2) = order_status_history (db w).
Proof.
  unfold paypal_webhook, handlePaymentCompleted, handlePaymentDenied. run_route.
  destruct w as [d s n c]. by repeat case_decide.
Qed.

(** X8.  [POST /webhook/paypal] on any request, with or without a body, an
    event type, a resource and an id.  It answers 500 in two cases only, a
    request without body and an approved order without resource outside
    production (the log line reads [resource.id]), and 200 in every other.
    In all cases it leaves the orders, the customers, the history, the
    sequences and the clients as they are, inserts and deletes no Payment
    row, and a Payment row keeps its order, its method, its reference, its
    payer, its amount and its currency: only its status, its gateway
    response and [updated_at] can change, and only for a completed or a
    denied capture whose resource has an id.  On an event that has its
    type, its resource and the id, the route is [paypal_webhook]. *)
Theorem paypal_webhook_body_outcome (production : bool) (body : option webhook_body)
    (w : world) :
  (paypal_webhook_body production body w).1
  = Ok (if webhook_throws production body
        then Response 500 false EmptyString NoData
        else Response 200 true EmptyString NoData)
  ∧ orders (db (paypal_webhook_body production body w).2) = orders (db w)
  ∧ customers (db (paypal_webhook_body production body w).2) = customers (db w)
  ∧ order_status_history (db (paypal_webhook_body production body w).2)
    = order_status_history (db w)
  ∧ seqs (paypal_webhook_body production body w).2 = seqs w
  ∧ conn (paypal_webhook_body production body w).2 = conn w
  ∧ length (payments (db (paypal_webhook_body production body w).2))
    = length (payments (db w))
  ∧ (∀ i p, payments (db w) !! i = Some p ->
       ∃ p', payments (db (paypal_webhook_body production body w).2) !! i = Some p'
             ∧ p_order_id p' = p_order_id p ∧ p_method p' = p_method p
             ∧ p_payment_id p' = p_payment_id p ∧ p_payer_id p' = p_payer_id p
             ∧ p_amount p' = p_amount p ∧ p_currency p' = p_currency p)
  ∧ ((paypal_webhook_body production body w).2 = w
     ∨ ∃ webhookEvent r id,
         body = Some webhookEvent
         ∧ wb_resource webhookEvent = Some r ∧ raw_id r = Some id
         ∧ (wb_event_type webhookEvent = Some "PAYMENT.CAPTURE.COMPLETED"%string
            ∨ wb_event_type webhookEvent = Some "PAYMENT.CAPTURE.DENIED"%string))
  ∧ (∀ ev, paypal_webhook_body production (Some (body_of_event ev)) w = paypal_webhook ev w).
Proof.
  split_and!.
  10: { intros ev. unfold paypal_webhook_body, paypal_webhook, body_of_event,
          handlePaymentCompleted_body, handlePaymentDenied_body, handlePaymentCompleted,
          handlePaymentDenied, update_payments_of_resource. run_route.
        destruct ev as [t [id rest]]. cbn.
        destruct production; repeat case_decide; try reflexivity; congruence. }
  all: unfold paypal_webhook_body, webhook_throws, handlePaymentCompleted_body,
         handlePaymentDenied_body, update_payments_of_resource; run_route.
  all: destruct w as [d s n c], body as [[t [[[id|] rest]|]]|], production.
  all: repeat case_decide; repeat case_bool_decide; cbn; try done.
  all: try (unfold update_payments_by_payment_id; cbn; apply length_map).
  all: try (intros i p Hp; exists p; by repeat split).
  all: try (by left).
  all: try (right; eexists _, _, _; split; [reflexivity|]; split; [reflexivity|];
            split; [reflexivity|]; by eauto).
  all: intros i p Hp; eexists; split;
    [apply (update_payments_by_payment_id_lookup _ _ _ _ _ _ _ Hp)|];
    by case_decide.
Qed.

(** X9.  Of two webhooks for the same resource the last one decides: when
    the second is a completed or a denied capture, the rows after both are
    the rows the second alone would have left. *)
Theorem paypal_webhook_last_wins (first second : webhook_event) (w : world) (ts : timestamp) :
  resource_id (resource first) = resource_id (resource second) ->
  event_type second = "PAYMENT.CAPTURE.COMPLETED"%string
  ∨ event_type second = "PAYMENT.CAPTURE.DENIED"%string ->
  db (paypal_webhook second (at_time ts (paypal_webhook first w).2)).2
  = db (paypal_webhook second (at_time ts w)).2.
Proof.
  intros Hsame Hsecond.
  unfold paypal_webhook, handlePaymentCompleted, handlePaymentDenied, at_time. run_route.
  destruct w as [d s n c]. destruct d as [sv st cu od pay hist].
  assert (∀ s1 s2 j1 j2 pid ts1,
            map (λ p, if decide (p_payment_id p = Some pid)
                      then update_payment_row s2 j2 ts p else p)
                (map (λ p, if decide (p_payment_id p = Some pid)
                           then update_payment_row s1 j1 ts1 p else p) pay)
            = map (λ p, if decide (p_payment_id p = Some pid)
                        then update_payment_row s2 j2 ts p else p) pay) as Htwice.
  { intros s1 s2 j1 j2 pid ts1. rewrite map_map. apply map_ext. intros p.
    destruct (decide (p_payment_id p = Some pid)) as [Hp|Hp]; cbn.
    - by rewrite decide_True by exact Hp.
    - by rewrite decide_False by exact Hp. }
  destruct Hsecond as [Hsecond|Hsecond]; rewrite Hsecond; cbn.
  all: repeat case_decide; cbn; try done.
  all: unfold update_payments_by_payment_id, set_payments; cbn; rewrite Hsame;
    by rewrite Htwice.
Qed.

(** A denied capture, then a completed one with the same id, on the paid
    order: the row is [paid] as after the completed one alone. *)
Lemma paypal_webhook_last_wins_witness :
  db (paypal_webhook completed_event (at_time feb01 (paypal_webhook denied_event paid_world).2)).2
  = db (paypal_webhook completed_event (at_time feb01 paid_world)).2.
Proof.
  apply (paypal_webhook_last_wins denied_event completed_event paid_world feb01).
  - reflexivity.
  - by left.
Defined.

(** ** An amount that is no number *)

(** [Math.abs(NaN - total) > 0.01] is false: the amount check lets an amount
    that is no number through, whatever the order's total. *)
Lemma amount_mismatch_nan (total_cents : Z) :
  amount_mismatch PrimFloat.nan total_cents = false.
Proof.
  unfold amount_mismatch.
  rewrite FloatAxioms.ltb_spec, FloatAxioms.abs_spec, FloatAxioms.sub_spec.
  replace (FloatOps.Prim2SF PrimFloat.nan) with SpecFloat.S754_nan by reflexivity.
  reflexivity.
Qed.

Section NotANumber.

Variable parseFloat : string -> float.
Variable numeric_10_2 : float -> option Z.
Variable gateway : string -> option paypal_response.

(** X10.  When [parseFloat] makes no number of the gateway's amount, the
    capture route never answers "Payment amount mismatch", whatever the
    order's total: the check passes and the route goes on to its three
    statements.  Only the database's conversion of the amount decides: if it
    takes the value the route answers 200 and the order is [paid], if it
    refuses it the route answers 500 and the order is as before. *)
Theorem capture_payment_amount_not_a_number req w o c r info :
  select_order_with_customer (req_orderId req) (db w) = Some (o, c) ->
  gateway (req_paypalOrderId req) = Some r ->
  extractPaymentInfo parseFloat r = Some info ->
  amount info = PrimFloat.nan ->
  amount_mismatch (amount info) (total_amount o) = false
  ∧ status_code <$> result_value (capture_payment parseFloat numeric_10_2 gateway req w).1
    = Some (match numeric_10_2 PrimFloat.nan with Some _ => 200 | None => 500 end)
  ∧ payment_status_of
      <$> orders (db (capture_payment parseFloat numeric_10_2 gateway req w).2) !! req_orderId req
    = Some (match numeric_10_2 PrimFloat.nan with
            | Some _ => paid
            | None => payment_status_of o
            end).
Proof.
  intros Hsel Hgw Hinfo Hnan.
  pose proof (amount_mismatch_nan (total_amount o)) as Hcheck.
  pose proof (select_order_with_customer_order _ _ _ _ Hsel) as Horder.
  rewrite Hnan. split; [exact Hcheck|].
  destruct (numeric_10_2 PrimFloat.nan) as [cents|] eqn:Hcast.
  - rewrite <- Hnan in Hcheck, Hcast.
    rewrite (capture_payment_paid parseFloat numeric_10_2 gateway
               req w o c r info cents Hsel Hgw Hinfo Hcheck Hcast).
    split; [reflexivity|]. cbn [snd db].
    by rewrite (captured_tables_order _ _ _ _ _ _ _ Horder).
  - unfold capture_payment, insert_payment_values. run_route.
    rewrite Hsel, Hgw. cbn. rewrite Hinfo. cbn. rewrite Hnan, Hcheck. cbn.
    rewrite Hcast. cbn. split; [reflexivity|]. by rewrite Horder.
Qed.

End NotANumber.

(** The order of [pending_world] is of 450.00 dollars, the gateway's capture
    carries the amount "n/a": the check passes. *)
Lemma capture_payment_amount_not_a_number_witness :
  amount_mismatch (parse_decimal "n/a") 45000 = false
  ∧ status_code
      <$> result_value (capture_payment parse_decimal round_cents gateway_no_number
                          capture_request_6 pending_world).1
    = Some (match round_cents PrimFloat.nan with Some _ => 200 | None => 500 end)
  ∧ payment_status_of
      <$> orders (db (capture_payment parse_decimal round_cents gateway_no_number
                        capture_request_6 pending_world).2) !! 6
    = Some (match round_cents PrimFloat.nan with Some _ => paid | None => unpaid end).
Proof.
  apply (capture_payment_amount_not_a_number parse_decimal round_cents gateway_no_number
           capture_request_6 pending_world (order_450 pending unpaid) ann (capture_of "n/a")
           (PaymentInfo "5O190127TN364715T" None (Some "QYR5Z8XDVJNXQ"%string) None
                        PrimFloat.nan "USD" "COMPLETED"
                        (Some "SEO-20250131-0007"%string) "0.00")).
  - reflexivity.
  - reflexivity.
  - reflexivity.
  - reflexivity.
Defined.

(** ** What the capture route reads of the gateway's answer *)

Section GatewayAnswer.

Variable parseFloat : string -> float.
Variable numeric_10_2 : float -> option Z.

(** X11.  Of the gateway's answer the capture route uses the amount, the
    currency, the payer and the gateway's order id, nothing else: two
    answers from which [extractPaymentInfo] takes the same four get the same
    response and leave the same orders, the same history and, but for the
    stored answer, the same Payment rows, whatever their capture status and
    their [reference_id] are.  The route checks neither
    that the capture is completed nor that it was made for this order. *)
Theorem capture_payment_reads_amount_only
    (gateway gateway' : string -> option paypal_response) (req : capture_request) (w : world)
    (r r' : paypal_response) (info info' : payment_info) :
  gateway (req_paypalOrderId req) = Some r ->
  gateway' (req_paypalOrderId req) = Some r' ->
  extractPaymentInfo parseFloat r = Some info ->
  extractPaymentInfo parseFloat r' = Some info' ->
  amount info = amount info' ->
  currency info = currency info' ->
  payerId info = payerId info' ->
  paypalOrderId info = paypalOrderId info' ->
  (capture_payment parseFloat numeric_10_2 gateway req w).1
  = (capture_payment parseFloat numeric_10_2 gateway' req w).1
  ∧ orders (db (capture_payment parseFloat numeric_10_2 gateway req w).2)
    = orders (db (capture_payment parseFloat numeric_10_2 gateway' req w).2)
  ∧ order_status_history (db (capture_payment parseFloat numeric_10_2 gateway req w).2)
    = order_status_history (db (capture_payment parseFloat numeric_10_2 gateway' req w).2)
  ∧ map (λ p, (p_order_id p, p_method p, p_payment_id p, p_payer_id p, p_amount p,
               p_currency p, p_status p))
        (payments (db (capture_payment parseFloat numeric_10_2 gateway req w).2))
    = map (λ p, (p_order_id p, p_method p, p_payment_id p, p_payer_id p, p_amount p,
                 p_currency p, p_status p))
          (payments (db (capture_payment parseFloat numeric_10_2 gateway' req w).2)).
Proof.
  intros Hgw Hgw' Hinfo Hinfo' Hamount Hcurrency Hpayer Hid.
  unfold capture_payment, insert_payment_values. run_route.
  destruct (select_order_with_customer _ _) as [[o c]|]; [|done].
  rewrite Hgw, Hgw'. cbn. rewrite Hinfo, Hinfo'. cbn.
  rewrite <- Hamount, <- Hid, <- Hcurrency, <- Hpayer.
  destruct (amount_mismatch _ _); [done|]. cbn.
  destruct (numeric_10_2 _) as [cents|]; [|done]. cbn.
  unfold insert_history, insert_payment. cbn.
  rewrite !update_order_payments, !map_app. done.
Qed.

End GatewayAnswer.

(** The capture of 450.00 for order 6, and an answer with the same amount
    that says it was declined and carries the code of another order. *)
Lemma capture_payment_reads_amount_only_witness :
  (capture_payment parse_decimal round_cents gateway_450 capture_request_6 pending_world).1
  = (capture_payment parse_decimal round_cents
       (λ _, Some (PaypalResponse "5O190127TN364715T" "DECLINED"
                     (Some (Payer (Some "QYR5Z8XDVJNXQ"%string) None))
                     [PurchaseUnit (Some "SEO-20250101-0001"%string)
                                   (Some (Money "450.00" "USD")) None]))
       capture_request_6 pending_world).1.
Proof.
  apply (capture_payment_reads_amount_only parse_decimal round_cents gateway_450
           (λ _, Some (PaypalResponse "5O190127TN364715T" "DECLINED"
                         (Some (Payer (Some "QYR5Z8XDVJNXQ"%string) None))
                         [PurchaseUnit (Some "SEO-20250101-0001"%string)
                                       (Some (Money "450.00" "USD")) None]))
           capture_request_6 pending_world
           (capture_of "450.00")
           (PaypalResponse "5O190127TN364715T" "DECLINED"
              (Some (Payer (Some "QYR5Z8XDVJNXQ"%string) None))
              [PurchaseUnit (Some "SEO-20250101-0001"%string)
                            (Some (Money "450.00" "USD")) None])
           (PaymentInfo "5O190127TN364715T" None (Some "QYR5Z8XDVJNXQ"%string) None
                        (parse_decimal "450.00") "USD" "COMPLETED"
                        (Some "SEO-20250131-0007"%string) "0.00")
           (PaymentInfo "5O190127TN364715T" None (Some "QYR5Z8XDVJNXQ"%string) None
                        (parse_decimal "450.00") "USD" "DECLINED"
                        (Some "SEO-20250101-0001"%string) "0.00")).
  - reflexivity.
  - reflexivity.
  - reflexivity.
  - reflexivity.
  - reflexivity.
  - reflexivity.
  - reflexivity.
  - reflexivity.
Defined.

(** ** [LPAD] and the sequence values beyond 9999 *)






Lemma cut_fields_checked : all_from (Z.to_nat 90000) 10000 cut_field_ok = true.
Proof. vm_compute. reflexivity. Qed.

(** [LPAD] on a sequence value of five digits: its first four digits. *)
Lemma lpad_five_digits (n : Z) :
  10000 <= n < 100000 -> lpad (text n) 4 "0" = lpad (text (n / 10)) 4 "0".
Proof.
  intros Hn.
  assert (cut_field_ok n = true) as Hok
    by (apply (all_from_spec _ _ _ cut_fields_checked); lia).
  unfold cut_field_ok in Hok. cbv zeta in Hok.
  apply andb_true_iff in Hok as [Hcut Hkept].
  apply String.eqb_eq in Hcut. apply String.eqb_eq in Hkept.
  by rewrite Hcut, Hkept.
Qed.

(** X13.  A sequence value of five digits gets the code of the value
    without its last digit: ten consecutive values share one code, and that
    code is the one a value of four digits had. *)
Theorem generate_tracking_id_five_digits (ts : timestamp) (n : Z) :
  10000 <= n < 100000 ->
  generate_tracking_id ts n = generate_tracking_id ts (n / 10).
Proof.
  intros Hn. unfold generate_tracking_id. by rewrite (lpad_five_digits n Hn).
Qed.

Lemma generate_tracking_id_five_digits_witness :
  generate_tracking_id jan31 10004 = generate_tracking_id jan31 (10004 / 10).
Proof. apply (generate_tracking_id_five_digits jan31 10004). lia. Defined.

(** X14.  Once the sequence has five digits, [INSERT INTO orders] fails on
    the UNIQUE constraint of [tracking_id] whenever an order of the same day
    still carries the code of the value without its last digit; the two
    values taken from the sequence are lost, and no row is written. *)
Theorem insert_order_code_taken numeric_10_2 (v : order_values) (w : world)
    (total k : Z) (o : order) :
  numeric_10_2 (ov_total_amount v) = Some total ->
  10000 <= orders_id_seq (seqs w) + 2 < 100000 ->
  orders (visible w) !! (orders_id_seq (seqs w) + 1) = None ->
  orders (visible w) !! k = Some o ->
  tracking_id o = generate_tracking_id (now w) ((orders_id_seq (seqs w) + 2) / 10) ->
  insert_order numeric_10_2 v w
  = (Throw "duplicate key value violates unique constraint orders_tracking_id_key"%string,
     set_seqs (Sequences (customers_id_seq (seqs w)) (orders_id_seq (seqs w) + 2)) w).
Proof.
  intros Hcast Hn Hfree Hk Hcode.
  unfold insert_order. run_route. rewrite Hcast. cbn.
  unfold visible in *. cbn [conn db] in *.
  replace (orders_id_seq (seqs w) + 1 + 1) with (orders_id_seq (seqs w) + 2) by lia.
  destruct (conn w) as [work|]; rewrite Hfree.
  all: unfold generate_tracking_id in *; rewrite (lpad_five_digits _ Hn).
  all: unfold tracking_id_taken; cbn [tracking_id].
  all: rewrite bool_decide_eq_true_2; [reflexivity|].
  all: apply map_Exists_lookup; by exists k, o.
Qed.

Lemma insert_order_code_taken_witness :
  insert_order round_cents standard_values busy_world
  = (Throw "duplicate key value violates unique constraint orders_tracking_id_key"%string,
     set_seqs (Sequences 1 10005) busy_world).
Proof.
  apply (insert_order_code_taken round_cents standard_values busy_world 45000 999
           (Order "SEO-20250131-1000" 1 "monthly-seo-standard"
                  "Monthly SEO Packages" "Standard Monthly" 45000 30 "seo"
                  1 45000 pending unpaid None jan31 jan31)).
  - vm_compute. reflexivity.
  - cbn. lia.
  - reflexivity.
  - reflexivity.
  - reflexivity.
Defined.

(** ** The routes that delete *)

Lemma delete_order_rows (id : Z) (w : world) (o : order) :
  orders (db w) !! id = Some o ->
  db (delete_order id w).2
  = delete_order_row id (delete_payments_of id (delete_history_of id (db w))).
Proof. intros Ho. unfold delete_order, select_order. run_route. by rewrite Ho. Qed.

Lemma delete_order_missing (id : Z) (w : world) :
  orders (db w) !! id = None -> db (delete_order id w).2 = db w.
Proof. intros Ho. unfold delete_order, select_order. run_route. by rewrite Ho. Qed.

(** X15.  [DELETE /orders/:id] answers 404 and changes nothing when there is
    no such order.  Otherwise it answers with success and the order, its
    payments and its history entries are gone, while every other order,
    payment and history entry, and every customer, is kept as it was (the
    customer of the order too).  The client is released in both cases. *)
Theorem delete_order_outcome (id : Z) (w : world) :
  conn (delete_order id w).2 = Released
  ∧ seqs (delete_order id w).2 = seqs w
  ∧ customers (db (delete_order id w).2) = customers (db w)
  ∧ match orders (db w) !! id with
    | None =>
        (delete_order id w).1 = Ok (Response 404 false "Order not found" NoData)
        ∧ db (delete_order id w).2 = db w
    | Some _ =>
        (delete_order id w).1 = Ok (Response 200 true "Order deleted successfully" NoData)
        ∧ orders (db (delete_order id w).2) !! id = None
        ∧ (∀ id', id' ≠ id ->
             orders (db (delete_order id w).2) !! id' = orders (db w) !! id')
        ∧ payments (db (delete_order id w).2)
          = filter (λ p, p_order_id p ≠ id) (payments (db w))
        ∧ order_status_history (db (delete_order id w).2)
          = filter (λ h, h_order_id h ≠ id) (order_status_history (db w))
    end.
Proof.
  unfold delete_order, select_order. run_route.
  destruct (orders (db w) !! id) as [o|] eqn:Horder; cbn.
  - split_and!; try done.
    + apply lookup_delete_eq.
    + intros id' Hid'. by apply lookup_delete_ne.
  - by split_and!.
Qed.

Lemma count_orders_of_customer_0 (id : Z) (t : tables) :
  count_orders_of_customer id t = 0%nat ->
  ∀ k o, orders t !! k = Some o -> customer_id o ≠ id.
Proof.
  unfold count_orders_of_customer. intros Hsize k o Hk Hcust.
  apply map_size_empty_inv in Hsize.
  assert (filter (λ ko : Z * order, customer_id ko.2 = id) (orders t) !! k = Some o) as Hin
    by (apply map_lookup_filter_Some; by split).
  rewrite Hsize in Hin. by rewrite lookup_empty in Hin.
Qed.

Lemma count_orders_of_customer_pos (id : Z) (t : tables) :
  (0 < count_orders_of_customer id t)%nat ->
  ∃ k o, orders t !! k = Some o ∧ customer_id o = id.
Proof.
  unfold count_orders_of_customer. intros Hsize.
  destruct (map_choose (filter (λ ko : Z * order, customer_id ko.2 = id) (orders t)))
    as (k & o & Hin).
  - intros Hempty. rewrite Hempty, map_size_empty in Hsize. lia.
  - apply map_lookup_filter_Some in Hin as [Hk Hcust]. by exists k, o.
Qed.

(** X16.  [DELETE /customers/:id] deletes a customer only when no order
    refers to it: it answers 404 for no such customer, 400 when an order of
    the customer exists, and in both cases changes nothing; a success removes
    that customer alone.  Orders, payments and history are never touched,
    and every order's customer still exists afterwards if it did before. *)
Theorem delete_customer_outcome (id : Z) (w : world) :
  conn (delete_customer id w).2 = Released
  ∧ seqs (delete_customer id w).2 = seqs w
  ∧ orders (db (delete_customer id w).2) = orders (db w)
  ∧ payments (db (delete_customer id w).2) = payments (db w)
  ∧ order_status_history (db (delete_customer id w).2) = order_status_history (db w)
  ∧ (customers_exist (db w) -> customers_exist (db (delete_customer id w).2))
  ∧ match customers (db w) !! id with
    | None =>
        (delete_customer id w).1 = Ok (Response 404 false "Customer not found" NoData)
        ∧ db (delete_customer id w).2 = db w
    | Some _ =>
        (status_code <$> result_value (delete_customer id w).1 = Some 400
         ∧ db (delete_customer id w).2 = db w
         ∧ ∃ k o, orders (db w) !! k = Some o ∧ customer_id o = id)
        ∨ ((delete_customer id w).1
             = Ok (Response 200 true "Customer deleted successfully" NoData)
           ∧ customers (db (delete_customer id w).2) = delete id (customers (db w))
           ∧ ∀ k o, orders (db w) !! k = Some o -> customer_id o ≠ id)
    end.
Proof.
  unfold delete_customer. run_route.
  destruct (customers (db w) !! id) as [c|] eqn:Hcustomer; cbn.
  - destruct (count_orders_of_customer id (db w)) as [|n] eqn:Hcount; cbn.
    + pose proof (count_orders_of_customer_0 _ _ Hcount) as Hnone.
      split_and!; try done.
      * intros Hexist k o Hk. cbn in Hk.
        destruct (Hexist k o Hk) as [c' Hc'].
        exists c'. cbn. rewrite lookup_delete_ne; [exact Hc'|].
        intros Heq. exact (Hnone k o Hk (eq_sym Heq)).
      * right. by split_and!.
    + split_and!; try done.
      left. split_and!; try done.
      apply count_orders_of_customer_pos. lia.
  - by split_and!.
Qed.

(** ** The delivery route works without a transaction *)

(** X17.  Once the order is found and the file saved, [POST
    /orders/:id/deliver] marks the order [completed] and records it, whether
    the mail is sent or not: when the mail fails the route answers 500 and
    the order stays [completed] with its new history entries.  The payment
    status is neither checked nor changed, the payments are not touched, and
    no client is taken. *)
Theorem deliver_order_writes_before_mail (mailed : option string) (id : Z)
    (fileName : string) (fileSize : Z) (w : world) (o : order) (c : customer) :
  select_order_with_customer id (db w) = Some (o, c) ->
  (deliver_order None mailed id fileName fileSize w).1
  = Ok (match mailed with
        | None => DeliverAnswer 200 true "Order delivered successfully"
                                (Some (id, tracking_id o, fileName, fileSize))
        | Some e => DeliverAnswer 500 false
                      ("Failed to deliver order: " +:+ "Failed to send delivery email: " +:+ e)
                      None
        end)
  ∧ orders (db (deliver_order None mailed id fileName fileSize w).2)
    = <[id := with_updated_at (now w) (with_status completed o)]> (orders (db w))
  ∧ order_status_history (db (deliver_order None mailed id fileName fileSize w).2)
    = order_status_history (db w)
      ++ (if decide (status o = completed) then []
          else [automatic_history_row id completed (now w)])
      ++ [HistoryRow id completed
                     (Some ("Order delivered with file attachment: " +:+ fileName)) None (now w)]
  ∧ payments (db (deliver_order None mailed id fileName fileSize w).2) = payments (db w)
  ∧ customers (db (deliver_order None mailed id fileName fileSize w).2) = customers (db w)
  ∧ conn (deliver_order None mailed id fileName fileSize w).2 = conn w.
Proof.
  intros Hsel.
  pose proof (select_order_with_customer_order _ _ _ _ Hsel) as Horder.
  unfold deliver_order. run_route. rewrite Hsel. cbn.
  destruct mailed as [e|]; cbn.
  all: unfold insert_history; cbn.
  all: rewrite (update_order_orders _ _ _ _ _ Horder), (update_order_payments _ _ _ _),
         (update_order_history _ _ _ _ _ Horder).
  all: split_and!; try done.
  all: try (by rewrite <- app_assoc).
  all: unfold update_order; rewrite Horder; unfold add_status_history; cbn;
         by case_decide.
Qed.

(** The order of [pending_world], and a mail server that does not answer. *)
Lemma deliver_order_writes_before_mail_witness :
  (deliver_order None (Some "timeout"%string) 6 "report.pdf" 1024 pending_world).1
  = Ok (DeliverAnswer 500 false
          "Failed to deliver order: Failed to send delivery email: timeout" None)
  ∧ status <$> orders (db (deliver_order None (Some "timeout"%string) 6 "report.pdf" 1024
                             pending_world).2) !! 6 = Some completed
  ∧ length (order_status_history
              (db (deliver_order None (Some "timeout"%string) 6 "report.pdf" 1024
                     pending_world).2)) = 3%nat.
Proof.
  destruct (deliver_order_writes_before_mail (Some "timeout"%string) 6 "report.pdf" 1024
              pending_world (order_450 pending unpaid) ann eq_refl)
    as (Hanswer & Horders & Hhistory & _).
  split; [exact Hanswer|]. split.
  - rewrite Horders. reflexivity.
  - rewrite Hhistory. reflexivity.
Defined.

(** ** The tracking route *)

Lemma select_tracked_Some trackingId email t k o c :
  select_tracked trackingId email t = Some (k, o, c) ->
  orders t !! k = Some o ∧ customers t !! customer_id o = Some c
  ∧ tracking_id o = trackingId ∧ c_email c = email.
Proof.
  unfold select_tracked. intros Hhead.
  apply head_Some_elem_of, list_elem_of_omap in Hhead as ([k' o'] & Hin & Hrow).
  apply elem_of_map_to_list in Hin. cbn in Hrow.
  destruct (customers t !! customer_id o') as [c'|] eqn:Hc; [|discriminate]. cbn in Hrow.
  case_decide as Hmatch; [|discriminate].
  destruct Hmatch as [Htid Hemail]. injection Hrow as -> -> ->. done.
Qed.

Lemma select_tracked_None trackingId email t k o c :
  select_tracked trackingId email t = None ->
  orders t !! k = Some o -> customers t !! customer_id o = Some c ->
  tracking_id o = trackingId -> c_email c ≠ email.
Proof.
  unfold select_tracked. intros Hhead Hk Hc Htid Hemail.
  assert ((k, o, c) ∈ omap (λ ko : Z * order,
                              c ← customers t !! customer_id ko.2;
                              if decide (tracking_id ko.2 = trackingId ∧ c_email c = email)
                              then Some (ko.1, ko.2, c) else None)
                           (map_to_list (orders t))) as Hin.
  { apply list_elem_of_omap. exists (k, o). split.
    - by apply elem_of_map_to_list.
    - cbn. rewrite Hc. cbn. by rewrite decide_True. }
  destruct (omap _ _); [by apply elem_of_nil in Hin | discriminate].
Qed.

(** X18.  [GET /track/:trackingId] only reads: the state after it is the
    state before, whatever it is asked.  Without an email (none, or an
    empty one) it answers 400.  With an email it shows an order only to who
    gives the email of the order's customer: the answer is either an order
    of that tracking id whose customer has exactly that email, with its
    status, its total and a timeline that is never empty, or 404, and 404
    only when no order of that tracking id has a customer of that email.
    No step of the handler itself fails: its answer 500 is left to a query
    that the database refuses, which the model does not have. *)
Theorem track_order_outcome (trackingId : string) (email : option string) (w : world) :
  (track_order trackingId email w).2 = w
  ∧ match truthy email with
    | None =>
        (track_order trackingId email w).1
        = Ok (TrackRefused 400 "Email is required for order tracking")
    | Some given =>
        match (track_order trackingId email w).1 with
        | Ok (TrackFound r) =>
            ∃ k o c, orders (db w) !! k = Some o
                     ∧ customers (db w) !! customer_id o = Some c
                     ∧ tracking_id o = trackingId ∧ c_email c = given
                     ∧ tr_trackingId r = trackingId
                     ∧ tr_status r = status o
                     ∧ tr_total r = number_of_decimal (total_amount o)
                     ∧ tr_customer_name r = c_name c
                     ∧ tr_customer_email r = given
                     ∧ tr_timeline r ≠ []
        | Ok (TrackRefused code message) =>
            code = 404
            ∧ message = "Order not found or email doesn't match"%string
            ∧ ∀ k o c, orders (db w) !! k = Some o ->
                       customers (db w) !! customer_id o = Some c ->
                       tracking_id o = trackingId -> c_email c ≠ given
        | Throw _ => False
        end
    end.
Proof.
  unfold track_order. run_route.
  destruct email as [[|a email]|]; cbn; try (split; reflexivity).
  destruct (select_tracked trackingId (String a email) (db w)) as [[[k o] c]|] eqn:Hsel; cbn.
  - split; [reflexivity|].
    apply select_tracked_Some in Hsel as (Hk & Hc & Htid & Hemail).
    exists k, o, c. split_and!; try done.
    destruct (select_history_of_tracked trackingId (db w)); discriminate.
  - split; [reflexivity|]. split; [reflexivity|]. split; [reflexivity|].
    intros k o c Hk Hc Htid Hemail.
    exact (select_tracked_None _ _ _ _ _ _ Hsel Hk Hc Htid Hemail).
Qed.

(** ** The access token of the gateway *)

(** X19.  A token that was fetched is used again, without a new request,
    by every call made before nine tenths of its lifetime have passed, and
    by none made later: those fetch a new one, and throw when the request
    fails, leaving the stored token as it is. *)
Theorem getAccessToken_reuse (r : token_response) (clock clock' later later' : Z)
    (again : option token_response) (s : paypal_service) :
  token_cached s clock = false ->
  access_token r ≠ EmptyString ->
  0 < clock' + expires_in r * 900 ->
  let s' := (getAccessToken (Some r) clock clock' s).2 in
  (getAccessToken (Some r) clock clock' s).1 = Some (access_token r)
  ∧ getAccessToken again later later' s'
    = if later <? clock' + expires_in r * 900
      then (Some (access_token r), s')
      else match again with
           | Some r' => (Some (access_token r'),
                         PaypalService (Some (access_token r'))
                                       (Some (later' + expires_in r' * 900)))
           | None => (None, s')
           end.
Proof.
  intros Hexpired Htoken Hexpiry. unfold getAccessToken. rewrite Hexpired. cbn.
  split; [reflexivity|].
  unfold token_cached. cbn.
  destruct (access_token r) as [|a rest] eqn:Haccess; [done|].
  replace (clock' + expires_in r * 900 =? 0) with false by (symmetry; apply Z.eqb_neq; lia).
  cbn. by destruct (later <? clock' + expires_in r * 900).
Qed.

(** A token of 32400 seconds fetched at time 1000: a call at 29 160 999 ms
    uses it, whatever a new request would answer. *)
Lemma getAccessToken_reuse_witness :
  (getAccessToken (Some (TokenResponse "A21AAF" 32400)) 1000 1000
                  (PaypalService None None)).1 = Some "A21AAF"%string
  ∧ getAccessToken None 29160999 29160999
      (getAccessToken (Some (TokenResponse "A21AAF" 32400)) 1000 1000
                      (PaypalService None None)).2
    = (Some "A21AAF"%string, PaypalService (Some "A21AAF"%string) (Some 29161000)).
Proof.
  apply (getAccessToken_reuse (TokenResponse "A21AAF" 32400) 1000 1000 29160999 29160999
           None (PaypalService None None)).
  - reflexivity.
  - discriminate.
  - cbn. lia.
Defined.

(** ** The history agrees with the orders *)

Lemma filter_other_order (id id' : Z) (rows : list history_row) :
  Forall (λ h, h_order_id h = id) rows -> id' ≠ id ->
  filter (λ h, h_order_id h = id') rows = [].
Proof.
  induction 1 as [|h rows Hh _ IH]; intros Hne; [reflexivity|].
  rewrite filter_cons_False by congruence. by apply IH.
Qed.

(** Rows appended for one order, the last of them with the order's new
    status: the history still agrees. *)
Lemma history_agrees_append (t t' : tables) (id : Z) (s : order_status)
    (rows : list history_row) (row : history_row) :
  history_agrees t ->
  (∀ id' o', orders t' !! id' = Some o' ->
     if decide (id' = id) then status o' = s else orders t !! id' = Some o') ->
  order_status_history t' = order_status_history t ++ rows ++ [row] ->
  Forall (λ h, h_order_id h = id) rows ->
  h_order_id row = id -> h_status row = s ->
  history_agrees t'.
Proof.
  intros Hagrees Horders Hhistory Hrows Hrow Hstatus id' o' Hlook.
  specialize (Horders id' o' Hlook). rewrite Hhistory, !filter_app.
  destruct (decide (id' = id)) as [->|Hne].
  - exists row. split; [|congruence].
    rewrite app_assoc, filter_cons_True by exact Hrow. cbn. apply last_snoc.
  - rewrite (filter_other_order id id' rows Hrows Hne).
    rewrite filter_cons_False by congruence. cbn. rewrite app_nil_r.
    exact (Hagrees id' o' Horders).
Qed.

(** An UPDATE of the status of an order followed by the INSERT of a history
    entry with that status. *)
Lemma history_agrees_update (t t' : tables) (id : Z) (f : order -> order) (s : order_status)
    (n : option string) (b : option Z) (ts : timestamp) :
  (∀ o, status (f o) = s) ->
  orders t' = orders (update_order id f ts t) ->
  order_status_history t'
  = order_status_history (insert_history id s n b ts (update_order id f ts t)) ->
  history_agrees t -> history_agrees t'.
Proof.
  intros Hf Horders Hhistory Hagrees.
  unfold insert_history in Hhistory. cbn in Hhistory.
  destruct (orders t !! id) as [o|] eqn:Ho.
  - rewrite (update_order_orders _ _ _ _ _ Ho) in Horders.
    rewrite (update_order_history _ _ _ _ _ Ho), <- app_assoc in Hhistory.
    refine (history_agrees_append t t' id s _ _ Hagrees _ Hhistory _ eq_refl eq_refl);
      [|by case_decide; repeat constructor].
    intros id' o' Hlook. rewrite Horders in Hlook.
    destruct (decide (id' = id)) as [->|Hid].
    + rewrite lookup_insert_eq in Hlook. injection Hlook as <-. apply Hf.
    + by rewrite lookup_insert_ne in Hlook.
  - unfold update_order in Horders, Hhistory. rewrite Ho in Horders, Hhistory.
    refine (history_agrees_append t t' id s [] _ Hagrees _ Hhistory _ eq_refl eq_refl);
      [|constructor].
    intros id' o' Hlook. rewrite Horders in Hlook.
    destruct (decide (id' = id)) as [->|Hid]; [congruence | exact Hlook].
Qed.

Lemma filter_filter_other_order (id id' : Z) (rows : list history_row) :
  id' ≠ id ->
  filter (λ h, h_order_id h = id') (filter (λ h, h_order_id h ≠ id) rows)
  = filter (λ h, h_order_id h = id') rows.
Proof.
  intros Hne. induction rows as [|h rows IH]; [reflexivity|].
  destruct (decide (h_order_id h = id')) as [Hh|Hh].
  - rewrite (filter_cons_True (λ h, h_order_id h ≠ id)) by congruence.
    rewrite !filter_cons_True by exact Hh. by rewrite IH.
  - rewrite (filter_cons_False (λ h, h_order_id h = id')) by exact Hh.
    destruct (decide (h_order_id h = id)) as [Hh'|Hh'].
    + rewrite filter_cons_False by (intros Hn; by apply Hn). exact IH.
    + rewrite filter_cons_True by exact Hh'.
      rewrite filter_cons_False by exact Hh. exact IH.
Qed.

Section HistoryAgrees.

Variable parseFloat : string -> float.
Variable numeric_10_2 : float -> option Z.
Variable gateway : string -> option paypal_response.

(** X20.  When every order has history entries of which the latest carries
    the order's status, this is still so after the creation route, the
    capture route, the status route, the delivery route, the deletion of an
    order and the webhook, whatever they are asked and however they end. *)
Theorem history_agrees_kept (w : world) :
  history_agrees (db w) ->
  (∀ req, history_agrees (db (create_order numeric_10_2 req w).2))
  ∧ (∀ req, history_agrees (db (capture_payment parseFloat numeric_10_2 gateway req w).2))
  ∧ (∀ req, history_agrees (db (update_order_status req w).2))
  ∧ (∀ saved mailed id fileName fileSize,
       history_agrees (db (deliver_order saved mailed id fileName fileSize w).2))
  ∧ (∀ id, history_agrees (db (delete_order id w).2))
  ∧ (∀ ev, history_agrees (db (paypal_webhook ev w).2)).
Proof.
  intros Hagrees. split_and!.
  - intros req.
    destruct (create_order_outcome numeric_10_2 req w)
      as [->|(tier & sname & total & cid & _ & _ & Hfree & Horders & Hhistory)];
      [exact Hagrees|].
    refine (history_agrees_append (db w) _ (orders_id_seq (seqs w) + 1) pending [] _ Hagrees
              _ Hhistory _ eq_refl eq_refl); [|constructor].
    intros id' o' Hlook. rewrite Horders in Hlook.
    destruct (decide (id' = _)) as [->|Hid].
    + rewrite lookup_insert_eq in Hlook. by injection Hlook as <-.
    + by rewrite lookup_insert_ne in Hlook.
  - intros req.
    destruct (capture_payment_all_or_nothing parseFloat numeric_10_2 gateway req w)
      as [->|(r & info & cents & ->)]; [exact Hagrees|].
    apply (history_agrees_update (db w) _ (req_orderId req)
             (λ o, with_status confirmed (with_payment_status paid o)) confirmed
             (Some "Payment received and confirmed"%string) None (now w));
      [reflexivity|reflexivity|reflexivity|exact Hagrees].
  - intros req.
    destruct (orders (db w) !! sr_id req) as [o|] eqn:Ho.
    + rewrite (update_order_status_found _ _ _ Ho). cbn [snd db].
      apply (history_agrees_update (db w) _ (sr_id req) (with_status (sr_status req))
               (sr_status req) (Some (default EmptyString (sr_notes req)))
               (Some (sr_admin_id req)) (now w));
        [reflexivity|reflexivity|reflexivity|exact Hagrees].
    + by rewrite (update_order_status_not_found _ _ Ho).
  - intros saved mailed id fileName fileSize.
    unfold deliver_order. run_route.
    destruct (select_order_with_customer id (db w)) as [[o c]|]; [|exact Hagrees].
    destruct saved as [e|]; [exact Hagrees|]. cbn.
    assert (history_agrees
              (insert_history id completed
                 (Some ("Order delivered with file attachment: " +:+ fileName)) None (now w)
                 (update_order id (with_status completed) (now w) (db w)))) as Hdone
      by (apply (history_agrees_update (db w) _ id (with_status completed) completed
                   (Some ("Order delivered with file attachment: " +:+ fileName)) None (now w));
          [reflexivity|reflexivity|reflexivity|exact Hagrees]).
    by destruct mailed.
  - intros id.
    destruct (orders (db w) !! id) as [o|] eqn:Ho.
    + rewrite (delete_order_rows id w o Ho). intros id' o'. cbn.
      destruct (decide (id' = id)) as [->|Hne]; [by rewrite lookup_delete_eq|].
      rewrite lookup_delete_ne by done. intros Hlook.
      rewrite (filter_filter_other_order id id' _ Hne).
      exact (Hagrees id' o' Hlook).
    + by rewrite (delete_order_missing id w Ho).
  - intros ev.
    destruct (paypal_webhook_orders_history ev w) as [Horders Hhistory].
    intros id o. rewrite Horders, Hhistory. apply Hagrees.
Qed.

End HistoryAgrees.

Lemma pending_world_history_agrees : history_agrees (db pending_world).
Proof.
  intros id o Hlook.
  apply (proj1 (lookup_singleton_Some 6 id (order_450 pending unpaid) o)) in Hlook
    as [<- <-].
  exists created_row. split; reflexivity.
Qed.

Lemma pending_world_unique_emails : unique_emails (db pending_world).
Proof.
  intros i j ci cj Hi Hj _.
  apply (proj1 (lookup_singleton_Some 1 i ann ci)) in Hi as [<- _].
  apply (proj1 (lookup_singleton_Some 1 j ann cj)) in Hj as [<- _].
  reflexivity.
Qed.

Lemma pending_world_customers_exist : customers_exist (db pending_world).
Proof.
  intros id o Hlook.
  apply (proj1 (lookup_singleton_Some 6 id (order_450 pending unpaid) o)) in Hlook
    as [<- <-].
  exists ann. reflexivity.
Qed.

(** The order of [pending_world] and its first history entry. *)
Lemma history_agrees_kept_witness :
  (∀ req, history_agrees (db (create_order round_cents req pending_world).2))
  ∧ (∀ req, history_agrees
              (db (capture_payment parse_decimal round_cents gateway_450 req pending_world).2))
  ∧ (∀ req, history_agrees (db (update_order_status req pending_world).2))
  ∧ (∀ saved mailed id fileName fileSize,
       history_agrees (db (deliver_order saved mailed id fileName fileSize pending_world).2))
  ∧ (∀ id, history_agrees (db (delete_order id pending_world).2))
  ∧ (∀ ev, history_agrees (db (paypal_webhook ev pending_world).2)).
Proof.
  apply (history_agrees_kept parse_decimal round_cents gateway_450 pending_world).
  exact pending_world_history_agrees.
Defined.

(** ** Customers *)

Lemma select_customer_by_email_None email t i c :
  select_customer_by_email email t = None ->
  customers t !! i = Some c -> c_email c ≠ email.
Proof.
  unfold select_customer_by_email. intros Hnone Hi Hemail.
  assert ((i, c) ∈ filter (λ kc : Z * customer, c_email kc.2 = email)
                          (map_to_list (customers t))) as Hin.
  { apply list_elem_of_filter. split; [exact Hemail|]. by apply elem_of_map_to_list. }
  destruct (filter _ _); [by apply elem_of_nil in Hin | discriminate].
Qed.

Lemma unique_emails_update (t : tables) id name site ts :
  unique_emails t -> unique_emails (update_customer id name site ts t).
Proof.
  intros Hunique. unfold update_customer.
  destruct (customers t !! id) as [c|] eqn:Hc; [|exact Hunique].
  intros i j ci cj. cbn.
  destruct (decide (i = id)) as [->|Hi]; destruct (decide (j = id)) as [->|Hj];
    rewrite ?lookup_insert_eq, ?lookup_insert_ne by done; try done.
  - intros [= <-] Hj' Hemail. cbn in Hemail. exact (Hunique _ _ _ _ Hc Hj' Hemail).
  - intros Hi' [= <-] Hemail. cbn in Hemail. exact (Hunique _ _ _ _ Hi' Hc Hemail).
  - apply Hunique.
Qed.

Lemma customers_update_is_Some (t : tables) id name site ts k :
  is_Some (customers t !! k) -> is_Some (customers (update_customer id name site ts t) !! k).
Proof.
  unfold update_customer. destruct (customers t !! id) as [c|] eqn:Hc; [|done]. cbn.
  destruct (decide (k = id)) as [->|Hk];
    rewrite ?lookup_insert_eq, ?lookup_insert_ne by done; by eauto.
Qed.

(** X21.  [POST /create] never makes a second customer of an email: when no
    two customers share an email before, none do afterwards, so the UNIQUE
    constraint of [customers.email] cannot be what fails here; and every
    order's customer still exists, the new order's too. *)
Theorem create_order_customers numeric_10_2 (req : create_request) (w : world) :
  unique_emails (db w) -> customers_exist (db w) ->
  unique_emails (db (create_order numeric_10_2 req w).2)
  ∧ customers_exist (db (create_order numeric_10_2 req w).2).
Proof.
  intros Hunique Hexist.
  unfold create_order, insert_order, insert_customer. run_route.
  destruct (select_service_tier _ _) as [[tier sname]|]; [|done].
  destruct (select_customer_by_email _ _) as [cid|] eqn:Hsel; cbn in Hsel |- *.
  - destruct (numeric_10_2 _) as [total|]; [|done]. cbn.
    rewrite update_customer_orders.
    destruct (orders (db w) !! _) eqn:Hfree; [done|].
    destruct (tracking_id_taken _ _); [done|]. cbn.
    unfold insert_history. cbn. split.
    + by apply unique_emails_update.
    + intros k o. cbn.
      destruct (decide (k = orders_id_seq (seqs w) + 1)) as [->|Hk].
      * rewrite lookup_insert_eq. intros [= <-]. cbn.
        apply customers_update_is_Some.
        apply select_customer_by_email_found in Hsel as (c & Hc & _). by eauto.
      * rewrite lookup_insert_ne by done. intros Hk'.
        apply customers_update_is_Some. exact (Hexist k o Hk').
  - destruct (customers (db w) !! _) eqn:Hnew; [done|]. cbn.
    destruct (numeric_10_2 _) as [total|]; [|done]. cbn.
    destruct (orders (db w) !! _) eqn:Hfree; [done|].
    destruct (tracking_id_taken _ _); [done|]. cbn.
    unfold insert_history. cbn. split.
    + intros i j ci cj. cbn.
      destruct (decide (i = customers_id_seq (seqs w) + 1)) as [->|Hi];
        destruct (decide (j = customers_id_seq (seqs w) + 1)) as [->|Hj];
        rewrite ?lookup_insert_eq, ?lookup_insert_ne by done; try done.
      * intros [= <-] Hj' Hemail. cbn in Hemail.
        by destruct (select_customer_by_email_None _ _ _ _ Hsel Hj').
      * intros Hi' [= <-] Hemail. cbn in Hemail.
        by destruct (select_customer_by_email_None _ _ _ _ Hsel Hi').
      * apply Hunique.
    + intros k o. cbn.
      destruct (decide (k = orders_id_seq (seqs w) + 1)) as [->|Hk].
      * rewrite lookup_insert_eq. intros [= <-]. cbn.
        rewrite lookup_insert_eq. by eauto.
      * rewrite lookup_insert_ne by done. intros Hk'.
        destruct (Hexist k o Hk') as [c Hc].
        destruct (decide (customer_id o = customers_id_seq (seqs w) + 1)) as [Heq|Hne].
        -- rewrite Heq, lookup_insert_eq. by eauto.
        -- rewrite lookup_insert_ne by done. by eauto.
Qed.

(** The customer of [pending_world] orders again. *)
Lemma create_order_customers_witness :
  unique_emails (db (create_order round_cents standard_request pending_world).2)
  ∧ customers_exist (db (create_order round_cents standard_request pending_world).2).
Proof.
  apply (create_order_customers round_cents standard_request pending_world).
  - exact pending_world_unique_emails.
  - exact pending_world_customers_exist.
Defined.

(** ** What no route changes of an order *)

Lemma same_snapshot_refl (o : order) : same_snapshot o o.
Proof. by repeat split. Qed.

Lemma update_order_snapshot (id' : Z) (f : order -> order) (ts : timestamp) (t : tables)
    (id : Z) (o : order) :
  (∀ x, same_snapshot x (f x)) ->
  orders t !! id = Some o ->
  ∃ o', orders (update_order id' f ts t) !! id = Some o' ∧ same_snapshot o o'.
Proof.
  intros Hf Ho.
  destruct (orders t !! id') as [old|] eqn:Hold.
  - rewrite (update_order_orders _ _ _ _ _ Hold).
    destruct (decide (id = id')) as [->|Hne].
    + rewrite lookup_insert_eq. eexists. split; [reflexivity|].
      assert (old = o) as -> by congruence. exact (Hf o).
    + rewrite lookup_insert_ne by done. exists o. split; [exact Ho | apply same_snapshot_refl].
  - unfold update_order. rewrite Hold. exists o. split; [exact Ho | apply same_snapshot_refl].
Qed.

Section Snapshot.

Variable parseFloat : string -> float.
Variable numeric_10_2 : float -> option Z.
Variable gateway : string -> option paypal_response.

(** X22.  The capture route, the status route, the delivery route and the
    webhook neither delete an order nor change what it kept of its creation:
    whatever they are asked and however they end, every order is still there
    afterwards with the code, the customer, the tier, the names, the price,
    the delivery days, the keywords, the quantity, the total and the
    creation date it had.  Only [status], [payment_status] and [updated_at]
    move. *)
Theorem order_snapshot_kept (w : world) (id : Z) (o : order) :
  orders (db w) !! id = Some o ->
  (∀ req, ∃ o', orders (db (capture_payment parseFloat numeric_10_2 gateway req w).2) !! id
                = Some o' ∧ same_snapshot o o')
  ∧ (∀ req, ∃ o', orders (db (update_order_status req w).2) !! id = Some o'
                  ∧ same_snapshot o o')
  ∧ (∀ saved mailed id' fileName fileSize,
       ∃ o', orders (db (deliver_order saved mailed id' fileName fileSize w).2) !! id = Some o'
             ∧ same_snapshot o o')
  ∧ (∀ ev, ∃ o', orders (db (paypal_webhook ev w).2) !! id = Some o' ∧ same_snapshot o o').
Proof.
  intros Ho.
  assert (∃ o', orders (db w) !! id = Some o' ∧ same_snapshot o o') as Hsame
    by (exists o; split; [exact Ho | apply same_snapshot_refl]).
  split_and!.
  - intros req.
    destruct (capture_payment_all_or_nothing parseFloat numeric_10_2 gateway req w)
      as [->|(r & info & cents & ->)]; [exact Hsame|].
    unfold captured_tables, insert_history, insert_payment. cbn.
    apply update_order_snapshot; [|exact Ho]. intros x. by repeat split.
  - intros req.
    destruct (orders (db w) !! sr_id req) as [old|] eqn:Hold.
    + rewrite (update_order_status_found _ _ _ Hold). unfold insert_history. cbn.
      apply update_order_snapshot; [|exact Ho]. intros x. by repeat split.
    + by rewrite (update_order_status_not_found _ _ Hold).
  - intros saved mailed id' fileName fileSize.
    unfold deliver_order. run_route.
    destruct (select_order_with_customer id' (db w)) as [[old c]|]; [|exact Hsame].
    destruct saved as [e|]; [exact Hsame|]. cbn.
    assert (∃ o', orders (update_order id' (with_status completed) (now w) (db w)) !! id
                  = Some o' ∧ same_snapshot o o') as Hdone
      by (apply update_order_snapshot; [|exact Ho]; intros x; by repeat split).
    unfold insert_history. by destruct mailed.
  - intros ev. rewrite (proj1 (paypal_webhook_orders_history ev w)). exact Hsame.
Qed.

End Snapshot.

(** The order of [pending_world]. *)
Lemma order_snapshot_kept_witness :
  (∀ req, ∃ o', orders (db (capture_payment parse_decimal round_cents gateway_450 req
                              pending_world).2) !! 6 = Some o'
                ∧ same_snapshot (order_450 pending unpaid) o')
  ∧ (∀ req, ∃ o', orders (db (update_order_status req pending_world).2) !! 6 = Some o'
                  ∧ same_snapshot (order_450 pending unpaid) o')
  ∧ (∀ saved mailed id' fileName fileSize,
       ∃ o', orders (db (deliver_order saved mailed id' fileName fileSize pending_world).2) !! 6
             = Some o'
             ∧ same_snapshot (order_450 pending unpaid) o')
  ∧ (∀ ev, ∃ o', orders (db (paypal_webhook ev pending_world).2) !! 6 = Some o'
                 ∧ same_snapshot (order_450 pending unpaid) o').
Proof.
  apply (order_snapshot_kept parse_decimal round_cents gateway_450 pending_world 6
           (order_450 pending unpaid)).
  reflexivity.
Defined.
